(** * rigging: the Job controller and its helpers

    A shallow embedding of [job.go] and [utils.go]: error translation, the
    bounded retry loop, pod collection and the Upsert / Delete / Status
    operations of [JobControl], with the remote calls each operation issues
    recorded in order.  [job.go] is embedded in two revisions: the earlier
    one (module [Part000]) deletes the stale pods itself after the create
    call; the later one (module [JobGo]) leaves the old object to [Delete],
    waits until it is gone and creates under a backoff. *)

From Stdlib Require Import ZArith Lia Bool Ascii String.
From stdpp Require Import base option list strings pretty gmap fin_maps.

Local Open Scope string_scope.
Local Open Scope list_scope.
Local Open Scope Z_scope.

(** ** Strings and formatting *)

(** [fmt.Sprintf] restricted to the [%v] verb, the only one the embedded
    functions use.  Arguments arrive already rendered.  When the arguments
    run out Go prints [%!v(MISSING)] in place of the verb; no embedded call
    passes more arguments than its format has verbs. *)
Fixpoint Sprintf (format : string) (args : list string) : string :=
  match format with
  | EmptyString => EmptyString
  | String c rest =>
      match rest with
      | String d rest' =>
          if (Ascii.eqb c "%" && Ascii.eqb d "v")%char then
            match args with
            | a :: args' => a +:+ Sprintf rest' args'
            | [] => "%!v(MISSING)" +:+ Sprintf rest' []
            end
          else String c (Sprintf rest args)
      | EmptyString => String c EmptyString
      end
  end.

(** Rendering of an integer by [%v]. *)
Definition showZ (z : Z) : string := pretty z.

(** [sub] occurs somewhere inside [s]. *)
Definition contains (s sub : string) : Prop :=
  exists pre post : string, s = pre +:+ sub +:+ post.

(** ** Errors *)

(** [unversioned.StatusDetails] and [unversioned.Status]: what a status
    error of the API client carries. *)
Module unversioned.

Record StatusDetails : Type := mkStatusDetails {
  Name : string;
  Group : string;
  Kind : string;
  Causes : list string
}.

Record Status : Type := mkStatus {
  Message : string;
  Reason : string;
  Code : Z;                       (* int32 *)
  Details : option StatusDetails  (* *StatusDetails, nil is None *)
}.

Definition StatusReasonAlreadyExists : string := "AlreadyExists".

End unversioned.

(** HTTP status codes of [net/http]. *)
Module http.
Definition StatusConflict : Z := 409.
Definition StatusNotFound : Z := 404.
Definition StatusForbidden : Z := 403.
End http.

(** The error types of the [trace] package that the code builds. *)
Inductive ErrorKind : Type :=
| NotFoundError
| AlreadyExistsError
| AccessDeniedError
| BadParameterError
| CompareFailedError.

#[global] Instance ErrorKind_eq_dec : EqDecision ErrorKind.
Proof. solve_decision. Defined.

(** A non-nil Go [error]: a [*errors.StatusError] of the API client, an
    error of the [trace] package with its kind, or any other error value,
    of which only the text is observed.  The interface value [nil] is
    [None] of [option error]. *)
Inductive error : Type :=
| StatusError (ErrStatus : unversioned.Status)
| TraceError (kind : ErrorKind) (message : string)
| OtherError (text : string).

(** [err.Error()], what [%v] prints for an error. *)
Definition Error (e : error) : string :=
  match e with
  | StatusError st => unversioned.Message st
  | TraceError _ m => m
  | OtherError t => t
  end.

Definition isStatusError (e : error) : bool :=
  match e with StatusError _ => true | _ => false end.

Definition errorKind (e : error) : option ErrorKind :=
  match e with TraceError k _ => Some k | _ => None end.

Module trace.

(** The constructors format the message from a format string and its
    arguments. *)
Definition NotFound (format : string) (args : list string) : error :=
  TraceError NotFoundError (Sprintf format args).
Definition AlreadyExists (format : string) (args : list string) : error :=
  TraceError AlreadyExistsError (Sprintf format args).
Definition AccessDenied (format : string) (args : list string) : error :=
  TraceError AccessDeniedError (Sprintf format args).
Definition BadParameter (format : string) (args : list string) : error :=
  TraceError BadParameterError (Sprintf format args).
Definition CompareFailed (format : string) (args : list string) : error :=
  TraceError CompareFailedError (Sprintf format args).

(** Of the errors modelled here only those built by [NotFound] satisfy
    [trace.IsNotFound]. *)
Definition IsNotFound (e : error) : bool :=
  match e with TraceError NotFoundError _ => true | _ => false end.

(** [trace.Wrap] attaches the call site to a non-nil error and keeps the
    error it is given; nil stays nil.  Call sites are not observed here. *)
Definition wrapped (e : error) : error := e.
Definition Wrap (err : option error) : option error := wrapped <$> err.

End trace.

(** ** The objects of the cluster API *)

Module metav1.

Record TypeMeta : Type := mkTypeMeta {
  Kind : string;
  APIVersion : string
}.

Record ObjectMeta : Type := mkObjectMeta {
  Name : string;
  Namespace : string;
  SelfLink : string;
  UID : string;
  ResourceVersion : string;
  Labels : gmap string string;
  Annotations : gmap string string
}.

Record LabelSelector : Type := mkLabelSelector {
  MatchLabels : gmap string string
}.

Inductive DeletionPropagation : Type :=
| DeletePropagationOrphan
| DeletePropagationBackground
| DeletePropagationForeground.

Record DeleteOptions : Type := mkDeleteOptions {
  PropagationPolicy : option DeletionPropagation
}.

End metav1.

Module api.

(** The reference to the creating object that a pod's annotation
    serializes. *)
Record ObjectReference : Type := mkObjectReference {
  Kind : string;
  Namespace : string;
  Name : string;
  UID : string
}.

Record SerializedReference : Type := mkSerializedReference {
  Reference : ObjectReference
}.

End api.

Module v1.

Record PodSpec : Type := mkPodSpec {
  NodeName : string
}.

Record Pod : Type := mkPod {
  ObjectMeta : metav1.ObjectMeta;
  Spec : PodSpec
}.

Record PodTemplateSpec : Type := mkPodTemplateSpec {
  TemplateMeta : metav1.ObjectMeta
}.

Record PodList : Type := mkPodList {
  Items : list Pod
}.

End v1.

Module batchv1.

Record JobSpec : Type := mkJobSpec {
  Completions : option Z;                   (* *int32 *)
  Selector : option metav1.LabelSelector;   (* *LabelSelector *)
  Template : v1.PodTemplateSpec
}.

Record JobStatus : Type := mkJobStatus {
  Active : Z;      (* int32 *)
  Succeeded : Z    (* int32 *)
}.

Record Job : Type := mkJob {
  TypeMeta : metav1.TypeMeta;
  ObjectMeta : metav1.ObjectMeta;
  Spec : JobSpec;
  Status : JobStatus
}.

End batchv1.

(** A label selector built by [labels.Set.AsSelector] is kept as the set it
    was built from; it selects the label maps that carry every pair of the
    set. *)
Module labels.

Definition Set_ : Type := gmap string string.

Record Selector : Type := AsSelector { requirements : gmap string string }.

Definition Matches (sel : Selector) (ls : gmap string string) : bool :=
  bool_decide (map_Forall (fun k v => ls !! k = Some v) (requirements sel)).

End labels.

(** ** Effects: remote calls, the log, waiting *)

(** A value or an error, for calls whose value is only used when the error
    is nil. *)
Inductive reply (A : Type) : Type :=
| Got (a : A)
| Err (e : error).
Arguments Got {A} a.
Arguments Err {A} e.

Definition replyError {A : Type} (r : reply A) : option error :=
  match r with
  | Got _ => None
  | Err e => Some e
  end.

Module log.

Inductive Level : Type := DebugLevel | InfoLevel | WarningLevel.

(** A logging context; the only field the controller binds is ["job"]. *)
Record Entry : Type := WithFields { job : string }.

End log.

(** The requests the code sends to the cluster API. *)
Inductive Call : Type :=
| JobsGet (namespace name : string)
| JobsDelete (namespace name : string) (options : option metav1.DeleteOptions)
| JobsCreate (namespace : string) (job : batchv1.Job)
| PodsList (namespace : string) (labelSelector : labels.Selector)
| PodsDelete (namespace name : string) (options : option metav1.DeleteOptions).

(** What an execution leaves behind, in order: the remote calls with the
    error each one came back with, the log lines (of a bound entry or of the
    global logger), the waits of the retry loops with how they ended, and
    the results of an observed probe. *)
Inductive Event : Type :=
| Remote (c : Call) (err : option error)
| Logged (entry : option log.Entry) (level : log.Level) (message : string)
| Waited (period : Z) (cancelled : bool)
| Probed (result : option error).

(** A Go call returns or panics. *)
Inductive outcome (A : Type) : Type :=
| Returned (a : A)
| Panicked.
Arguments Returned {A} a.
Arguments Panicked {A}.

(** A computation over the state [W] of everything outside the process:
    the cluster, the clock, the caller's context. *)
Definition M (W A : Type) : Type := W -> outcome A * W * list Event.

Definition ret {W A : Type} (a : A) : M W A :=
  fun w => (Returned a, w, []).

Definition bind {W A B : Type} (m : M W A) (f : A -> M W B) : M W B :=
  fun w =>
    match m w with
    | (Returned a, w1, t1) =>
        match f a w1 with
        | (o, w2, t2) => (o, w2, t1 ++ t2)
        end
    | (Panicked, w1, t1) => (Panicked, w1, t1)
    end.

Definition panic {W A : Type} : M W A :=
  fun w => (Panicked, w, []).

Definition emit {W : Type} (e : Event) : M W unit :=
  fun w => (Returned tt, w, [e]).

Notation "'let*' x := m 'in' k" := (bind m (fun x => k))
  (at level 10, x pattern, m at level 100, k at level 200).

Definition result {W A : Type} (r : outcome A * W * list Event) : outcome A :=
  r.1.1.
Definition world {W A : Type} (r : outcome A * W * list Event) : W :=
  r.1.2.
Definition events {W A : Type} (r : outcome A * W * list Event) : list Event :=
  r.2.

(** The remote calls among the events, in order. *)
Definition remoteCalls (t : list Event) : list Call :=
  omap (fun e => match e with Remote c _ => Some c | _ => None end) t.

Module context.

(** The caller's context, as the retry loop sees it: a wait of [period]
    ends with the context done ([true]) or with the period elapsed. *)
Record Ctx (W : Type) : Type := mkCtx {
  DoneOrAfter : Z -> W -> bool * W
}.
Arguments DoneOrAfter {W} c period w.

(** [select] over [ctx.Done()] and [time.After(period)]. *)
Definition wait {W : Type} (ctx : Ctx W) (period : Z) : M W bool :=
  fun w =>
    match DoneOrAfter ctx period w with
    | (cancelled, w') => (Returned cancelled, w', [Waited period cancelled])
    end.

End context.

Module kubernetes.

(** The typed clients of the clientset that the code calls, each acting on
    the state of the cluster.  [Get] hands back an object next to its
    error. *)
Record Clientset (W : Type) : Type := mkClientset {
  Jobs_Get : string -> string -> W -> (batchv1.Job * option error) * W;
  Jobs_Delete : string -> string -> option metav1.DeleteOptions -> W -> option error * W;
  Jobs_Create : string -> batchv1.Job -> W -> option error * W;
  Pods_List : string -> labels.Selector -> W -> reply v1.PodList * W;
  Pods_Delete : string -> string -> option metav1.DeleteOptions -> W -> option error * W
}.
Arguments Jobs_Get {W} c namespace name w.
Arguments Jobs_Delete {W} c namespace name options w.
Arguments Jobs_Create {W} c namespace job w.
Arguments Pods_List {W} c namespace selector w.
Arguments Pods_Delete {W} c namespace name options w.

End kubernetes.

Section RemoteCalls.

Context {W : Type}.
Variable client : kubernetes.Clientset W.

Definition jobsGet (namespace name : string) : M W (batchv1.Job * option error) :=
  fun w =>
    match kubernetes.Jobs_Get client namespace name w with
    | (r, w') => (Returned r, w', [Remote (JobsGet namespace name) r.2])
    end.

Definition jobsDelete (namespace name : string)
    (options : option metav1.DeleteOptions) : M W (option error) :=
  fun w =>
    match kubernetes.Jobs_Delete client namespace name options w with
    | (r, w') => (Returned r, w', [Remote (JobsDelete namespace name options) r])
    end.

Definition jobsCreate (namespace : string) (job : batchv1.Job) : M W (option error) :=
  fun w =>
    match kubernetes.Jobs_Create client namespace job w with
    | (r, w') => (Returned r, w', [Remote (JobsCreate namespace job) r])
    end.

Definition podsList (namespace : string) (selector : labels.Selector)
    : M W (reply v1.PodList) :=
  fun w =>
    match kubernetes.Pods_List client namespace selector w with
    | (r, w') =>
        (Returned r, w', [Remote (PodsList namespace selector) (replyError r)])
    end.

Definition podsDelete (namespace name : string)
    (options : option metav1.DeleteOptions) : M W (option error) :=
  fun w =>
    match kubernetes.Pods_Delete client namespace name options w with
    | (r, w') => (Returned r, w', [Remote (PodsDelete namespace name options) r])
    end.

End RemoteCalls.

(** The logging calls without a format ([Info], [Debug], [Warning]) and with
    one ([Infof]); [entry] is [None] for the global logger. *)
Definition logs {W : Type} (entry : option log.Entry) (level : log.Level)
    (message : string) : M W unit :=
  emit (Logged entry level message).

Definition logf {W : Type} (entry : option log.Entry) (level : log.Level)
    (format : string) (args : list string) : M W unit :=
  emit (Logged entry level (Sprintf format args)).

(** ** What the embedded files take from the rest of the package and from
    the Go runtime *)

(** The constants and helpers of the package that [job.go] and [utils.go]
    use and that are declared in other files, the renderings of [%v] for
    structures, and the order in which [range] visits a map, which the
    language leaves open. *)
Class Package : Type := {
  KindJob : string;
  BatchAPIVersion : string;
  ControllerUIDLabel : string;
  AnnotationCreatedBy : string;
  formatMeta : metav1.ObjectMeta -> string;
  ParseSerializedReference : string -> reply api.SerializedReference;
  formatDetails : unversioned.StatusDetails -> string;
  DebugReport : error -> string;
  formatDuration : Z -> string;
  rangeOrder : gmap string v1.Pod -> list (string * v1.Pod);
  rangeOrder_perm : forall m, rangeOrder m ≡ₚ map_to_list m
}.

(** ** utils.go *)

Definition isEmptyDetails (details : option unversioned.StatusDetails) : bool :=
  match details with
  | None => true
  | Some d =>
      if String.eqb (unversioned.Name d) "" && String.eqb (unversioned.Group d) ""
         && String.eqb (unversioned.Kind d) ""
         && Nat.eqb (length (unversioned.Causes d)) 0
      then true
      else false
  end.

Section Utils.

Context `{Package} {W : Type}.

(** [%v] of the details pointer. *)
Definition detailsText (details : option unversioned.StatusDetails) : string :=
  match details with
  | Some d => formatDetails d
  | None => "<nil>"
  end.

Definition ConvertErrorWithContext
    (err : option error) (format : string) (args : list string) : option error :=
  match err with
  | None => None
  | Some e =>
      match e with
      | StatusError ErrStatus =>
          let message := Sprintf "%v" [Error e] in
          let message :=
            if negb (isEmptyDetails (unversioned.Details ErrStatus))
            then Sprintf "%v, details: %v"
                   [message; detailsText (unversioned.Details ErrStatus)]
            else message in
          let message :=
            if negb (String.eqb format "")
            then Sprintf "%v: %v" [Sprintf format args; message]
            else message in
          let status := ErrStatus in
          if (unversioned.Code status =? http.StatusConflict)
             && String.eqb (unversioned.Reason status)
                  unversioned.StatusReasonAlreadyExists
          then Some (trace.AlreadyExists message [])
          else if unversioned.Code status =? http.StatusNotFound
          then Some (trace.NotFound message [])
          else if unversioned.Code status =? http.StatusForbidden
          then Some (trace.AccessDenied message [])
          else Some e
      | _ => Some e
      end
  end.

Definition ConvertError (err : option error) : option error :=
  ConvertErrorWithContext err "" [].

(** The loop of [retry], entered with [i] calls made and [remaining] equal
    to [times - i]: it runs while [i < times] and the last result is an
    error. *)
Fixpoint retryLoop (ctx : context.Ctx W) (period : Z) (fn : M W (option error))
    (remaining : nat) (i : Z) (err : option error) : M W (option error) :=
  match remaining with
  | O => ret err
  | S remaining' =>
      match err with
      | None => ret err
      | Some e =>
          let* _ := logf None log.InfoLevel "attempt %v, result: %v, retry in %v"
                      [showZ (i + 1); DebugReport e; formatDuration period] in
          let* cancelled := context.wait ctx period in
          if cancelled then
            let* _ := logs None log.InfoLevel "context is closing, return" in
            ret err
          else
            let* err' := fn in
            retryLoop ctx period fn remaining' (i + 1) err'
      end
  end.

Definition retry (ctx : context.Ctx W) (times : Z) (period : Z)
    (fn : M W (option error)) : M W (option error) :=
  if times <? 1 then ret None
  else
    let* err := fn in
    retryLoop ctx period fn (Z.to_nat (times - 1)) 1 err.

(** The body of the loop of [CollectPods] over the listed pods. *)
Definition collectPod (entry : log.Entry) (fn : api.ObjectReference -> bool)
    (pods : gmap string v1.Pod) (pod : v1.Pod) : M W (gmap string v1.Pod) :=
  match metav1.Annotations (v1.ObjectMeta pod) !! AnnotationCreatedBy with
  | None => ret pods
  | Some createdBy =>
      match ParseSerializedReference createdBy with
      | Err err =>
          let* _ := logs None log.WarningLevel (DebugReport err) in
          ret pods
      | Got ref =>
          if fn (api.Reference ref) then
            let pods := <[v1.NodeName (v1.Spec pod) := pod]> pods in
            let* _ := logf (Some entry) log.InfoLevel "found pod %v on node %v"
                        [formatMeta (v1.ObjectMeta pod); v1.NodeName (v1.Spec pod)] in
            ret pods
          else ret pods
      end
  end.

Fixpoint collectLoop (entry : log.Entry) (fn : api.ObjectReference -> bool)
    (items : list v1.Pod) (pods : gmap string v1.Pod) : M W (gmap string v1.Pod) :=
  match items with
  | [] => ret pods
  | pod :: items' =>
      let* pods := collectPod entry fn pods pod in
      collectLoop entry fn items' pods
  end.

(** [matchLabels] is copied into a fresh label set; a nil map is the empty
    map. *)
Definition CollectPods (namespace : string) (matchLabels : gmap string string)
    (entry : log.Entry) (client : kubernetes.Clientset W)
    (fn : api.ObjectReference -> bool) : M W (reply (gmap string v1.Pod)) :=
  let set : labels.Set_ := matchLabels in
  let* listed := podsList client namespace (labels.AsSelector set) in
  match listed with
  | Err err =>
      match ConvertError (Some err) with
      | Some err => ret (Err err)
      | None => ret (Got ∅)
      end
  | Got podList =>
      let* pods := collectLoop entry fn (v1.Items podList) ∅ in
      ret (Got pods)
  end.

End Utils.

(** ** job.go: what its two revisions share *)

Record JobConfig (W : Type) : Type := mkJobConfig {
  Job : option batchv1.Job;                   (* *batchv1.Job *)
  Clientset : option (kubernetes.Clientset W) (* *kubernetes.Clientset *)
}.
Arguments mkJobConfig {W} Job Clientset.
Arguments Job {W} j.
Arguments Clientset {W} j.

Record JobControl (W : Type) : Type := mkJobControl {
  Config : JobConfig W;
  Entry : log.Entry
}.
Arguments mkJobControl {W} Config Entry.
Arguments Config {W} j.
Arguments Entry {W} j.

(** Reading through a pointer: a nil pointer panics. *)
Definition deref {W A : Type} (p : option A) : M W A :=
  match p with
  | Some a => ret a
  | None => panic
  end.

Definition setKind (job : batchv1.Job) (kind : string) : batchv1.Job :=
  batchv1.mkJob
    (metav1.mkTypeMeta kind (metav1.APIVersion (batchv1.TypeMeta job)))
    (batchv1.ObjectMeta job) (batchv1.Spec job) (batchv1.Status job).

Definition setAPIVersion (job : batchv1.Job) (version : string) : batchv1.Job :=
  batchv1.mkJob
    (metav1.mkTypeMeta (metav1.Kind (batchv1.TypeMeta job)) version)
    (batchv1.ObjectMeta job) (batchv1.Spec job) (batchv1.Status job).

(** The assignments [c.Job.UID = ""], [c.Job.SelfLink = ""] and
    [c.Job.ResourceVersion = ""]. *)
Definition clearIdentity (job : batchv1.Job) : batchv1.Job :=
  let meta := batchv1.ObjectMeta job in
  batchv1.mkJob (batchv1.TypeMeta job)
    (metav1.mkObjectMeta (metav1.Name meta) (metav1.Namespace meta) "" "" ""
       (metav1.Labels meta) (metav1.Annotations meta))
    (batchv1.Spec job) (batchv1.Status job).

(** The two [delete] calls on the selector's and the template's labels. *)
Definition deleteLabel (job : batchv1.Job) (sel : metav1.LabelSelector)
    (label : string) : batchv1.Job :=
  let spec := batchv1.Spec job in
  let tmeta := v1.TemplateMeta (batchv1.Template spec) in
  batchv1.mkJob (batchv1.TypeMeta job) (batchv1.ObjectMeta job)
    (batchv1.mkJobSpec (batchv1.Completions spec)
       (Some (metav1.mkLabelSelector (delete label (metav1.MatchLabels sel))))
       (v1.mkPodTemplateSpec
          (metav1.mkObjectMeta (metav1.Name tmeta) (metav1.Namespace tmeta)
             (metav1.SelfLink tmeta) (metav1.UID tmeta)
             (metav1.ResourceVersion tmeta)
             (delete label (metav1.Labels tmeta)) (metav1.Annotations tmeta))))
    (batchv1.Status job).

Section JobShared.

Context `{Package} {W : Type}.

(** The receiver's [Job] is updated in place; the configuration is handed
    back with the updated object. *)
Definition checkAndSetDefaults (c : JobConfig W) : outcome (JobConfig W * option error) :=
  match Clientset c with
  | None => Returned (c, Some (trace.BadParameter "missing parameter Clientset" []))
  | Some _ =>
      match Job c with
      | None => Panicked
      | Some job =>
          let job := setKind job KindJob in
          let job :=
            if String.eqb (metav1.APIVersion (batchv1.TypeMeta job)) ""
            then setAPIVersion job BatchAPIVersion
            else job in
          Returned (mkJobConfig (Some job) (Clientset c), None)
      end
  end.

Definition NewJobControl (config : JobConfig W) : outcome (reply (JobControl W)) :=
  match checkAndSetDefaults config with
  | Panicked => Panicked
  | Returned (config, Some err) => Returned (Err (trace.wrapped err))
  | Returned (config, None) =>
      match Job config with
      | None => Panicked
      | Some job =>
          Returned (Got (mkJobControl config
                           (log.WithFields (formatMeta (batchv1.ObjectMeta job)))))
      end
  end.

Definition collectPods (c : JobControl W) (job : batchv1.Job)
    : M W (reply (gmap string v1.Pod)) :=
  let labels : gmap string string :=
    match batchv1.Selector (batchv1.Spec job) with
    | Some selector => metav1.MatchLabels selector
    | None => ∅
    end in
  let* client := deref (Clientset (Config c)) in
  let* collected :=
    CollectPods (metav1.Namespace (batchv1.ObjectMeta job)) labels (Entry c) client
      (fun ref =>
         String.eqb (api.Kind ref) KindJob
         && String.eqb (api.UID ref) (metav1.UID (batchv1.ObjectMeta job))) in
  match collected with
  | Got pods => ret (Got pods)
  | Err err =>
      match ConvertError (Some err) with
      | Some err => ret (Err err)
      | None => ret (Got ∅)
      end
  end.

Definition Status (c : JobControl W) : M W (option error) :=
  let* client := deref (Clientset (Config c)) in
  let* cJob := deref (Job (Config c)) in
  let* (job, err) := jobsGet client (metav1.Namespace (batchv1.ObjectMeta cJob))
                        (metav1.Name (batchv1.ObjectMeta cJob)) in
  match err with
  | Some _ => ret (ConvertError err)
  | None =>
      let succeeded := batchv1.Succeeded (batchv1.Status job) in
      let active := batchv1.Active (batchv1.Status job) in
      let complete :=
        match batchv1.Completions (batchv1.Spec job) with
        | None =>
            if (succeeded >? 0) && (active =? 0) then true else false
        | Some completions =>
            if succeeded >=? completions then true else false
        end in
      if negb complete then
        ret (Some (trace.CompareFailed
                     "job %v not yet complete (succeeded: %v, active: %v)"
                     [formatMeta (batchv1.ObjectMeta job); showZ succeeded; showZ active]))
      else ret None
  end.

(** The loop over the collected pods that deletes each one and stops at
    the first error; [announce] is the log line written before a pod's
    deletion. *)
Fixpoint deleteEach (client : kubernetes.Clientset W) (namespace : string)
    (announce : v1.Pod -> M W unit) (pods : list (string * v1.Pod))
    : M W (option error) :=
  match pods with
  | [] => ret None
  | (_, pod) :: pods' =>
      let* _ := announce pod in
      let* err := podsDelete client namespace
                    (metav1.Name (v1.ObjectMeta pod)) None in
      match err with
      | Some _ => ret (ConvertError err)
      | None => deleteEach client namespace announce pods'
      end
  end.

(** The identity stripping of [Upsert], common to both revisions. *)
Definition stripForCreate (job : batchv1.Job) : batchv1.Job :=
  let job := clearIdentity job in
  match batchv1.Selector (batchv1.Spec job) with
  | Some selector => deleteLabel job selector ControllerUIDLabel
  | None => job
  end.

End JobShared.

(** ** job.go, the earlier revision (part_000): no wait after the deletion *)

Module Part000.
Section Part000.

Context `{Package} {W : Type}.

Definition Delete (c : JobControl W) (ctx : context.Ctx W) (cascade : bool)
    : M W (option error) :=
  let* cJob := deref (Job (Config c)) in
  let namespace := metav1.Namespace (batchv1.ObjectMeta cJob) in
  let name := metav1.Name (batchv1.ObjectMeta cJob) in
  let* _ := logf (Some (Entry c)) log.InfoLevel "delete %v"
              [formatMeta (batchv1.ObjectMeta cJob)] in
  let* client := deref (Clientset (Config c)) in
  let* (currentJob, err) := jobsGet client namespace name in
  match err with
  | Some _ => ret (ConvertError err)
  | None =>
      let* collected := collectPods c currentJob in
      match collected with
      | Err err => ret (trace.Wrap (Some err))
      | Got currentPods =>
          let* _ := logs (Some (Entry c)) log.InfoLevel "deleting current job" in
          let* err := jobsDelete client namespace name None in
          match err with
          | Some _ => ret (ConvertError err)
          | None =>
              let* _ :=
                if negb cascade
                then logs (Some (Entry c)) log.DebugLevel "cascade not set, returning"
                else ret tt in
              let* _ := logs (Some (Entry c)) log.InfoLevel "deleting pods" in
              deleteEach client namespace
                (fun pod => logf None log.InfoLevel "deleting pod %v"
                              [metav1.Name (v1.ObjectMeta pod)])
                (rangeOrder currentPods)
          end
      end
  end.

(** [Upsert] from the point where [currentJob] is settled: the fetched
    object, or nil when the fetch reported that there is none. *)
Definition upsertCurrent (c : JobControl W) (cJob : batchv1.Job)
    (client : kubernetes.Clientset W) (currentJob : option batchv1.Job)
    : M W (option error) :=
  let namespace := metav1.Namespace (batchv1.ObjectMeta cJob) in
  let name := metav1.Name (batchv1.ObjectMeta cJob) in
  let create (currentPods : gmap string v1.Pod) : M W (option error) :=
    let* _ := logs (Some (Entry c)) log.InfoLevel "creating new job" in
    let cJob := stripForCreate cJob in
    let* err := jobsCreate client namespace cJob in
    match err with
    | Some _ => ret (ConvertError err)
    | None =>
        let* _ := logs (Some (Entry c)) log.InfoLevel "job created successfully" in
        match currentJob with
        | Some _ =>
            let* _ := logs (Some (Entry c)) log.InfoLevel
                        "deleting pods created by previous job" in
            deleteEach client namespace
              (fun pod => logf (Some (Entry c)) log.InfoLevel "deleting pod %v"
                            [formatMeta (v1.ObjectMeta pod)])
              (rangeOrder currentPods)
        | None => ret None
        end
    end in
  match currentJob with
  | Some current =>
      let* _ := logf (Some (Entry c)) log.InfoLevel "currentJob: %v"
                  [metav1.UID (batchv1.ObjectMeta current)] in
      let* collected := collectPods c current in
      match collected with
      | Err err => ret (trace.Wrap (Some err))
      | Got currentPods =>
          let* _ := logs (Some (Entry c)) log.InfoLevel "deleting current job" in
          let* err := jobsDelete client namespace name None in
          match err with
          | Some _ => ret (ConvertError err)
          | None => create currentPods
          end
      end
  | None => create ∅
  end.

Definition Upsert (c : JobControl W) (ctx : context.Ctx W) : M W (option error) :=
  let* cJob := deref (Job (Config c)) in
  let* _ := logf (Some (Entry c)) log.InfoLevel "upsert %v"
              [formatMeta (batchv1.ObjectMeta cJob)] in
  let* client := deref (Clientset (Config c)) in
  let* (currentJob, err) :=
    jobsGet client (metav1.Namespace (batchv1.ObjectMeta cJob))
      (metav1.Name (batchv1.ObjectMeta cJob)) in
  let err := ConvertError err in
  match err with
  | Some e =>
      if negb (trace.IsNotFound e) then ret (trace.Wrap err)
      else upsertCurrent c cJob client None
  | None => upsertCurrent c cJob client (Some currentJob)
  end.

End Part000.
End Part000.

(** ** job.go, the revision that waits for the deletion *)

(** The clock behind the helpers that sleep between attempts, and the
    bounds of their policies, which the embedded files do not fix. *)
Class Timing (W : Type) : Type := {
  Sleep : Z -> W -> W;
  deletionRetries : nat;
  deletionInterval : Z;
  stillPresent : error;
  createRetries : nat;
  createInterval : Z;
  createFactor : Z
}.

Module JobGo.
Section JobGo.

Context `{Package} {W : Type} `{Timing W}.

(** A sleep of the helpers below; it cannot be cancelled, since they take
    no context. *)
Definition sleep (period : Z) : M W unit :=
  fun w => (Returned tt, Sleep period w, [Waited period false]).

(** Modelled from the spec: the loop of [waitForObjectDeletion], which is
    declared outside the embedded files.  A bounded poll at a fixed
    interval: the probe turning into NotFound is success, any other error of
    the probe ends the wait and is handed back, and while the probe still
    finds the object the poll sleeps and probes again until its attempts run
    out, which it reports as an error. *)
Fixpoint pollDeletion (retries : nat) (fn : M W (option error)) : M W (option error) :=
  let* err := fn in
  match err with
  | Some e => if trace.IsNotFound e then ret None else ret (Some e)
  | None =>
      match retries with
      | O => ret (Some stillPresent)
      | S retries' =>
          let* _ := sleep deletionInterval in
          pollDeletion retries' fn
      end
  end.

(** Modelled from the spec: [waitForObjectDeletion], declared outside the
    embedded files, is the bounded poll above with the package's number of
    attempts. *)
Definition waitForObjectDeletion (fn : M W (option error)) : M W (option error) :=
  pollDeletion deletionRetries fn.

(** Modelled from the spec: the loop of [withExponentialBackoff], which is
    declared outside the embedded files.  A bounded retry whose interval
    grows: [fn] is called once and then again after each sleep while it
    fails and attempts remain; the last result is handed back. *)
Fixpoint backoffLoop (retries : nat) (interval : Z) (fn : M W (option error))
    (err : option error) : M W (option error) :=
  match retries with
  | O => ret err
  | S retries' =>
      match err with
      | None => ret err
      | Some _ =>
          let* _ := sleep interval in
          let* err' := fn in
          backoffLoop retries' (interval * createFactor) fn err'
      end
  end.

(** Modelled from the spec: [withExponentialBackoff], declared outside the
    embedded files, makes the first call and enters the loop above. *)
Definition withExponentialBackoff (fn : M W (option error)) : M W (option error) :=
  let* err := fn in
  backoffLoop createRetries createInterval fn err.

(** Modelled from the spec: [deletePods] is declared outside the embedded
    files.  It deletes every collected pod, one call per pod, as the loop
    of the other revision does. *)
Definition deletePods (client : kubernetes.Clientset W) (namespace : string)
    (currentPods : gmap string v1.Pod) (entry : log.Entry) : M W (option error) :=
  deleteEach client namespace
    (fun pod => logf (Some entry) log.InfoLevel "deleting pod %v"
                  [formatMeta (v1.ObjectMeta pod)])
    (rangeOrder currentPods).

Definition Delete (c : JobControl W) (ctx : context.Ctx W) (cascade : bool)
    : M W (option error) :=
  let* cJob := deref (Job (Config c)) in
  let namespace := metav1.Namespace (batchv1.ObjectMeta cJob) in
  let name := metav1.Name (batchv1.ObjectMeta cJob) in
  let* _ := logf (Some (Entry c)) log.InfoLevel "delete %v"
              [formatMeta (batchv1.ObjectMeta cJob)] in
  let* client := deref (Clientset (Config c)) in
  let* (currentJob, err) := jobsGet client namespace name in
  match err with
  | Some _ => ret (ConvertError err)
  | None =>
      let* collected := collectPods c currentJob in
      match collected with
      | Err err => ret (trace.Wrap (Some err))
      | Got currentPods =>
          let* _ := logs (Some (Entry c)) log.InfoLevel "deleting current job" in
          let deletePolicy := metav1.DeletePropagationForeground in
          let* err := jobsDelete client namespace name
                        (Some (metav1.mkDeleteOptions (Some deletePolicy))) in
          match err with
          | Some _ => ret (ConvertError err)
          | None =>
              let* err := waitForObjectDeletion
                            (let* (_, err) := jobsGet client namespace name in
                             ret (ConvertError err)) in
              match err with
              | Some _ => ret (trace.Wrap err)
              | None =>
                  let* _ :=
                    if negb cascade
                    then logs (Some (Entry c)) log.InfoLevel "cascade not set, returning"
                    else ret tt in
                  let* err := deletePods client namespace currentPods (Entry c) in
                  ret (trace.Wrap err)
              end
          end
      end
  end.

(** [Upsert] from the point where [currentJob] is settled. *)
Definition upsertCurrent (c : JobControl W) (ctx : context.Ctx W)
    (cJob : batchv1.Job) (client : kubernetes.Clientset W)
    (currentJob : option batchv1.Job) : M W (option error) :=
  let namespace := metav1.Namespace (batchv1.ObjectMeta cJob) in
  let create : M W (option error) :=
    let* _ := logs (Some (Entry c)) log.InfoLevel "creating new job" in
    let cJob := stripForCreate cJob in
    let* err := withExponentialBackoff
                  (let* err := jobsCreate client namespace cJob in
                   ret (ConvertError err)) in
    ret (trace.Wrap err) in
  match currentJob with
  | Some current =>
      match NewJobControl (mkJobConfig (Some current) (Clientset (Config c))) with
      | Panicked => panic
      | Returned (Err err) => ret (ConvertError (Some err))
      | Returned (Got control) =>
          let* err := Delete control ctx true in
          match err with
          | Some _ => ret (ConvertError err)
          | None => create
          end
      end
  | None => create
  end.

Definition Upsert (c : JobControl W) (ctx : context.Ctx W) : M W (option error) :=
  let* cJob := deref (Job (Config c)) in
  let* _ := logf (Some (Entry c)) log.InfoLevel "upsert %v"
              [formatMeta (batchv1.ObjectMeta cJob)] in
  let* client := deref (Clientset (Config c)) in
  let* (currentJob, err) :=
    jobsGet client (metav1.Namespace (batchv1.ObjectMeta cJob))
      (metav1.Name (batchv1.ObjectMeta cJob)) in
  let err := ConvertError err in
  match err with
  | Some e =>
      if negb (trace.IsNotFound e) then ret (trace.Wrap err)
      else upsertCurrent c ctx cJob client None
  | None => upsertCurrent c ctx cJob client (Some currentJob)
  end.

End JobGo.
End JobGo.

(** ** A small cluster to run the operations on *)

Module Cluster.

Record State : Type := mkState {
  jobs : list batchv1.Job;
  pods : list v1.Pod
}.

Definition isJob (namespace name : string) (j : batchv1.Job) : bool :=
  String.eqb (metav1.Namespace (batchv1.ObjectMeta j)) namespace
  && String.eqb (metav1.Name (batchv1.ObjectMeta j)) name.

Definition isPod (namespace name : string) (p : v1.Pod) : bool :=
  String.eqb (metav1.Namespace (v1.ObjectMeta p)) namespace
  && String.eqb (metav1.Name (v1.ObjectMeta p)) name.

Definition inNamespace (namespace : string) (p : v1.Pod) : bool :=
  String.eqb (metav1.Namespace (v1.ObjectMeta p)) namespace.

Definition emptyMeta : metav1.ObjectMeta :=
  metav1.mkObjectMeta "" "" "" "" "" ∅ ∅.

Definition emptyJob : batchv1.Job :=
  batchv1.mkJob (metav1.mkTypeMeta "" "") emptyMeta
    (batchv1.mkJobSpec None None (v1.mkPodTemplateSpec emptyMeta))
    (batchv1.mkJobStatus 0 0).

Definition statusError (code : Z) (reason message : string) : error :=
  StatusError (unversioned.mkStatus message reason code None).

Definition notFound : error := statusError 404 "NotFound" "not found".

Definition getJob (namespace name : string) (s : State)
    : (batchv1.Job * option error) * State :=
  match List.find (isJob namespace name) (jobs s) with
  | Some j => ((j, None), s)
  | None => ((emptyJob, Some notFound), s)
  end.

Definition deleteJob (namespace name : string)
    (options : option metav1.DeleteOptions) (s : State) : option error * State :=
  match List.find (isJob namespace name) (jobs s) with
  | Some _ =>
      (None, mkState (List.filter (fun j => negb (isJob namespace name j)) (jobs s))
               (pods s))
  | None => (Some notFound, s)
  end.

Definition createJob (namespace : string) (j : batchv1.Job) (s : State)
    : option error * State :=
  match List.find (isJob namespace (metav1.Name (batchv1.ObjectMeta j))) (jobs s) with
  | Some _ => (Some (statusError 409 "AlreadyExists" "already exists"), s)
  | None => (None, mkState (jobs s ++ [j]) (pods s))
  end.

(** The pods of the namespace whose labels the selector matches. *)
Definition candidates (namespace : string) (selector : labels.Selector)
    (s : State) : list v1.Pod :=
  List.filter
    (fun p => inNamespace namespace p
              && labels.Matches selector (metav1.Labels (v1.ObjectMeta p)))
    (pods s).

Definition listPods (namespace : string) (selector : labels.Selector) (s : State)
    : reply v1.PodList * State :=
  (Got (v1.mkPodList (candidates namespace selector s)), s).

Definition deletePod (namespace name : string)
    (options : option metav1.DeleteOptions) (s : State) : option error * State :=
  match List.find (isPod namespace name) (pods s) with
  | Some _ =>
      (None, mkState (jobs s)
               (List.filter (fun p => negb (isPod namespace name p)) (pods s)))
  | None => (Some notFound, s)
  end.

Definition client : kubernetes.Clientset State :=
  kubernetes.mkClientset State getJob deleteJob createJob listPods deletePod.

(** A context that is never done. *)
Definition background : context.Ctx State :=
  context.mkCtx State (fun _ s => (false, s)).

(** An annotation of the form [Kind/UID] stands for the serialized
    reference; anything without a slash fails to parse. *)
Fixpoint splitSlash (s : string) : option (string * string) :=
  match s with
  | EmptyString => None
  | String c rest =>
      if Ascii.eqb c "/" then Some (EmptyString, rest)
      else match splitSlash rest with
           | Some (a, b) => Some (String c a, b)
           | None => None
           end
  end.

Definition parse (s : string) : reply api.SerializedReference :=
  match splitSlash s with
  | Some (kind, uid) =>
      Got (api.mkSerializedReference (api.mkObjectReference kind "" "" uid))
  | None => Err (OtherError "malformed reference")
  end.

#[global] Instance package : Package := {|
  KindJob := "Job";
  BatchAPIVersion := "batch/v1";
  ControllerUIDLabel := "controller-uid";
  AnnotationCreatedBy := "kubernetes.io/created-by";
  formatMeta := fun m => metav1.Namespace m +:+ "/" +:+ metav1.Name m;
  ParseSerializedReference := parse;
  formatDetails := fun d => unversioned.Name d;
  DebugReport := Error;
  formatDuration := showZ;
  rangeOrder := map_to_list;
  rangeOrder_perm := fun m => reflexivity (map_to_list m)
|}.

#[global] Instance timing : Timing State := {|
  Sleep := fun _ s => s;
  deletionRetries := 3;
  deletionInterval := 1;
  stillPresent := OtherError "object is still present";
  createRetries := 3;
  createInterval := 1;
  createFactor := 2
|}.

(** Sample objects. *)
Definition meta (namespace name uid : string) (ls ann : gmap string string)
    : metav1.ObjectMeta :=
  metav1.mkObjectMeta name namespace "" uid "" ls ann.

Definition job (name uid kind : string) (selector : option metav1.LabelSelector)
    (completions : option Z) (active succeeded : Z) : batchv1.Job :=
  batchv1.mkJob (metav1.mkTypeMeta kind "")
    (meta "default" name uid ∅ ∅)
    (batchv1.mkJobSpec completions selector (v1.mkPodTemplateSpec emptyMeta))
    (batchv1.mkJobStatus active succeeded).

Definition pod (name node : string) (ls ann : gmap string string) : v1.Pod :=
  v1.mkPod (meta "default" name "" ls ann) (v1.mkPodSpec node).

Definition createdBy (ref : string) : gmap string string :=
  {[ "kubernetes.io/created-by" := ref ]}.

Definition controller (j : batchv1.Job) : JobControl State :=
  mkJobControl (mkJobConfig (Some j) (Some client))
    (log.WithFields (formatMeta (batchv1.ObjectMeta j))).

End Cluster.


(** ** utils.go: the readiness checks and the status poll *)

(** The status block of a pod and the node, which the checks below read;
    [v1.Pod] above is the part of a pod that the collection reads.  Phases,
    condition types and condition statuses are strings, as in the API. *)
Module corev1.

Definition PodRunning : string := "Running".
Definition PodSucceeded : string := "Succeeded".
Definition PodFailed : string := "Failed".
Definition PodReady : string := "Ready".
Definition ConditionTrue : string := "True".

Record PodCondition : Type := mkPodCondition {
  ConditionType : string;     (* the field Type *)
  ConditionStatus : string    (* the field Status *)
}.

Record PodStatus : Type := mkPodStatus {
  Phase : string;
  Conditions : list PodCondition
}.

Record Pod : Type := mkPod {
  ObjectMeta : metav1.ObjectMeta;
  Spec : v1.PodSpec;
  Status : PodStatus
}.

Record Node : Type := mkNode {
  NodeMeta : metav1.ObjectMeta   (* the embedded ObjectMeta *)
}.

End corev1.

(** How [%q] quotes a string and how [%v] prints a map of pods and a slice
    of nodes. *)
Class Rendering : Type := {
  Quote : string -> string;
  formatPods : gmap string corev1.Pod -> string;
  formatNodes : list corev1.Node -> string
}.

(** The retry defaults of the package, which are declared in another
    file. *)
Class Defaults : Type := {
  DefaultRetryAttempts : Z;   (* int *)
  DefaultRetryPeriod : Z      (* time.Duration *)
}.

(** [fmt.Sprintf] with the verbs [%v] and [%q]; [%q] quotes its argument. *)
Fixpoint Sprintfq `{Rendering} (format : string) (args : list string) : string :=
  match format with
  | EmptyString => EmptyString
  | String c rest =>
      match rest with
      | String d rest' =>
          if (Ascii.eqb c "%" && (Ascii.eqb d "v" || Ascii.eqb d "q"))%char then
            match args with
            | a :: args' =>
                (if Ascii.eqb d "q" then Quote a else a) +:+ Sprintfq rest' args'
            | [] =>
                String "%" (String "!" (String d "(MISSING)")) +:+ Sprintfq rest' []
            end
          else String c (Sprintfq rest args)
      | EmptyString => String c EmptyString
      end
  end.

#[global] Instance StatusDetails_eq_dec : EqDecision unversioned.StatusDetails.
Proof. solve_decision. Defined.

#[global] Instance Status_eq_dec : EqDecision unversioned.Status.
Proof. solve_decision. Defined.

#[global] Instance error_eq_dec : EqDecision error.
Proof. solve_decision. Defined.

(** The loop of [getPodCondition] from index [i] on. *)
Fixpoint findCondition (conditions : list corev1.PodCondition)
    (conditionType : string) (i : Z) : Z * option corev1.PodCondition :=
  match conditions with
  | [] => (-1, None)
  | condition :: conditions' =>
      if String.eqb (corev1.ConditionType condition) conditionType
      then (i, Some condition)
      else findCondition conditions' conditionType (i + 1)
  end.

(** The status arrives through a pointer; the condition handed back is the
    element found, or nil. *)
Definition getPodCondition (status : option corev1.PodStatus)
    (conditionType : string) : Z * option corev1.PodCondition :=
  match status with
  | None => (-1, None)
  | Some status => findCondition (corev1.Conditions status) conditionType 0
  end.

Definition isPodReadyConditionTrue (status : corev1.PodStatus) : bool :=
  match getPodCondition (Some status) corev1.PodReady with
  | (_, Some condition) =>
      String.eqb (corev1.ConditionStatus condition) corev1.ConditionTrue
  | (_, None) => false
  end.

(** The package's sentinel error, built by [fmt.Errorf]. *)
Definition errPodCompleted : error := OtherError "pod ran to completion".

(** What a caller of [PollStatus] supplies: the two methods of the
    interface. *)
Record StatusReporter (W : Type) : Type := mkStatusReporter {
  reporterStatus : M W (option error);
  reporterInfof : string -> list string -> M W unit
}.
Arguments mkStatusReporter {W} reporterStatus reporterInfof.
Arguments reporterStatus {W} s.
Arguments reporterInfof {W} s format args.

Section Readiness.

Context `{Package} `{Rendering} `{Defaults} {W : Type}.

(** Every path through the body of the loop over the nodes returns, so the
    loop ends in its first round; with no node the function falls through to
    its last statement. *)
Definition checkRunningAndReady (pods : gmap string corev1.Pod)
    (nodes : list corev1.Node) (entry : log.Entry) : M W (bool * option error) :=
  match nodes with
  | node :: _ =>
      let nodeName := metav1.Name (corev1.NodeMeta node) in
      match pods !! nodeName with
      | None =>
          let* _ := logf (Some entry) log.InfoLevel "no pod found on node %v"
                      [nodeName] in
          ret (false, Some (trace.NotFound "no pod found on node %v" [nodeName]))
      | Some pod =>
          let meta := formatMeta (corev1.ObjectMeta pod) in
          let phase := corev1.Phase (corev1.Status pod) in
          if String.eqb phase corev1.PodFailed || String.eqb phase corev1.PodSucceeded
          then
            let* _ := emit (Logged (Some entry) log.InfoLevel
                              (Sprintfq "node %v: pod %v is %q" [nodeName; meta; phase])) in
            ret (false, Some errPodCompleted)
          else if String.eqb phase corev1.PodRunning
          then
            let ready := isPodReadyConditionTrue (corev1.Status pod) in
            let* _ :=
              if ready
              then logf (Some entry) log.InfoLevel "node %v: pod %v is up and running"
                     [nodeName; meta]
              else ret tt in
            ret (ready, None)
          else
            (* trace.CompareFailed with a format that quotes the phase *)
            ret (false,
                 Some (TraceError CompareFailedError
                         (Sprintfq "pod %v is not running yet, status: %q, ready: false"
                            [meta; phase])))
      end
  | [] =>
      ret (false,
           Some (trace.NotFound "no pods %v found on any nodes %v"
                   [formatPods pods; formatNodes nodes]))
  end.

(** The comparison with the sentinel is a comparison of error values; the
    sentinel is the only error of its form that the check produces. *)
Definition checkRunning (pods : gmap string corev1.Pod)
    (nodes : list corev1.Node) (entry : log.Entry) : M W (option error) :=
  let* (ready, err) := checkRunningAndReady pods nodes entry in
  if ready || bool_decide (err = Some errPodCompleted) then ret None
  else ret (trace.Wrap err).

Definition PollStatus (ctx : context.Ctx W) (retryAttempts : Z) (retryPeriod : Z)
    (reporter : StatusReporter W) : M W (option error) :=
  let retryAttempts :=
    if retryAttempts =? 0 then DefaultRetryAttempts else retryAttempts in
  let retryPeriod :=
    if retryPeriod =? 0 then DefaultRetryPeriod else retryPeriod in
  let* _ := reporterInfof reporter "Checking status retryAttempts=%v, retryPeriod=%v"
              [showZ retryAttempts; formatDuration retryPeriod] in
  retry ctx retryAttempts retryPeriod (reporterStatus reporter).

(** A job controller as a status reporter: its own [Status], and the
    [Infof] of the entry it embeds. *)
Definition jobReporter (c : JobControl W) : StatusReporter W :=
  mkStatusReporter (Status c)
    (fun format args => logf (Some (Entry c)) log.InfoLevel format args).

End Readiness.

(** Renderings, defaults and sample objects for running the checks. *)
Module Fleet.

Definition quoteMark : ascii := Ascii.ascii_of_nat 34.

#[global] Instance rendering : Rendering := {|
  Quote := fun s => String quoteMark (s +:+ String quoteMark EmptyString);
  formatPods := fun pods => "pods";
  formatNodes := fun nodes => "nodes"
|}.

#[global] Instance defaults : Defaults := {|
  DefaultRetryAttempts := 60;
  DefaultRetryPeriod := 1000000000
|}.

Definition node (name : string) : corev1.Node :=
  corev1.mkNode (Cluster.meta "" name "" ∅ ∅).

Definition pod (name node phase : string) (conditions : list corev1.PodCondition)
    : corev1.Pod :=
  corev1.mkPod (Cluster.meta "default" name "" ∅ ∅) (v1.mkPodSpec node)
    (corev1.mkPodStatus phase conditions).

Definition ready : corev1.PodCondition := corev1.mkPodCondition "Ready" "True".
Definition unready : corev1.PodCondition := corev1.mkPodCondition "Ready" "False".
Definition scheduled : corev1.PodCondition := corev1.mkPodCondition "PodScheduled" "True".

Definition entry : log.Entry := log.WithFields "default/ds".

End Fleet.

(** Clients of the small cluster that refuse one kind of request. *)
Module Faulty.

Definition forbidden : error := Cluster.statusError 403 "Forbidden" "forbidden".

Definition denyList : kubernetes.Clientset Cluster.State :=
  kubernetes.mkClientset Cluster.State Cluster.getJob Cluster.deleteJob
    Cluster.createJob (fun _ _ s => (Err forbidden, s)) Cluster.deletePod.

Definition denyDelete : kubernetes.Clientset Cluster.State :=
  kubernetes.mkClientset Cluster.State Cluster.getJob
    (fun _ _ _ s => (Some forbidden, s))
    Cluster.createJob Cluster.listPods Cluster.deletePod.

Definition denyCreate : kubernetes.Clientset Cluster.State :=
  kubernetes.mkClientset Cluster.State Cluster.getJob Cluster.deleteJob
    (fun _ _ s => (Some forbidden, s)) Cluster.listPods Cluster.deletePod.

Definition denyPodDelete : kubernetes.Clientset Cluster.State :=
  kubernetes.mkClientset Cluster.State Cluster.getJob Cluster.deleteJob
    Cluster.createJob Cluster.listPods (fun _ _ _ s => (Some forbidden, s)).

Definition controllerOn (client : kubernetes.Clientset Cluster.State)
    (j : batchv1.Job) : JobControl Cluster.State :=
  mkJobControl (mkJobConfig (Some j) (Some client))
    (log.WithFields (formatMeta (batchv1.ObjectMeta j))).

End Faulty.

(** * The sentences of the specification, and what the proofs refer to *)

(** What the claim under C8 asks of a configuration with both fields
    present: construction succeeds and leaves a kind that was supplied as it
    was. *)
Definition keepsSuppliedKind `{Package} {W : Type}
    (job : batchv1.Job) (client : kubernetes.Clientset W) : Prop :=
  metav1.Kind (batchv1.TypeMeta job) <> "" ->
  exists c' job',
    checkAndSetDefaults (mkJobConfig (Some job) (Some client)) = Returned (c', None)
    /\ Job c' = Some job'
    /\ metav1.Kind (batchv1.TypeMeta job') = metav1.Kind (batchv1.TypeMeta job).


Definition isLog (e : Event) : bool :=
  match e with Logged _ _ _ => true | _ => false end.

(** The events without the log lines. *)
Definition unlogged (t : list Event) : list Event :=
  List.filter (fun e => negb (isLog e)) t.

(** A probe whose every call shows among the events with its result. *)
Definition probe {W : Type} (f : W -> option error * W) : M W (option error) :=
  fun w =>
    match f w with
    | (r, w') => (Returned r, w', [Probed r])
    end.

(** The calls and waits that the claim under C4 describes for a run of
    retry: every failed call but the last is followed by one elapsed wait of
    the period and the next call; when the context is done during a wait,
    that wait follows the last call and nothing follows it. *)
Fixpoint retrySteps (period : Z) (failed : list error) (last : option error)
    (cancelled : bool) : list Event :=
  match failed with
  | [] => Probed last :: (if cancelled then [Waited period true] else [])
  | e :: failed' =>
      Probed (Some e) :: Waited period false
        :: retrySteps period failed' last cancelled
  end.

(** The run [r] with the events [t] in front of its own. *)
Definition after {W A : Type} (t : list Event) (r : outcome A * W * list Event)
    : outcome A * W * list Event :=
  (result r, world r, t ++ events r).

(** A pod passes the three tests of the collection: it carries the
    creation annotation, the annotation parses, and the parsed reference
    satisfies the caller's predicate. *)
Definition qualifies `{Package} (fn : api.ObjectReference -> bool) (pod : v1.Pod)
    : bool :=
  match metav1.Annotations (v1.ObjectMeta pod) !! AnnotationCreatedBy with
  | None => false
  | Some createdBy =>
      match ParseSerializedReference createdBy with
      | Got ref => fn (api.Reference ref)
      | Err _ => false
      end
  end.

(** No qualifying pod of [items] is bound to [node]. *)
Definition noneOnNode `{Package} (fn : api.ObjectReference -> bool)
    (node : string) (items : list v1.Pod) : Prop :=
  Forall (fun q => qualifies fn q = true -> v1.NodeName (v1.Spec q) <> node) items.

(** [pod] is the last pod of [items] that qualifies and is bound to
    [node]. *)
Definition lastOnNode `{Package} (fn : api.ObjectReference -> bool)
    (items : list v1.Pod) (node : string) (pod : v1.Pod) : Prop :=
  exists before later : list v1.Pod,
    items = before ++ pod :: later
    /\ qualifies fn pod = true
    /\ v1.NodeName (v1.Spec pod) = node
    /\ noneOnNode fn node later.

(** The node names of the qualifying pods, in list order. *)
Definition qualifyingNodes `{Package} (fn : api.ObjectReference -> bool)
    (items : list v1.Pod) : list string :=
  (fun p => v1.NodeName (v1.Spec p)) <$> List.filter (qualifies fn) items.

(** What the claim under C7 asks of the mapping: every qualifying pod of the
    list is in it under its node name, and it holds nothing else. *)
Definition holdsExactlyQualifying `{Package} (fn : api.ObjectReference -> bool)
    (items : list v1.Pod) (pods : gmap string v1.Pod) : Prop :=
  (forall pod, pod ∈ items -> qualifies fn pod = true ->
     pods !! v1.NodeName (v1.Spec pod) = Some pod)
  /\ (forall node pod, pods !! node = Some pod ->
        pod ∈ items /\ qualifies fn pod = true /\ v1.NodeName (v1.Spec pod) = node).

(** The mapping the loop of CollectPods builds from [pods], and the lines
    it logs. *)
Fixpoint collected `{Package} (fn : api.ObjectReference -> bool)
    (items : list v1.Pod) (pods : gmap string v1.Pod) : gmap string v1.Pod :=
  match items with
  | [] => pods
  | pod :: items' =>
      collected fn items'
        (if qualifies fn pod then <[v1.NodeName (v1.Spec pod) := pod]> pods else pods)
  end.

Definition collectLine `{Package} (entry : log.Entry)
    (fn : api.ObjectReference -> bool) (pod : v1.Pod) : list Event :=
  match metav1.Annotations (v1.ObjectMeta pod) !! AnnotationCreatedBy with
  | None => []
  | Some createdBy =>
      match ParseSerializedReference createdBy with
      | Err err => [Logged None log.WarningLevel (DebugReport err)]
      | Got ref =>
          if fn (api.Reference ref)
          then [Logged (Some entry) log.InfoLevel
                  (Sprintf "found pod %v on node %v"
                     [formatMeta (v1.ObjectMeta pod); v1.NodeName (v1.Spec pod)])]
          else []
      end
  end.

(** The owner test that collectPods hands to CollectPods for [job]. *)
Definition ownedBy `{Package} (job : batchv1.Job) (ref : api.ObjectReference) : bool :=
  String.eqb (api.Kind ref) KindJob
  && String.eqb (api.UID ref) (metav1.UID (batchv1.ObjectMeta job)).

(** The pods among [inventory] that a selector matches. *)
Definition selected (selector : labels.Selector) (inventory : list v1.Pod)
    : list v1.Pod :=
  List.filter (fun p => labels.Matches selector (metav1.Labels (v1.ObjectMeta p)))
    inventory.

(** One deletion call per collected pod, in the order the map is ranged. *)
Definition podDeletions (namespace : string) (pods : list (string * v1.Pod))
    : list Call :=
  (fun kv => PodsDelete namespace (metav1.Name (v1.ObjectMeta kv.2)) None) <$> pods.

(** The errors the remote calls came back with, in order. *)
Definition remoteErrors (t : list Event) : list (option error) :=
  omap (fun e => match e with Remote _ err => Some err | _ => None end) t.

(** No call follows a call that came back with an error. *)
Fixpoint stopsAtError (errs : list (option error)) : bool :=
  match errs with
  | [] => true
  | err :: errs' =>
      match errs' with
      | [] => true
      | _ :: _ => match err with None => stopsAtError errs' | Some _ => false end
      end
  end.

(** Two runs that differ at most in what they log. *)
Definition sameButLog {W A : Type} (r1 r2 : outcome A * W * list Event) : Prop :=
  result r1 = result r2
  /\ world r1 = world r2
  /\ unlogged (events r1) = unlogged (events r2).

(** What the claim under C1 asks of the order of the calls: a pod is only
    deleted after a create call. *)
Definition podsDeletedAfterCreate (calls : list Call) : Prop :=
  forall before later namespace name options,
    calls = before ++ PodsDelete namespace name options :: later ->
    exists namespace' job, JobsCreate namespace' job ∈ before.

(** The label map that collectPods takes from a job. *)
Definition selectorLabels (job : batchv1.Job) : gmap string string :=
  match batchv1.Selector (batchv1.Spec job) with
  | Some selector => metav1.MatchLabels selector
  | None => ∅
  end.

(** The list call that collects the pods of [job]. *)
Definition listOwned (job : batchv1.Job) : Call :=
  PodsList (metav1.Namespace (batchv1.ObjectMeta job))
    (labels.AsSelector (selectorLabels job)).

Definition foreground : option metav1.DeleteOptions :=
  Some (metav1.mkDeleteOptions (Some metav1.DeletePropagationForeground)).

(** The job as checkAndSetDefaults leaves it, and the controller that
    NewJobControl builds for a fetched job. *)
Definition withDefaults `{Package} (job : batchv1.Job) : batchv1.Job :=
  let job := setKind job KindJob in
  if String.eqb (metav1.APIVersion (batchv1.TypeMeta job)) ""
  then setAPIVersion job BatchAPIVersion
  else job.

Definition controlFor `{Package} {W : Type} (client : kubernetes.Clientset W)
    (job : batchv1.Job) : JobControl W :=
  mkJobControl (mkJobConfig (Some (withDefaults job)) (Some client))
    (log.WithFields (formatMeta (batchv1.ObjectMeta (withDefaults job)))).

(** Probes and contexts over a call counter, for running retry: a probe
    that fails on its first [failures] calls, and contexts that are never
    done or done during the first wait. *)
Definition failing (failures : nat) (calls : nat) : option error * nat :=
  (if (calls <? failures)%nat then Some (OtherError ("failure " +:+ pretty calls))
   else None,
   S calls).

Definition patient : context.Ctx nat := context.mkCtx nat (fun _ calls => (false, calls)).
Definition cancelled : context.Ctx nat := context.mkCtx nat (fun _ calls => (true, calls)).

(** No percent sign occurs in [s]. *)
Fixpoint percentFree (s : string) : bool :=
  match s with
  | EmptyString => true
  | String c rest => negb (Ascii.eqb c "%") && percentFree rest
  end.

(** No condition of [conditions] has the type [conditionType]. *)
Definition noCondition (conditionType : string)
    (conditions : list corev1.PodCondition) : Prop :=
  Forall (fun c => corev1.ConditionType c <> conditionType) conditions.

(** The phases in which a pod counts as started for [checkRunning]. *)
Definition startedPhase (phase : string) : bool :=
  String.eqb phase corev1.PodRunning || String.eqb phase corev1.PodFailed
  || String.eqb phase corev1.PodSucceeded.

(** The call creates a job. *)
Definition isCreate (call : Call) : bool :=
  match call with JobsCreate _ _ => true | _ => false end.

(** The pod clean-up as the amended claim under C5 describes it, run on the
    client from the state [w]: the pods are deleted one by one in the order
    given, and the first deletion that fails ends the clean-up.  Handed back
    are the pods whose deletion was asked for, the error of the failed
    deletion, and the state the calls left. *)
Fixpoint cleanUp {W : Type} (client : kubernetes.Clientset W) (namespace : string)
    (pods : list (string * v1.Pod)) (w : W)
    : list (string * v1.Pod) * option error * W :=
  match pods with
  | [] => ([], None, w)
  | (node, pod) :: pods' =>
      match kubernetes.Pods_Delete client namespace
              (metav1.Name (v1.ObjectMeta pod)) None w with
      | (Some e, w') => ([(node, pod)], Some e, w')
      | (None, w') =>
          match cleanUp client namespace pods' w' with
          | (asked, err, w'') => ((node, pod) :: asked, err, w'')
          end
      end
  end.

(** * Properties *)

(** ** Error translation *)

Section ErrorTranslation.

Context `{Package}.

Lemma ConvertErrorWithContext_not_status (e : error) format args :
  isStatusError e = false ->
  ConvertErrorWithContext (Some e) format args = Some e.
Proof. destruct e; simpl; intros; congruence. Qed.

Lemma ConvertError_some (e : error) :
  exists e', ConvertError (Some e) = Some e'.
Proof.
  unfold ConvertError, ConvertErrorWithContext.
  destruct e; eauto.
  repeat match goal with |- context [if ?b then _ else _] => destruct b end; eauto.
Qed.

Lemma ConvertError_none_inv (err : option error) :
  ConvertError err = None -> err = None.
Proof.
  destruct err as [e|]; [|done].
  destruct (ConvertError_some e) as [e' ->]. done.
Qed.

End ErrorTranslation.

(** C3: the translator maps nil to nil, hands back anything that is not a
    status error as it is, and maps a status error by its code: 409 with
    the reason AlreadyExists to an AlreadyExists error, 404 to NotFound,
    403 to AccessDenied; with any other code, and with 409 under another
    reason, the original error value comes back. *)
Theorem ConvertErrorWithContext_translation `{Package}
    (format : string) (args : list string) :
  ConvertErrorWithContext None format args = None
  /\ (forall e : error, isStatusError e = false ->
        ConvertErrorWithContext (Some e) format args = Some e)
  /\ (forall st : unversioned.Status,
        let out := ConvertErrorWithContext (Some (StatusError st)) format args in
        (unversioned.Code st = 409 -> unversioned.Reason st = "AlreadyExists" ->
           exists m, out = Some (TraceError AlreadyExistsError m))
        /\ (unversioned.Code st = 404 ->
              exists m, out = Some (TraceError NotFoundError m))
        /\ (unversioned.Code st = 403 ->
              exists m, out = Some (TraceError AccessDeniedError m))
        /\ (unversioned.Code st <> 409 -> unversioned.Code st <> 404 ->
            unversioned.Code st <> 403 -> out = Some (StatusError st))
        /\ (unversioned.Code st = 409 -> unversioned.Reason st <> "AlreadyExists" ->
              out = Some (StatusError st))).
Proof.
  split; [reflexivity|].
  split; [intros e He; by apply ConvertErrorWithContext_not_status|].
  intros st out. subst out.
  unfold ConvertErrorWithContext, http.StatusConflict, http.StatusNotFound,
    http.StatusForbidden, unversioned.StatusReasonAlreadyExists.
  repeat split.
  - intros -> ->. simpl. eauto.
  - intros ->. simpl. eauto.
  - intros ->. simpl. eauto.
  - intros H9 H4 H3.
    apply Z.eqb_neq in H9, H4, H3. rewrite H9, H4, H3. reflexivity.
  - intros -> Hr. apply String.eqb_neq in Hr. rewrite Hr. reflexivity.
Qed.

Lemma ConvertErrorWithContext_translation_witness :
  exists m : string,
    ConvertErrorWithContext (Some Cluster.notFound) "" []
    = Some (TraceError NotFoundError m).
Proof.
  exact (proj1 (proj2 (proj2 (proj2 (ConvertErrorWithContext_translation "" []))
                         (unversioned.mkStatus "not found" "NotFound" 404 None)))
           eq_refl).
Defined.

(** ** Status *)

Lemma append_assoc (a b c : string) : (a +:+ b) +:+ c = a +:+ b +:+ c.
Proof.
  induction a as [|x a IH]; [reflexivity|].
  change (String x ((a +:+ b) +:+ c) = String x (a +:+ b +:+ c)).
  by rewrite IH.
Qed.

Lemma contains_intro (pre sub post : string) : contains (pre +:+ sub +:+ post) sub.
Proof. by exists pre, post. Qed.

(** C2: once the job is fetched, Status succeeds exactly when, without a
    completion count, some pod succeeded and none is active, and, with a
    completion count n, at least n pods succeeded; otherwise it hands back
    a CompareFailed error whose message shows both counts. *)
Theorem Status_completion_rule `{Package} {W : Type}
    (client : kubernetes.Clientset W) (cJob : batchv1.Job) (entry : log.Entry)
    (w w' : W) (job : batchv1.Job) :
  kubernetes.Jobs_Get client (metav1.Namespace (batchv1.ObjectMeta cJob))
    (metav1.Name (batchv1.ObjectMeta cJob)) w = ((job, None), w') ->
  let c := mkJobControl (mkJobConfig (Some cJob) (Some client)) entry in
  let succeeded := batchv1.Succeeded (batchv1.Status job) in
  let active := batchv1.Active (batchv1.Status job) in
  let out := result (Status c w) in
  (batchv1.Completions (batchv1.Spec job) = None ->
     (out = Returned None <-> succeeded > 0 /\ active = 0))
  /\ (forall n : Z, batchv1.Completions (batchv1.Spec job) = Some n ->
        (out = Returned None <-> succeeded >= n))
  /\ (out <> Returned None ->
        exists m : string,
          out = Returned (Some (TraceError CompareFailedError m))
          /\ contains m ("succeeded: " +:+ showZ succeeded)
          /\ contains m ("active: " +:+ showZ active)).
Proof.
  intros Hget c succeeded active out.
  assert (Hout : out =
    if match batchv1.Completions (batchv1.Spec job) with
       | None => (succeeded >? 0) && (active =? 0)
       | Some n => succeeded >=? n
       end
    then Returned None
    else Returned (Some (trace.CompareFailed
           "job %v not yet complete (succeeded: %v, active: %v)"
           [formatMeta (batchv1.ObjectMeta job); showZ succeeded; showZ active]))).
  { subst out c. unfold Status, bind, deref, ret, jobsGet, result. simpl.
    rewrite Hget. simpl. fold succeeded active.
    destruct (batchv1.Completions (batchv1.Spec job)) as [n|].
    - destruct (succeeded >=? n); reflexivity.
    - destruct ((succeeded >? 0) && (active =? 0)); reflexivity. }
  rewrite Hout. clear Hout out.
  split; [|split].
  - intros ->.
    destruct (Z.gtb_spec succeeded 0), (Z.eqb_spec active 0); simpl;
      split; try done; try lia.
  - intros n ->.
    destruct (Z.geb_spec succeeded n); split; try done; try lia.
  - intros Hne.
    eexists. split.
    + destruct (match batchv1.Completions (batchv1.Spec job) with
                | Some n => succeeded >=? n
                | None => (succeeded >? 0) && (active =? 0)
                end); [done | reflexivity].
    + unfold trace.CompareFailed. simpl. split.
      * exists ("job " +:+ formatMeta (batchv1.ObjectMeta job)
                +:+ " not yet complete ("),
               (", active: " +:+ showZ active +:+ ")").
        rewrite !append_assoc. reflexivity.
      * exists ("job " +:+ formatMeta (batchv1.ObjectMeta job)
                +:+ " not yet complete (succeeded: " +:+ showZ succeeded +:+ ", "),
               ")".
        rewrite !append_assoc. reflexivity.
Qed.

Lemma Status_completion_rule_witness :
  result (Status (Cluster.controller (Cluster.job "j" "u" "Job" None (Some 3) 0 3))
            (Cluster.mkState [Cluster.job "j" "u" "Job" None (Some 3) 0 3] []))
  = Returned None.
Proof.
  apply (proj1 (proj2 (Status_completion_rule Cluster.client
           (Cluster.job "j" "u" "Job" None (Some 3) 0 3)
           (log.WithFields "default/j")
           (Cluster.mkState [Cluster.job "j" "u" "Job" None (Some 3) 0 3] [])
           (Cluster.mkState [Cluster.job "j" "u" "Job" None (Some 3) 0 3] [])
           (Cluster.job "j" "u" "Job" None (Some 3) 0 3) eq_refl)) 3 eq_refl).
  simpl. lia.
Defined.

(** ** Construction *)

(** C8, as stated, fails: a descriptor that arrives with the kind CronJob
    leaves construction with the kind Job. *)
Lemma checkAndSetDefaults_overwrites_kind :
  ~ keepsSuppliedKind (Cluster.job "j" "" "CronJob" None None 0 0) Cluster.client.
Proof.
  intros Hkeep.
  destruct Hkeep as (c' & job' & Hrun & Hjob & Hkind); [discriminate|].
  unfold checkAndSetDefaults in Hrun. simpl in Hrun. injection Hrun as <-.
  simpl in Hjob. injection Hjob as <-.
  simpl in Hkind. discriminate.
Qed.

(** C8, amended: with the client present, construction always sets the kind
    to the Job kind, whatever was supplied; it sets the apiVersion to the
    default only when the supplied one is empty and keeps a supplied one;
    metadata, spec, status and the client are kept. *)
Theorem checkAndSetDefaults_defaults `{Package} {W : Type}
    (job : batchv1.Job) (client : kubernetes.Clientset W) :
  exists job',
    checkAndSetDefaults (mkJobConfig (Some job) (Some client))
    = Returned (mkJobConfig (Some job') (Some client), None)
    /\ metav1.Kind (batchv1.TypeMeta job') = KindJob
    /\ (metav1.APIVersion (batchv1.TypeMeta job) = "" ->
          metav1.APIVersion (batchv1.TypeMeta job') = BatchAPIVersion)
    /\ (metav1.APIVersion (batchv1.TypeMeta job) <> "" ->
          metav1.APIVersion (batchv1.TypeMeta job')
          = metav1.APIVersion (batchv1.TypeMeta job))
    /\ batchv1.ObjectMeta job' = batchv1.ObjectMeta job
    /\ batchv1.Spec job' = batchv1.Spec job
    /\ batchv1.Status job' = batchv1.Status job.
Proof.
  unfold checkAndSetDefaults. simpl.
  destruct (String.eqb_spec (metav1.APIVersion (batchv1.TypeMeta job)) "") as [He|Hne];
    eexists; (split; [reflexivity|]); simpl; repeat split; try done.
Qed.

Lemma checkAndSetDefaults_defaults_witness :
  exists job',
    checkAndSetDefaults
      (mkJobConfig (Some (Cluster.job "j" "" "CronJob" None None 0 0))
         (Some Cluster.client))
    = Returned (mkJobConfig (Some job') (Some Cluster.client), None)
    /\ metav1.Kind (batchv1.TypeMeta job') = "Job"
    /\ metav1.APIVersion (batchv1.TypeMeta job') = "batch/v1".
Proof.
  destruct (checkAndSetDefaults_defaults
              (Cluster.job "j" "" "CronJob" None None 0 0) Cluster.client)
    as (job' & Hrun & Hkind & Hdefault & _).
  exists job'. split; [exact Hrun|]. split; [exact Hkind|].
  apply Hdefault. reflexivity.
Defined.

(** C9: construction checks the client and nothing else.  With the client
    present and no Job descriptor it panics on the nil descriptor instead of
    reporting BadParameter; the only error it ever reports is the missing
    client; with both present it succeeds. *)
Theorem NewJobControl_nil_job `{Package} {W : Type} :
  (forall client : kubernetes.Clientset W,
     checkAndSetDefaults (mkJobConfig None (Some client)) = Panicked
     /\ NewJobControl (mkJobConfig None (Some client)) = Panicked)
  /\ (forall (config : JobConfig W) (err : error),
        NewJobControl config = Returned (Err err) <->
        Clientset config = None
        /\ err = trace.BadParameter "missing parameter Clientset" [])
  /\ (forall (job : batchv1.Job) (client : kubernetes.Clientset W),
        exists c, NewJobControl (mkJobConfig (Some job) (Some client))
                  = Returned (Got c)).
Proof.
  split; [|split].
  - intros client. split; reflexivity.
  - intros [job client] err. unfold NewJobControl, checkAndSetDefaults. simpl.
    destruct client as [client|]; simpl.
    + destruct job as [job|]; simpl; split; try done; intros [? _]; done.
    + split.
      * intros [= <-]. done.
      * intros [_ ->]. done.
  - intros job client. unfold NewJobControl, checkAndSetDefaults. simpl. eauto.
Qed.

Lemma NewJobControl_nil_job_witness :
  Clientset (mkJobConfig (W := Cluster.State) (Some Cluster.emptyJob) None) = None
  /\ NewJobControl (mkJobConfig (W := Cluster.State) (Some Cluster.emptyJob) None)
     = Returned (Err (trace.BadParameter "missing parameter Clientset" [])).
Proof.
  split; [reflexivity|].
  apply (proj1 (proj2 NewJobControl_nil_job)). split; reflexivity.
Defined.

(** ** Running computations step by step *)

#[local] Arguments ConvertError : simpl never.
#[local] Arguments ConvertErrorWithContext : simpl never.
#[local] Arguments Sprintf : simpl never.

Section Running.

Context {W : Type}.
Implicit Types w : W.

Lemma after_nil {A} (r : outcome A * W * list Event) : after [] r = r.
Proof. by destruct r as [[o w] t]. Qed.

Lemma after_after {A} (t1 t2 : list Event) (r : outcome A * W * list Event) :
  after t1 (after t2 r) = after (t1 ++ t2) r.
Proof. destruct r as [[o w] t]. unfold after. simpl. by rewrite app_assoc. Qed.

Lemma result_after {A} t (r : outcome A * W * list Event) :
  result (after t r) = result r.
Proof. done. Qed.

Lemma world_after {A} t (r : outcome A * W * list Event) :
  world (after t r) = world r.
Proof. done. Qed.

Lemma events_after {A} t (r : outcome A * W * list Event) :
  events (after t r) = t ++ events r.
Proof. done. Qed.

Lemma after_ret {A} t (a : A) w : after t (ret a w) = (Returned a, w, t).
Proof. unfold after, ret. simpl. by rewrite app_nil_r. Qed.

Lemma after_panic {A} t w : after t (panic (A := A) w) = (Panicked, w, t).
Proof. unfold after, panic. simpl. by rewrite app_nil_r. Qed.

Lemma bind_run {A B} (m : M W A) (f : A -> M W B) w a w1 t1 :
  m w = (Returned a, w1, t1) -> bind m f w = after t1 (f a w1).
Proof.
  intros Hm. unfold bind, after. rewrite Hm.
  by destruct (f a w1) as [[o w2] t2].
Qed.

Lemma bind_unfold {A B} (m : M W A) (f : A -> M W B) w :
  bind m f w
  = match m w with
    | (Returned a, w1, t1) => after t1 (f a w1)
    | (Panicked, w1, t1) => (Panicked, w1, t1)
    end.
Proof.
  destruct (m w) as [[[a|] w1] t1] eqn:Hm.
  - by apply bind_run.
  - unfold bind. by rewrite Hm.
Qed.

Lemma bind_panicked {A B} (m : M W A) (f : A -> M W B) w w1 t1 :
  m w = (Panicked, w1, t1) -> bind m f w = (Panicked, w1, t1).
Proof. intros Hm. unfold bind. by rewrite Hm. Qed.

Lemma bind_ret {A B} (a : A) (f : A -> M W B) w : bind (ret a) f w = f a w.
Proof. rewrite (bind_run _ _ w a w []); [apply after_nil | done]. Qed.

Lemma bind_emit {B} (e : Event) (f : unit -> M W B) w :
  bind (emit e) f w = after [e] (f tt w).
Proof. by apply bind_run. Qed.

Lemma bind_logs {B} entry level message (f : unit -> M W B) w :
  bind (logs entry level message) f w
  = after [Logged entry level message] (f tt w).
Proof. by apply bind_run. Qed.

Lemma bind_logf {B} entry level format args (f : unit -> M W B) w :
  bind (logf entry level format args) f w
  = after [Logged entry level (Sprintf format args)] (f tt w).
Proof. by apply bind_run. Qed.

Lemma bind_deref {A B} (a : A) (f : A -> M W B) w :
  bind (deref (Some a)) f w = f a w.
Proof. apply bind_ret. Qed.

Lemma bind_wait {B} (ctx : context.Ctx W) period (f : bool -> M W B) w :
  bind (context.wait ctx period) f w
  = after [Waited period (context.DoneOrAfter ctx period w).1]
      (f (context.DoneOrAfter ctx period w).1 (context.DoneOrAfter ctx period w).2).
Proof.
  apply bind_run. unfold context.wait.
  by destruct (context.DoneOrAfter ctx period w).
Qed.

Lemma bind_probe {B} (g : W -> option error * W) (f : option error -> M W B) w :
  bind (probe g) f w = after [Probed (g w).1] (f (g w).1 (g w).2).
Proof. apply bind_run. unfold probe. by destruct (g w). Qed.

Variable client : kubernetes.Clientset W.

Lemma bind_jobsGet {B} ns name (f : batchv1.Job * option error -> M W B) w :
  bind (jobsGet client ns name) f w
  = after [Remote (JobsGet ns name) (kubernetes.Jobs_Get client ns name w).1.2]
      (f (kubernetes.Jobs_Get client ns name w).1
         (kubernetes.Jobs_Get client ns name w).2).
Proof.
  apply bind_run. unfold jobsGet. by destruct (kubernetes.Jobs_Get client ns name w).
Qed.

Lemma bind_jobsDelete {B} ns name options (f : option error -> M W B) w :
  bind (jobsDelete client ns name options) f w
  = after [Remote (JobsDelete ns name options)
             (kubernetes.Jobs_Delete client ns name options w).1]
      (f (kubernetes.Jobs_Delete client ns name options w).1
         (kubernetes.Jobs_Delete client ns name options w).2).
Proof.
  apply bind_run. unfold jobsDelete.
  by destruct (kubernetes.Jobs_Delete client ns name options w).
Qed.

Lemma bind_jobsCreate {B} ns job (f : option error -> M W B) w :
  bind (jobsCreate client ns job) f w
  = after [Remote (JobsCreate ns job) (kubernetes.Jobs_Create client ns job w).1]
      (f (kubernetes.Jobs_Create client ns job w).1
         (kubernetes.Jobs_Create client ns job w).2).
Proof.
  apply bind_run. unfold jobsCreate.
  by destruct (kubernetes.Jobs_Create client ns job w).
Qed.

Lemma bind_podsList {B} ns selector (f : reply v1.PodList -> M W B) w :
  bind (podsList client ns selector) f w
  = after [Remote (PodsList ns selector)
             (replyError (kubernetes.Pods_List client ns selector w).1)]
      (f (kubernetes.Pods_List client ns selector w).1
         (kubernetes.Pods_List client ns selector w).2).
Proof.
  apply bind_run. unfold podsList.
  by destruct (kubernetes.Pods_List client ns selector w).
Qed.

Lemma bind_podsDelete {B} ns name options (f : option error -> M W B) w :
  bind (podsDelete client ns name options) f w
  = after [Remote (PodsDelete ns name options)
             (kubernetes.Pods_Delete client ns name options w).1]
      (f (kubernetes.Pods_Delete client ns name options w).1
         (kubernetes.Pods_Delete client ns name options w).2).
Proof.
  apply bind_run. unfold podsDelete.
  by destruct (kubernetes.Pods_Delete client ns name options w).
Qed.

Lemma bind_assoc {A B C} (m : M W A) (f : A -> M W B) (g : B -> M W C) w :
  bind (bind m f) g w = bind m (fun a => bind (f a) g) w.
Proof.
  unfold bind. destruct (m w) as [[[a|] w1] t1]; [|done].
  destruct (f a w1) as [[[b|] w2] t2]; [|done].
  destruct (g b w2) as [[o w3] t3]. by rewrite app_assoc.
Qed.

End Running.

Lemma unlogged_app (t1 t2 : list Event) :
  unlogged (t1 ++ t2) = unlogged t1 ++ unlogged t2.
Proof. apply List.filter_app. Qed.

Lemma remoteCalls_app (t1 t2 : list Event) :
  remoteCalls (t1 ++ t2) = remoteCalls t1 ++ remoteCalls t2.
Proof. apply omap_app. Qed.

Create Rewrite HintDb run.

#[local] Hint Rewrite @bind_ret @bind_emit @bind_logs @bind_logf @bind_deref
  @bind_wait @bind_probe @bind_jobsGet @bind_jobsDelete @bind_jobsCreate
  @bind_podsList @bind_podsDelete @after_after @after_nil @after_ret @after_panic
  @result_after @world_after @events_after : run.
(** ** The retry loop *)

Section Retry.

Context `{Package} {W : Type}.
Variables (ctx : context.Ctx W) (period : Z) (f : W -> option error * W).

Lemma retryLoop_steps (remaining : nat) :
  forall (i : Z) (err : option error) (w : W),
    let r := retryLoop ctx period (probe f) remaining i err w in
    exists (failed : list error) (last : option error) (cancelled : bool),
      Probed err :: unlogged (events r) = retrySteps period failed last cancelled
      /\ result r = Returned last
      /\ (length failed <= remaining)%nat
      /\ (cancelled = true -> is_Some last)
      /\ (cancelled = false -> is_Some last -> length failed = remaining)
      /\ (cancelled = true ->
            exists w', (context.DoneOrAfter ctx period w').1 = true).
Proof.
  induction remaining as [|n IH]; intros i err w; simpl.
  - exists [], err, false. repeat split; try done.
  - destruct err as [e|].
    + autorewrite with run.
      destruct (context.DoneOrAfter ctx period w) as [cancelled w1] eqn:Hwait.
      destruct cancelled; simpl.
      * autorewrite with run.
        exists [], (Some e), true. repeat split; try done; try (simpl; lia).
        exists w. by rewrite Hwait.
      * autorewrite with run.
        destruct (f w1) as [err' w2]. simpl.
        destruct (IH (i + 1) err' w2)
          as (failed & last & cancelled & Hsteps & Hres & Hlen & Hc & Hx & Hctx).
        exists (e :: failed), last, cancelled. simpl.
        rewrite <- Hsteps. repeat split; try done; try (simpl; lia).
        intros Hnc Hsome. by rewrite (Hx Hnc Hsome).
    + exists [], None, false. repeat split; try done. simpl; lia.
Qed.

(** The counter of the loop shows in the log lines only. *)
Lemma retryLoop_counter (remaining : nat) :
  forall (i i' : Z) (err : option error) (w : W),
    let r := retryLoop ctx period (probe f) remaining i err w in
    let r' := retryLoop ctx period (probe f) remaining i' err w in
    result r = result r' /\ world r = world r'
    /\ unlogged (events r) = unlogged (events r').
Proof.
  induction remaining as [|n IH]; intros i i' err w; simpl; [done|].
  destruct err as [e|]; [|done].
  autorewrite with run.
  destruct (context.DoneOrAfter ctx period w) as [cancelled w1].
  destruct cancelled; simpl; autorewrite with run; [done|].
  destruct (f w1) as [err' w2]. simpl.
  destruct (IH (i + 1) (i' + 1) err' w2) as (Hres & Hw & Hev).
  by rewrite Hres, Hw, Hev.
Qed.

End Retry.

(** C4: with fewer than one attempt retry hands back success and leaves
    everything untouched, whatever fn is.  With n >= 1 attempts it calls fn;
    a call that succeeds ends the run with success, and so does the failed
    call that is the n-th, with its error.  After a failed call that is not
    the n-th it waits one period on the context: when the context is done
    during that wait, the run ends there with the error of that call and fn
    is not called again; when the period elapses, the run goes on as a run
    with n - 1 attempts from the state the wait left.  So every run is a
    row of failed calls, each followed by an elapsed wait, and a last call,
    whose result is handed back; a wait with the context done can only
    follow the last call, and only if the context was done at some state;
    under a context that is never done, a run that hands back an error has
    made n calls. *)
Theorem retry_contract `{Package} {W : Type}
    (ctx : context.Ctx W) (times period : Z) (w : W) :
  (forall fn : M W (option error),
     times <= 0 -> retry ctx times period fn w = (Returned None, w, []))
  /\ (forall (f : W -> option error * W) (w1 : W),
        1 <= times -> f w = (None, w1) ->
        retry ctx times period (probe f) w = (Returned None, w1, [Probed None]))
  /\ (forall (f : W -> option error * W) (e : error) (w1 : W),
        times = 1 -> f w = (Some e, w1) ->
        retry ctx times period (probe f) w
        = (Returned (Some e), w1, [Probed (Some e)]))
  /\ (forall (f : W -> option error * W) (e : error) (w1 w2 : W),
        2 <= times -> f w = (Some e, w1) ->
        context.DoneOrAfter ctx period w1 = (true, w2) ->
        let r := retry ctx times period (probe f) w in
        result r = Returned (Some e) /\ world r = w2
        /\ unlogged (events r) = [Probed (Some e); Waited period true])
  /\ (forall (f : W -> option error * W) (e : error) (w1 w2 : W),
        2 <= times -> f w = (Some e, w1) ->
        context.DoneOrAfter ctx period w1 = (false, w2) ->
        let r := retry ctx times period (probe f) w in
        let r' := retry ctx (times - 1) period (probe f) w2 in
        result r = result r' /\ world r = world r'
        /\ unlogged (events r)
           = Probed (Some e) :: Waited period false :: unlogged (events r'))
  /\ (forall f : W -> option error * W,
        1 <= times ->
        let r := retry ctx times period (probe f) w in
        exists (failed : list error) (last : option error) (cancelled : bool),
          unlogged (events r) = retrySteps period failed last cancelled
          /\ result r = Returned last
          /\ Z.of_nat (length failed) + 1 <= times
          /\ (cancelled = true -> is_Some last)
          /\ (cancelled = false -> is_Some last ->
                Z.of_nat (length failed) + 1 = times)
          /\ (cancelled = true ->
                exists w', (context.DoneOrAfter ctx period w').1 = true))
  /\ (forall f : W -> option error * W,
        1 <= times ->
        (forall w', (context.DoneOrAfter ctx period w').1 = false) ->
        let r := retry ctx times period (probe f) w in
        exists (failed : list error) (last : option error),
          unlogged (events r) = retrySteps period failed last false
          /\ result r = Returned last
          /\ (is_Some last -> Z.of_nat (length failed) + 1 = times)).
Proof.
  assert (Hshape : forall f : W -> option error * W,
    1 <= times ->
    let r := retry ctx times period (probe f) w in
    exists (failed : list error) (last : option error) (cancelled : bool),
      unlogged (events r) = retrySteps period failed last cancelled
      /\ result r = Returned last
      /\ Z.of_nat (length failed) + 1 <= times
      /\ (cancelled = true -> is_Some last)
      /\ (cancelled = false -> is_Some last ->
            Z.of_nat (length failed) + 1 = times)
      /\ (cancelled = true ->
            exists w', (context.DoneOrAfter ctx period w').1 = true)).
  { intros f Hge r. subst r. unfold retry.
    destruct (Z.ltb_spec times 1); [lia|].
    autorewrite with run.
    destruct (f w) as [err w1]. simpl.
    destruct (retryLoop_steps ctx period f (Z.to_nat (times - 1)) 1 err w1)
      as (failed & last & cancelled & Hsteps & Hres & Hlen & Hc & Hx & Hctx).
    exists failed, last, cancelled. repeat split; try done; try lia.
    intros Hnc Hsome. rewrite (Hx Hnc Hsome). lia. }
  split; [|split; [|split; [|split; [|split; [|split]]]]].
  - intros fn Hle. unfold retry.
    destruct (Z.ltb_spec times 1); [reflexivity | lia].
  - intros f w1 Hge Hcall. unfold retry.
    destruct (Z.ltb_spec times 1); [lia|].
    autorewrite with run. rewrite Hcall. simpl.
    destruct (Z.to_nat (times - 1)); simpl; by autorewrite with run.
  - intros f e w1 -> Hcall. unfold retry. simpl.
    autorewrite with run. rewrite Hcall. simpl. by autorewrite with run.
  - intros f e w1 w2 Hge Hcall Hwait r. subst r. unfold retry.
    destruct (Z.ltb_spec times 1); [lia|].
    autorewrite with run. rewrite Hcall. simpl.
    replace (Z.to_nat (times - 1)) with (S (Z.to_nat (times - 1 - 1))) by lia.
    simpl. autorewrite with run. rewrite Hwait. simpl.
    by autorewrite with run.
  - intros f e w1 w2 Hge Hcall Hwait r r'. subst r r'. unfold retry.
    destruct (Z.ltb_spec times 1); [lia|].
    destruct (Z.ltb_spec (times - 1) 1); [lia|].
    autorewrite with run. rewrite Hcall. simpl.
    replace (Z.to_nat (times - 1)) with (S (Z.to_nat (times - 1 - 1))) by lia.
    simpl. autorewrite with run. rewrite Hwait. simpl.
    autorewrite with run.
    destruct (f w2) as [err' w3]. simpl.
    destruct (retryLoop_counter ctx period f (Z.to_nat (times - 1 - 1))
                (1 + 1) 1 err' w3) as (Hres & Hw & Hev).
    rewrite ?unlogged_app. simpl. by rewrite Hres, Hw, Hev.
  - exact Hshape.
  - intros f Hge Hnever r.
    destruct (Hshape f Hge) as (failed & last & cancelled & Hsteps & Hres & _ & _
                                & Hx & Hctx).
    destruct cancelled.
    + destruct (Hctx eq_refl) as [w' Hdone]. by rewrite Hnever in Hdone.
    + exists failed, last. split; [done|]. split; [done|]. by apply Hx.
Qed.

Lemma retry_contract_witness :
  retry patient 0 50 (probe (failing 1)) 0%nat = (Returned None, 0%nat, [])
  /\ (let r := retry cancelled 3 50 (probe (failing 5)) 0%nat in
      result r = Returned (Some (OtherError "failure 0")) /\ world r = 1%nat
      /\ unlogged (events r)
         = [Probed (Some (OtherError "failure 0")); Waited 50 true])
  /\ (let r := retry patient 3 50 (probe (failing 5)) 0%nat in
      let r' := retry patient (3 - 1) 50 (probe (failing 5)) 1%nat in
      result r = result r' /\ world r = world r'
      /\ unlogged (events r)
         = Probed (Some (OtherError "failure 0")) :: Waited 50 false
             :: unlogged (events r'))
  /\ (let r := retry patient 3 50 (probe (failing 5)) 0%nat in
      exists (failed : list error) (last : option error),
        unlogged (events r) = retrySteps 50 failed last false
        /\ result r = Returned last
        /\ (is_Some last -> Z.of_nat (length failed) + 1 = 3)).
Proof.
  split; [|split; [|split]].
  - apply (proj1 (retry_contract patient 0 50 0%nat)). lia.
  - apply (proj1 (proj2 (proj2 (proj2 (retry_contract cancelled 3 50 0%nat))))
             (failing 5) (OtherError "failure 0") 1%nat 1%nat);
      [lia | reflexivity | reflexivity].
  - apply (proj1 (proj2 (proj2 (proj2 (proj2 (retry_contract patient 3 50 0%nat)))))
             (failing 5) (OtherError "failure 0") 1%nat 1%nat);
      [lia | reflexivity | reflexivity].
  - apply (proj2 (proj2 (proj2 (proj2 (proj2 (proj2
             (retry_contract patient 3 50 0%nat))))))
             (failing 5)); [lia | intros w'; reflexivity].
Defined.

(** The runs of retry that the specification lists as tests: three attempts
    over a probe that fails twice succeed with the third call; two attempts
    over a probe that always fails hand back the error of the second call
    and make no third; a context done during the first wait hands back the
    first error after one call. *)
Example retry_third_call_succeeds :
  let r := retry patient 3 50 (probe (failing 2)) 0%nat in
  result r = Returned None /\ world r = 3%nat
  /\ unlogged (events r)
     = [Probed (Some (OtherError "failure 0")); Waited 50 false;
        Probed (Some (OtherError "failure 1")); Waited 50 false; Probed None].
Proof. vm_compute. done. Qed.

Example retry_exhausted_hands_back_last_error :
  let r := retry patient 2 50 (probe (failing 5)) 0%nat in
  result r = Returned (Some (OtherError "failure 1")) /\ world r = 2%nat.
Proof. vm_compute. done. Qed.

Example retry_cancelled_during_wait :
  let r := retry cancelled 3 50 (probe (failing 5)) 0%nat in
  result r = Returned (Some (OtherError "failure 0")) /\ world r = 1%nat
  /\ unlogged (events r) = [Probed (Some (OtherError "failure 0")); Waited 50 true].
Proof. vm_compute. done. Qed.

(** ** Pod collection *)

Section Collection.

Context `{Package} {W : Type}.
Variables (entry : log.Entry) (fn : api.ObjectReference -> bool).

Lemma collectPod_run (pods : gmap string v1.Pod) (pod : v1.Pod) (w : W) :
  collectPod entry fn pods pod w
  = (Returned (if qualifies fn pod
               then <[v1.NodeName (v1.Spec pod) := pod]> pods else pods),
     w, collectLine entry fn pod).
Proof.
  unfold collectPod, qualifies, collectLine.
  destruct (metav1.Annotations (v1.ObjectMeta pod) !! AnnotationCreatedBy)
    as [createdBy|]; [|done].
  destruct (ParseSerializedReference createdBy) as [ref|err].
  - destruct (fn (api.Reference ref)); [|done].
    by autorewrite with run.
  - by autorewrite with run.
Qed.

Lemma collectLoop_run (items : list v1.Pod) :
  forall (pods : gmap string v1.Pod) (w : W),
    collectLoop entry fn items pods w
    = (Returned (collected fn items pods), w,
       concat (collectLine entry fn <$> items)).
Proof.
  induction items as [|pod items IH]; intros pods w; [done|].
  simpl. rewrite (bind_run _ _ _ _ _ _ (collectPod_run pods pod w)).
  by rewrite IH.
Qed.

Lemma remoteCalls_collectLine (pod : v1.Pod) :
  remoteCalls (collectLine entry fn pod) = [].
Proof.
  unfold collectLine.
  destruct (metav1.Annotations (v1.ObjectMeta pod) !! AnnotationCreatedBy)
    as [createdBy|]; [|done].
  destruct (ParseSerializedReference createdBy) as [ref|err]; [|done].
  by destruct (fn (api.Reference ref)).
Qed.

Lemma remoteCalls_collectLines (items : list v1.Pod) :
  remoteCalls (concat (collectLine entry fn <$> items)) = [].
Proof.
  induction items as [|pod items IH]; [done|].
  csimpl. by rewrite remoteCalls_app, remoteCalls_collectLine, IH.
Qed.

Lemma unlogged_collectLines (items : list v1.Pod) :
  unlogged (concat (collectLine entry fn <$> items)) = [].
Proof.
  induction items as [|pod items IH]; [done|].
  csimpl. rewrite unlogged_app, IH, app_nil_r. unfold collectLine.
  destruct (metav1.Annotations (v1.ObjectMeta pod) !! AnnotationCreatedBy)
    as [createdBy|]; [|done].
  destruct (ParseSerializedReference createdBy) as [ref|err]; [|done].
  by destruct (fn (api.Reference ref)).
Qed.

Lemma lastOnNode_cons (p : v1.Pod) (items : list v1.Pod) node pod :
  lastOnNode fn (p :: items) node pod <->
  lastOnNode fn items node pod
  \/ (p = pod /\ qualifies fn pod = true /\ v1.NodeName (v1.Spec pod) = node
      /\ noneOnNode fn node items).
Proof.
  split.
  - intros (before & later & Heq & Hq & Hn & Hall).
    destruct before as [|b before]; simpl in Heq.
    + injection Heq as -> ->. right. done.
    + injection Heq as -> ->. left. by exists before, later.
  - intros [(before & later & -> & Hq & Hn & Hall) | (-> & Hq & Hn & Hall)].
    + by exists (p :: before), later.
    + by exists [], items.
Qed.

Lemma collected_lookup (items : list v1.Pod) :
  forall (pods : gmap string v1.Pod) node pod,
    collected fn items pods !! node = Some pod <->
    lastOnNode fn items node pod
    \/ (pods !! node = Some pod /\ noneOnNode fn node items).
Proof.
  induction items as [|p items IH]; intros pods node pod; simpl.
  - split.
    + intros Hl. right. split; [done | constructor].
    + intros [(before & later & Heq & _) | [Hl _]]; [|done].
      by destruct before.
  - rewrite IH, lastOnNode_cons. unfold noneOnNode.
    rewrite Forall_cons.
    destruct (qualifies fn p) eqn:Hq.
    + destruct (decide (v1.NodeName (v1.Spec p) = node)) as [Hn|Hn].
      * subst node. rewrite lookup_insert_eq. split.
        -- intros [Hlast | [[= <-] Hnone]]; [by left; left|].
           left. right. done.
        -- intros [[Hlast | (<- & _ & _ & Hnone)] | [_ [Hp _]]].
           ++ by left.
           ++ by right.
           ++ by destruct Hp.
      * rewrite lookup_insert_ne by done. split.
        -- intros [Hlast | [Hl Hnone]]; [by left; left|].
           right. done.
        -- intros [[Hlast | (<- & _ & Hn' & _)] | [Hl [_ Hnone]]].
           ++ by left.
           ++ done.
           ++ by right.
    + split.
      * intros [Hlast | [Hl Hnone]]; [by left; left|].
        right. split; [done|]. split; [|done]. intros Hq'. congruence.
      * intros [[Hlast | (<- & Hq' & _)] | [Hl [_ Hnone]]].
        -- by left.
        -- congruence.
        -- by right.
Qed.

Lemma collected_empty_lookup (items : list v1.Pod) node pod :
  collected fn items ∅ !! node = Some pod <-> lastOnNode fn items node pod.
Proof.
  rewrite collected_lookup. split; [|by left].
  intros [Hlast | [Hl _]]; [done|]. by rewrite lookup_empty in Hl.
Qed.

Lemma warned_collectLines (items : list v1.Pod) pod createdBy err :
  pod ∈ items ->
  metav1.Annotations (v1.ObjectMeta pod) !! AnnotationCreatedBy = Some createdBy ->
  ParseSerializedReference createdBy = Err err ->
  Logged None log.WarningLevel (DebugReport err)
    ∈ concat (collectLine entry fn <$> items).
Proof.
  intros Hin Hann Hparse.
  induction items as [|p items IH]; [by apply elem_of_nil in Hin|].
  csimpl. apply elem_of_app. apply elem_of_cons in Hin as [<-|Hin].
  - left. unfold collectLine. rewrite Hann, Hparse. by apply list_elem_of_singleton.
  - right. by apply IH.
Qed.

End Collection.

Section CollectPodsFacts.

Context `{Package} {W : Type}.

Lemma CollectPods_run (namespace : string) (matchLabels : gmap string string)
    (entry : log.Entry) (client : kubernetes.Clientset W)
    (fn : api.ObjectReference -> bool) (w : W) :
  CollectPods namespace matchLabels entry client fn w
  = match kubernetes.Pods_List client namespace (labels.AsSelector matchLabels) w with
    | (Got podList, w') =>
        (Returned (Got (collected fn (v1.Items podList) ∅)), w',
         Remote (PodsList namespace (labels.AsSelector matchLabels)) None
           :: concat (collectLine entry fn <$> v1.Items podList))
    | (Err err, w') =>
        (Returned (match ConvertError (Some err) with
                   | Some err => Err err
                   | None => Got ∅
                   end), w',
         [Remote (PodsList namespace (labels.AsSelector matchLabels)) (Some err)])
    end.
Proof.
  unfold CollectPods. autorewrite with run.
  destruct (kubernetes.Pods_List client namespace (labels.AsSelector matchLabels) w)
    as [[podList|err] w']; simpl.
  - rewrite (bind_run _ _ _ _ _ _ (collectLoop_run entry fn _ ∅ w')).
    by autorewrite with run.
  - destruct (ConvertError (Some err)); by autorewrite with run.
Qed.

Lemma noneOnNode_later (fn : api.ObjectReference -> bool)
    (before later : list v1.Pod) (pod : v1.Pod) :
  qualifies fn pod = true ->
  NoDup (qualifyingNodes fn (before ++ pod :: later)) ->
  noneOnNode fn (v1.NodeName (v1.Spec pod)) later.
Proof.
  unfold qualifyingNodes, noneOnNode. intros Hq Hnd.
  rewrite List.filter_app in Hnd. simpl in Hnd. rewrite Hq in Hnd.
  rewrite fmap_app, fmap_cons in Hnd.
  apply NoDup_app in Hnd as (_ & _ & Hnd).
  apply NoDup_cons in Hnd as [Hnotin _].
  apply Forall_forall. intros q Hin Hqq Heq. apply Hnotin.
  rewrite <- Heq.
  apply (list_elem_of_fmap_2 (fun p => v1.NodeName (v1.Spec p))).
  apply list_elem_of_In, List.filter_In. split; [by apply list_elem_of_In | done].
Qed.

End CollectPodsFacts.

(** C7, as stated, fails: of two qualifying pods bound to the same node the
    mapping keeps only the one listed last. *)
Lemma CollectPods_same_node_overwrites :
  let owned := fun ref : api.ObjectReference =>
    String.eqb (api.Kind ref) "Job" && String.eqb (api.UID ref) "uid-1" in
  let p1 := Cluster.pod "p1" "n1" ∅ (Cluster.createdBy "Job/uid-1") in
  let p2 := Cluster.pod "p2" "n1" ∅ (Cluster.createdBy "Job/uid-1") in
  exists pods : gmap string v1.Pod,
    result (CollectPods "default" ∅ (log.WithFields "default/j") Cluster.client owned
              (Cluster.mkState [] [p1; p2]))
    = Returned (Got pods)
    /\ ~ holdsExactlyQualifying owned [p1; p2] pods.
Proof.
  intros owned p1 p2. eexists. split.
  - rewrite CollectPods_run. reflexivity.
  - intros [Hall _].
    assert (Hin : p1 ∈ [p1; p2]) by apply list_elem_of_here.
    specialize (Hall p1 Hin eq_refl).
    vm_compute in Hall. discriminate Hall.
Qed.

(** C7, amended: when the list call succeeds, CollectPods hands back,
    without an error and after that one remote call, a mapping that holds
    under each node name the last listed pod that is bound to the node,
    carries the creation annotation, parses and satisfies the owner
    predicate.  A pod without the annotation is skipped; a pod whose
    annotation does not parse is skipped with a warning in the log while the
    rest is still collected.  When no two qualifying pods share a node, the
    mapping holds exactly the qualifying pods, each under its node name. *)
Theorem CollectPods_collects `{Package} {W : Type}
    (namespace : string) (matchLabels : gmap string string) (entry : log.Entry)
    (client : kubernetes.Clientset W) (fn : api.ObjectReference -> bool)
    (w w' : W) (podList : v1.PodList) :
  kubernetes.Pods_List client namespace (labels.AsSelector matchLabels) w
  = (Got podList, w') ->
  let r := CollectPods namespace matchLabels entry client fn w in
  exists pods : gmap string v1.Pod,
    result r = Returned (Got pods)
    /\ world r = w'
    /\ remoteCalls (events r) = [PodsList namespace (labels.AsSelector matchLabels)]
    /\ (forall node pod,
          pods !! node = Some pod <-> lastOnNode fn (v1.Items podList) node pod)
    /\ (forall pod createdBy err,
          pod ∈ v1.Items podList ->
          metav1.Annotations (v1.ObjectMeta pod) !! AnnotationCreatedBy = Some createdBy ->
          ParseSerializedReference createdBy = Err err ->
          Logged None log.WarningLevel (DebugReport err) ∈ events r)
    /\ (NoDup (qualifyingNodes fn (v1.Items podList)) ->
          holdsExactlyQualifying fn (v1.Items podList) pods).
Proof.
  intros Hlist r. subst r. rewrite CollectPods_run, Hlist.
  exists (collected fn (v1.Items podList) ∅).
  unfold result, world, events. simpl.
  split; [done|]. split; [done|]. split.
  { by rewrite (remoteCalls_collectLines entry fn). }
  split; [intros node pod; apply collected_empty_lookup|].
  split.
  { intros pod createdBy err Hin Hann Hparse.
    apply elem_of_cons. right. by eapply warned_collectLines. }
  intros Hnd. split.
  - intros pod Hin Hq. apply collected_empty_lookup.
    apply list_elem_of_split in Hin as (before & later & Heq).
    exists before, later. repeat split; try done.
    rewrite Heq in Hnd. by apply noneOnNode_later in Hnd.
  - intros node pod Hl. apply collected_empty_lookup in Hl
      as (before & later & Heq & Hq & Hn & _).
    split; [|done]. rewrite Heq. apply elem_of_app. right. apply list_elem_of_here.
Qed.

Lemma CollectPods_collects_witness :
  let owned := fun ref : api.ObjectReference =>
    String.eqb (api.Kind ref) "Job" && String.eqb (api.UID ref) "uid-1" in
  let p1 := Cluster.pod "p1" "n1" ∅ (Cluster.createdBy "Job/uid-1") in
  let p2 := Cluster.pod "p2" "n2" ∅ (Cluster.createdBy "Job/uid-2") in
  let s := Cluster.mkState [] [p1; p2] in
  exists pods : gmap string v1.Pod,
    result (CollectPods "default" ∅ (log.WithFields "default/j") Cluster.client owned s)
    = Returned (Got pods)
    /\ holdsExactlyQualifying owned [p1; p2] pods.
Proof.
  intros owned p1 p2 s.
  assert (Hlist : kubernetes.Pods_List Cluster.client "default" (labels.AsSelector ∅) s
                  = (Got (v1.mkPodList [p1; p2]), s)) by (vm_compute; reflexivity).
  destruct (CollectPods_collects "default" ∅ (log.WithFields "default/j")
              Cluster.client owned s s (v1.mkPodList [p1; p2]) Hlist)
    as (pods & Hres & _ & _ & _ & _ & Hexact).
  exists pods. split; [exact Hres|].
  apply Hexact. vm_compute. apply NoDup_cons. split; [apply not_elem_of_nil | apply NoDup_nil_2].
Defined.

(** ** collectPods *)

Section CollectPodsOfJob.

Context `{Package} {W : Type}.

Lemma collectPods_run (c : JobControl W) (client : kubernetes.Clientset W)
    (job : batchv1.Job) (w : W) :
  Clientset (Config c) = Some client ->
  let ns := metav1.Namespace (batchv1.ObjectMeta job) in
  let matchLabels :=
    match batchv1.Selector (batchv1.Spec job) with
    | Some selector => metav1.MatchLabels selector
    | None => ∅
    end in
  collectPods c job w
  = match kubernetes.Pods_List client ns (labels.AsSelector matchLabels) w with
    | (Got podList, w') =>
        (Returned (Got (collected (ownedBy job) (v1.Items podList) ∅)), w',
         Remote (PodsList ns (labels.AsSelector matchLabels)) None
           :: concat (collectLine (Entry c) (ownedBy job) <$> v1.Items podList))
    | (Err err, w') =>
        (Returned (match ConvertError (Some err) with
                   | Some err =>
                       match ConvertError (Some err) with
                       | Some err => Err err
                       | None => Got ∅
                       end
                   | None => Got ∅
                   end), w',
         [Remote (PodsList ns (labels.AsSelector matchLabels)) (Some err)])
    end.
Proof.
  intros Hclient ns matchLabels. unfold collectPods. rewrite Hclient.
  autorewrite with run. fold ns matchLabels.
  rewrite bind_unfold, CollectPods_run.
  destruct (kubernetes.Pods_List client ns (labels.AsSelector matchLabels) w)
    as [[podList|err] w'].
  - by autorewrite with run.
  - destruct (ConvertError (Some err)) as [err'|]; autorewrite with run; [|done].
    destruct (ConvertError (Some err')); by autorewrite with run.
Qed.

Lemma Matches_empty (ls : gmap string string) :
  labels.Matches (labels.AsSelector ∅) ls = true.
Proof. apply bool_decide_eq_true. apply map_Forall_empty. Qed.

Lemma selected_empty (inventory : list v1.Pod) :
  selected (labels.AsSelector ∅) inventory = inventory.
Proof.
  unfold selected. induction inventory as [|p inventory IH]; [done|].
  simpl. by rewrite Matches_empty, IH.
Qed.

End CollectPodsOfJob.

(** C10: for a job without a selector collectPods lists the pods of the
    job's namespace under the selector built from the empty label set.  That
    selector matches every label map, so a cluster that answers the list
    call with the pods of the namespace that the selector matches answers
    with all of them, and the collected mapping is decided by the creation
    annotation and the owner test alone. *)
Theorem collectPods_nil_selector `{Package} {W : Type}
    (c : JobControl W) (client : kubernetes.Clientset W) (job : batchv1.Job) (w : W) :
  Clientset (Config c) = Some client ->
  batchv1.Selector (batchv1.Spec job) = None ->
  let ns := metav1.Namespace (batchv1.ObjectMeta job) in
  let r := collectPods c job w in
  remoteCalls (events r) = [PodsList ns (labels.AsSelector ∅)]
  /\ (forall ls : gmap string string, labels.Matches (labels.AsSelector ∅) ls = true)
  /\ (forall inventory : list v1.Pod,
        selected (labels.AsSelector ∅) inventory = inventory)
  /\ (forall (inventory : list v1.Pod) (w' : W),
        kubernetes.Pods_List client ns (labels.AsSelector ∅) w
        = (Got (v1.mkPodList (selected (labels.AsSelector ∅) inventory)), w') ->
        exists pods : gmap string v1.Pod,
          result r = Returned (Got pods)
          /\ forall node pod,
               pods !! node = Some pod <-> lastOnNode (ownedBy job) inventory node pod).
Proof.
  intros Hclient Hsel ns r.
  pose proof (collectPods_run c client job w Hclient) as Hrun.
  simpl in Hrun. rewrite Hsel in Hrun. fold ns in Hrun. fold r in Hrun.
  split; [|split; [apply Matches_empty|split; [apply selected_empty|]]].
  - rewrite Hrun.
    destruct (kubernetes.Pods_List client ns (labels.AsSelector ∅) w)
      as [[podList|err] w']; unfold events; simpl; [|done].
    by rewrite (remoteCalls_collectLines (Entry c) (ownedBy job)).
  - intros inventory w' Hlist. rewrite Hrun, Hlist, selected_empty.
    eexists. split; [reflexivity|].
    intros node pod. apply collected_empty_lookup.
Qed.

Lemma collectPods_nil_selector_witness :
  let old := Cluster.job "j" "uid-1" "Job" None None 0 0 in
  let p1 := Cluster.pod "p1" "n1" {[ "app" := "a" ]} (Cluster.createdBy "Job/uid-1") in
  let p2 := Cluster.pod "p2" "n2" {[ "app" := "b" ]} (Cluster.createdBy "Job/uid-2") in
  let s := Cluster.mkState [old] [p1; p2] in
  exists pods : gmap string v1.Pod,
    result (collectPods (Cluster.controller old) old s) = Returned (Got pods)
    /\ pods !! "n1" = Some p1.
Proof.
  intros old p1 p2 s.
  assert (Hlist : kubernetes.Pods_List Cluster.client "default" (labels.AsSelector ∅) s
                  = (Got (v1.mkPodList (selected (labels.AsSelector ∅) [p1; p2])), s))
    by (vm_compute; reflexivity).
  destruct (proj2 (proj2 (proj2
              (collectPods_nil_selector (Cluster.controller old) Cluster.client old s
                 eq_refl eq_refl))) [p1; p2] s Hlist) as (pods & Hres & Hiff).
  exists pods. split; [exact Hres|].
  apply Hiff. exists [], [p2]. split; [reflexivity|]. split; [reflexivity|].
  split; [reflexivity|].
  apply Forall_cons. split; [|apply Forall_nil_2].
  intros Hq. vm_compute in Hq. discriminate Hq.
Defined.

(** ** Events of the deletion loop *)

#[local] Arguments stopsAtError : simpl never.

Lemma remoteCalls_unlogged (t : list Event) : remoteCalls (unlogged t) = remoteCalls t.
Proof.
  induction t as [|e t IH]; [done|].
  destruct e; simpl; by rewrite ?IH.
Qed.

Lemma remoteErrors_unlogged (t : list Event) : remoteErrors (unlogged t) = remoteErrors t.
Proof.
  induction t as [|e t IH]; [done|].
  destruct e; simpl; by rewrite ?IH.
Qed.

Lemma remoteErrors_app (t1 t2 : list Event) :
  remoteErrors (t1 ++ t2) = remoteErrors t1 ++ remoteErrors t2.
Proof. apply omap_app. Qed.

Lemma stopsAtError_cons_None (errs : list (option error)) :
  stopsAtError (None :: errs) = stopsAtError errs.
Proof. by destruct errs. Qed.

Lemma stopsAtError_app_None (oks errs : list (option error)) :
  Forall (fun e => e = None) oks ->
  stopsAtError (oks ++ errs) = stopsAtError errs.
Proof.
  induction 1 as [|e oks -> _ IH]; [done|].
  change ((None :: oks) ++ errs) with (None :: (oks ++ errs)).
  by rewrite stopsAtError_cons_None.
Qed.

Section DeleteEach.

Context `{Package} {W : Type}.
Variables (client : kubernetes.Clientset W) (namespace : string)
  (announce : v1.Pod -> M W unit).
Hypothesis announce_logs :
  forall pod w, exists t, announce pod w = (Returned tt, w, t) /\ unlogged t = [].

Lemma deleteEach_calls (pods : list (string * v1.Pod)) :
  forall w : W,
    let r := deleteEach client namespace announce pods w in
    (exists err, result r = Returned err)
    /\ remoteCalls (events r) `prefix_of` podDeletions namespace pods
    /\ (result r = Returned None ->
          remoteCalls (events r) = podDeletions namespace pods
          /\ Forall (fun e => e = None) (remoteErrors (events r)))
    /\ stopsAtError (remoteErrors (events r)) = true.
Proof.
  induction pods as [|[node pod] pods IH]; intros w; simpl.
  - repeat split; eauto using prefix_nil.
  - destruct (announce_logs pod w) as (t & Hrun & Hlog).
    rewrite (bind_run _ _ _ _ _ _ Hrun). autorewrite with run.
    assert (Hcalls : remoteCalls t = []).
    { by rewrite <- remoteCalls_unlogged, Hlog. }
    assert (Herrs : remoteErrors t = []).
    { by rewrite <- remoteErrors_unlogged, Hlog. }
    destruct (kubernetes.Pods_Delete client namespace
                (metav1.Name (v1.ObjectMeta pod)) None w) as [[e|] w1]; simpl.
    + autorewrite with run. unfold result, events. simpl.
      rewrite remoteCalls_app, remoteErrors_app, Hcalls, Herrs. simpl.
      split; [eauto|]. split; [apply prefix_cons, prefix_nil|].
      split; [|done]. intros Hres.
      destruct (ConvertError_some e) as [e' He']. rewrite He' in Hres. done.
    + destruct (IH w1) as ((err & Hres) & Hpre & Hfull & Hstop).
      autorewrite with run. rewrite Hres.
      rewrite !remoteCalls_app, !remoteErrors_app, Hcalls, Herrs. simpl.
      split; [eauto|]. split; [by apply prefix_cons|]. split.
      * intros [= ->]. destruct (Hfull Hres) as [-> Hall].
        split; [done | by constructor].
      * by rewrite stopsAtError_cons_None.
Qed.

End DeleteEach.

Lemma logf_logs `{Package} {W : Type} entry level format (args : v1.Pod -> list string) :
  forall (pod : v1.Pod) (w : W),
    exists t, logf entry level format (args pod) w = (Returned tt, w, t)
              /\ unlogged t = [].
Proof. intros pod w. by eexists. Qed.

(** ** Runs that differ in the log only *)

Section SameButLog.

Context {W : Type}.

Lemma sameButLog_refl {A} (r : outcome A * W * list Event) : sameButLog r r.
Proof. done. Qed.

Lemma sameButLog_bind {A B} (m1 m2 : M W A) (f1 f2 : A -> M W B) (w : W) :
  sameButLog (m1 w) (m2 w) ->
  (forall a w', sameButLog (f1 a w') (f2 a w')) ->
  sameButLog (bind m1 f1 w) (bind m2 f2 w).
Proof.
  intros (Hres & Hw & Hev) Hf. rewrite !bind_unfold.
  destruct (m1 w) as [[o1 w1] t1], (m2 w) as [[o2 w2] t2].
  unfold result, world, events in Hres, Hw, Hev. simpl in *. subst o2 w2.
  destruct o1 as [a|]; [|done].
  destruct (Hf a w1) as (Hres' & Hw' & Hev').
  unfold sameButLog. autorewrite with run.
  by rewrite !unlogged_app, Hev, Hev'.
Qed.

Lemma sameButLog_logs (entry : option log.Entry) level message (w : W) :
  sameButLog (logs entry level message w) (ret tt w).
Proof. done. Qed.

Lemma sameButLog_calls {A} (r1 r2 : outcome A * W * list Event) :
  sameButLog r1 r2 -> remoteCalls (events r1) = remoteCalls (events r2).
Proof.
  intros (_ & _ & Hev).
  by rewrite <- (remoteCalls_unlogged (events r1)), Hev, remoteCalls_unlogged.
Qed.

End SameButLog.

Ltac same_step :=
  first
    [ apply sameButLog_refl
    | apply sameButLog_logs
    | apply sameButLog_bind; [| intros ? ?]
    | match goal with
      | |- sameButLog (match ?x with _ => _ end _) _ => destruct x
      | |- sameButLog ((if ?b then _ else _) _) _ => destruct b
      end ].

Section Cascade.

Context `{Package} {W : Type} `{Timing W}.

Lemma Part000_Delete_cascade (c : JobControl W) (ctx : context.Ctx W) (w : W) :
  sameButLog (Part000.Delete c ctx false w) (Part000.Delete c ctx true w).
Proof. unfold Part000.Delete. simpl. repeat same_step. Qed.

Lemma JobGo_Delete_cascade (c : JobControl W) (ctx : context.Ctx W) (w : W) :
  sameButLog (JobGo.Delete c ctx false w) (JobGo.Delete c ctx true w).
Proof. unfold JobGo.Delete. simpl. repeat same_step. Qed.

End Cascade.

(** ** The helper loops of the revision that waits *)

Section HelperLoops.

Context `{Package} {W : Type} `{Timing W}.
Variable client : kubernetes.Clientset W.

Lemma bind_sleep {B} (period : Z) (f : unit -> M W B) (w : W) :
  bind (JobGo.sleep period) f w = after [Waited period false] (f tt (Sleep period w)).
Proof. by apply bind_run. Qed.

Lemma fetch_run (namespace name : string) (w : W) :
  (let* (_, err) := jobsGet client namespace name in ret (ConvertError err)) w
  = (Returned (ConvertError (kubernetes.Jobs_Get client namespace name w).1.2),
     (kubernetes.Jobs_Get client namespace name w).2,
     [Remote (JobsGet namespace name)
        (kubernetes.Jobs_Get client namespace name w).1.2]).
Proof.
  autorewrite with run.
  destruct (kubernetes.Jobs_Get client namespace name w) as [[job err] w1].
  simpl. by autorewrite with run.
Qed.

Lemma pollDeletion_calls (namespace name : string) (retries : nat) :
  forall w : W,
    let r := JobGo.pollDeletion retries
               (let* (_, err) := jobsGet client namespace name in
                ret (ConvertError err)) w in
    exists k : nat,
      remoteCalls (events r) = replicate k (JobsGet namespace name)
      /\ (1 <= k <= S retries)%nat
      /\ exists err, result r = Returned err.
Proof.
  induction retries as [|n IH]; intros w; simpl;
    rewrite (bind_run _ _ _ _ _ _ (fetch_run namespace name w));
    destruct (ConvertError (kubernetes.Jobs_Get client namespace name w).1.2)
      as [e|].
  - destruct (trace.IsNotFound e); autorewrite with run;
      exists 1%nat; (split; [done|]); (split; [lia|]); eauto.
  - autorewrite with run. exists 1%nat. split; [done|]. split; [lia|]. eauto.
  - destruct (trace.IsNotFound e); autorewrite with run;
      exists 1%nat; (split; [done|]); (split; [lia|]); eauto.
  - rewrite !bind_sleep. autorewrite with run.
    destruct (IH (Sleep deletionInterval
                    (kubernetes.Jobs_Get client namespace name w).2))
      as (k & Hcalls & Hk & err' & Hres).
    exists (S k). unfold events, result in *. simpl.
    rewrite Hcalls. split; [done|]. split; [lia|]. eauto.
Qed.

Lemma create_run (namespace : string) (job : batchv1.Job) (w : W) :
  (let* err := jobsCreate client namespace job in ret (ConvertError err)) w
  = (Returned (ConvertError (kubernetes.Jobs_Create client namespace job w).1),
     (kubernetes.Jobs_Create client namespace job w).2,
     [Remote (JobsCreate namespace job)
        (kubernetes.Jobs_Create client namespace job w).1]).
Proof. by autorewrite with run. Qed.

Lemma backoffLoop_calls (namespace : string) (job : batchv1.Job) (retries : nat) :
  forall (interval : Z) (err : option error) (w : W),
    let r := JobGo.backoffLoop retries interval
               (let* err := jobsCreate client namespace job in
                ret (ConvertError err)) err w in
    exists m : nat,
      remoteCalls (events r) = replicate m (JobsCreate namespace job)
      /\ (m <= retries)%nat
      /\ exists err', result r = Returned err'.
Proof.
  induction retries as [|n IH]; intros interval err w; simpl.
  - exists 0%nat. repeat split; eauto.
  - destruct err as [e|].
    + rewrite !bind_sleep.
      rewrite !(bind_run _ _ _ _ _ _ (create_run namespace job (Sleep interval w))).
      autorewrite with run.
      destruct (IH (interval * createFactor)
                  (ConvertError (kubernetes.Jobs_Create client namespace job
                                   (Sleep interval w)).1)
                  (kubernetes.Jobs_Create client namespace job (Sleep interval w)).2)
        as (m & Hcalls & Hm & err'' & Hres).
      exists (S m). unfold events, result in *. simpl.
      rewrite Hcalls. split; [done|]. split; [lia|]. eauto.
    + exists 0%nat. repeat split; eauto. lia.
Qed.

Lemma withExponentialBackoff_calls (namespace : string) (job : batchv1.Job) (w : W) :
  let r := JobGo.withExponentialBackoff
             (let* err := jobsCreate client namespace job in
              ret (ConvertError err)) w in
  exists m : nat,
    remoteCalls (events r) = replicate m (JobsCreate namespace job)
    /\ (1 <= m <= S createRetries)%nat
    /\ exists err, result r = Returned err.
Proof.
  unfold JobGo.withExponentialBackoff. simpl.
  rewrite !(bind_run _ _ _ _ _ _ (create_run namespace job w)).
  autorewrite with run.
  destruct (backoffLoop_calls namespace job createRetries createInterval
              (ConvertError (kubernetes.Jobs_Create client namespace job w).1)
              (kubernetes.Jobs_Create client namespace job w).2)
    as (m & Hcalls & Hm & err' & Hres).
  exists (S m). unfold events, result in *. simpl.
  rewrite Hcalls. split; [done|]. split; [lia|]. eauto.
Qed.

End HelperLoops.

(** ** The calls of Delete *)

Lemma remoteErrors_collectLines `{Package} (entry : log.Entry)
    (fn : api.ObjectReference -> bool) (items : list v1.Pod) :
  remoteErrors (concat (collectLine entry fn <$> items)) = [].
Proof. by rewrite <- remoteErrors_unlogged, unlogged_collectLines. Qed.

Lemma podDeletion_ranged `{Package} (namespace : string) (pods : gmap string v1.Pod)
    (node : string) (pod : v1.Pod) :
  pods !! node = Some pod ->
  PodsDelete namespace (metav1.Name (v1.ObjectMeta pod)) None
    ∈ podDeletions namespace (rangeOrder pods).
Proof.
  intros Hl. unfold podDeletions.
  apply (list_elem_of_fmap_2'
           (fun kv => PodsDelete namespace (metav1.Name (v1.ObjectMeta kv.2)) None)
           _ (node, pod)); [|done].
  rewrite rangeOrder_perm. by apply elem_of_map_to_list.
Qed.

Ltac calls_norm :=
  repeat (progress (rewrite ?app_nil_r, ?remoteCalls_app, ?remoteErrors_app,
                      ?remoteCalls_collectLines, ?remoteErrors_collectLines;
                    simpl)).

Section DeleteCalls.

Context `{Package} {W : Type} `{Timing W}.
Variables (c : JobControl W) (ctx : context.Ctx W) (cascade : bool).
Variables (cJob : batchv1.Job) (client : kubernetes.Clientset W).
Hypothesis Hjob : Job (Config c) = Some cJob.
Hypothesis Hclient : Clientset (Config c) = Some client.

Let namespace := metav1.Namespace (batchv1.ObjectMeta cJob).
Let name := metav1.Name (batchv1.ObjectMeta cJob).

Variables (w w1 w2 : W) (currentJob : batchv1.Job) (podList : v1.PodList).
Hypothesis Hget :
  kubernetes.Jobs_Get client namespace name w = ((currentJob, None), w1).
Hypothesis Hlist :
  kubernetes.Pods_List client (metav1.Namespace (batchv1.ObjectMeta currentJob))
    (labels.AsSelector (selectorLabels currentJob)) w1 = (Got podList, w2).

Let pods := collected (ownedBy currentJob) (v1.Items podList) ∅.

Lemma Part000_Delete_calls :
  let r := Part000.Delete c ctx cascade w in
  let plan := [JobsGet namespace name; listOwned currentJob;
               JobsDelete namespace name None]
              ++ podDeletions namespace (rangeOrder pods) in
  remoteCalls (events r) `prefix_of` plan
  /\ (result r = Returned None -> remoteCalls (events r) = plan)
  /\ stopsAtError (remoteErrors (events r)) = true.
Proof.
  unfold Part000.Delete. rewrite Hjob, Hclient. autorewrite with run.
  fold namespace name. rewrite Hget. simpl.
  rewrite bind_unfold, (collectPods_run c client currentJob w1 Hclient).
  fold (selectorLabels currentJob). rewrite Hlist. autorewrite with run.
  fold pods.
  destruct (kubernetes.Jobs_Delete client namespace name None w2) as [[e|] w3]; simpl.
  - autorewrite with run. unfold result, events. simpl.
    rewrite !remoteCalls_app, !remoteErrors_app.
    rewrite remoteCalls_collectLines, remoteErrors_collectLines. simpl.
    split; [|split; [|done]].
    + do 3 apply prefix_cons. apply prefix_nil.
    + intros Hres. destruct (ConvertError_some e) as [e' He'].
      rewrite He' in Hres. done.
  - set (announce := fun pod : v1.Pod =>
           logf (W := W) None log.InfoLevel "deleting pod %v"
             [metav1.Name (v1.ObjectMeta pod)]).
    destruct (deleteEach_calls client namespace announce
                (logf_logs None log.InfoLevel "deleting pod %v"
                   (fun pod => [metav1.Name (v1.ObjectMeta pod)]))
                (rangeOrder pods) w3) as (_ & Hpre & Hfull & Hstop).
    destruct cascade; simpl; autorewrite with run;
      rewrite !remoteCalls_app, !remoteErrors_app;
      rewrite remoteCalls_collectLines, remoteErrors_collectLines; simpl;
      (split; [by do 3 apply prefix_cons|]);
      (split; [intros Hres; by rewrite (proj1 (Hfull Hres))|]);
      by rewrite !stopsAtError_cons_None.
Qed.

Lemma JobGo_Delete_calls :
  let r := JobGo.Delete c ctx cascade w in
  exists k : nat,
    let plan := [JobsGet namespace name; listOwned currentJob;
                 JobsDelete namespace name foreground]
                ++ replicate k (JobsGet namespace name)
                ++ podDeletions namespace (rangeOrder pods) in
    (k <= S deletionRetries)%nat
    /\ remoteCalls (events r) `prefix_of` plan
    /\ (result r = Returned None -> remoteCalls (events r) = plan /\ (1 <= k)%nat)
    /\ exists err, result r = Returned err.
Proof.
  unfold JobGo.Delete. rewrite Hjob, Hclient. autorewrite with run.
  fold namespace name. rewrite Hget. simpl.
  rewrite bind_unfold, (collectPods_run c client currentJob w1 Hclient).
  fold (selectorLabels currentJob). rewrite Hlist. autorewrite with run.
  fold pods.
  destruct (kubernetes.Jobs_Delete client namespace name
              (Some {| metav1.PropagationPolicy := Some metav1.DeletePropagationForeground |})
              w2) as [[e|] w3]; simpl.
  - autorewrite with run. unfold result, events. simpl.
    rewrite !remoteCalls_app, remoteCalls_collectLines. simpl.
    exists 0%nat. split; [lia|]. split; [|split; [|eauto]].
    + do 3 apply prefix_cons. apply prefix_nil.
    + intros Hres. destruct (ConvertError_some e) as [e' He'].
      rewrite He' in Hres. done.
  - rewrite bind_unfold.
    destruct (pollDeletion_calls client namespace name deletionRetries w3)
      as (k & Hcalls & Hk & err & Hres).
    unfold JobGo.waitForObjectDeletion.
    destruct (JobGo.pollDeletion deletionRetries
                (let* (_, err) := jobsGet client namespace name in
                 ret (ConvertError err)) w3) as [[o w4] t4].
    unfold result, events in Hcalls, Hres. simpl in Hcalls, Hres. subst o.
    exists k. split; [lia|].
    destruct err as [e|]; simpl.
    + autorewrite with run. unfold result, events. simpl.
      calls_norm. rewrite Hcalls.
      split; [|split; [done|eauto]].
      do 3 apply prefix_cons. by apply prefix_app_r.
    + set (announce := fun pod : v1.Pod =>
             logf (W := W) (Some (Entry c)) log.InfoLevel "deleting pod %v"
               [formatMeta (v1.ObjectMeta pod)]).
      destruct (deleteEach_calls client namespace announce
                  (logf_logs (Some (Entry c)) log.InfoLevel "deleting pod %v"
                     (fun pod => [formatMeta (v1.ObjectMeta pod)]))
                  (rangeOrder pods) w4) as ((err & Hres) & Hpre & Hfull & _).
      unfold JobGo.deletePods. fold announce.
      destruct cascade; simpl; autorewrite with run;
        rewrite (bind_unfold (deleteEach _ _ _ _));
        destruct (deleteEach client namespace announce (rangeOrder pods) w4)
          as [[o w5] t5];
        unfold result, events in Hres, Hpre, Hfull; simpl in Hres, Hpre, Hfull;
        subst o; autorewrite with run; unfold result, events; simpl;
        calls_norm; rewrite Hcalls;
        (split; [by do 3 apply prefix_cons; apply prefix_app|]);
        (split; [|eauto]);
        intros Hnone; (split; [|lia]);
        destruct err as [e|]; try done;
        by rewrite (proj1 (Hfull eq_refl)).
Qed.

End DeleteCalls.

(** ** The pod clean-up of Delete *)

Section CleanUp.

Context `{Package} {W : Type}.
Variables (client : kubernetes.Clientset W) (namespace : string)
  (announce : v1.Pod -> M W unit).
Hypothesis announce_logs :
  forall pod w, exists t, announce pod w = (Returned tt, w, t) /\ unlogged t = [].

Lemma deleteEach_cleanUp (pods : list (string * v1.Pod)) :
  forall w : W,
    let r := deleteEach client namespace announce pods w in
    let cleaned := cleanUp client namespace pods w in
    remoteCalls (events r) = podDeletions namespace cleaned.1.1
    /\ result r = Returned (ConvertError cleaned.1.2)
    /\ world r = cleaned.2.
Proof.
  induction pods as [|[node pod] pods IH]; intros w; simpl.
  - repeat split; reflexivity.
  - destruct (announce_logs pod w) as (t & Hrun & Hlog).
    rewrite (bind_run _ _ _ _ _ _ Hrun). autorewrite with run.
    assert (Hcalls : remoteCalls t = []).
    { by rewrite <- remoteCalls_unlogged, Hlog. }
    destruct (kubernetes.Pods_Delete client namespace
                (metav1.Name (v1.ObjectMeta pod)) None w) as [[e|] w1]; simpl.
    + autorewrite with run. unfold result, world, events. simpl.
      by rewrite remoteCalls_app, Hcalls.
    + destruct (IH w1) as (Hc & Hr & Hw).
      destruct (cleanUp client namespace pods w1) as [[asked err] w2].
      simpl in Hc, Hr, Hw. simpl. autorewrite with run.
      rewrite ?remoteCalls_app, ?Hcalls. simpl.
      by rewrite Hc, Hr, Hw.
Qed.

Lemma cleanUp_asked (pods : list (string * v1.Pod)) :
  forall w : W,
    let cleaned := cleanUp client namespace pods w in
    cleaned.1.1 `prefix_of` pods
    /\ (cleaned.1.2 = None -> cleaned.1.1 = pods).
Proof.
  induction pods as [|[node pod] pods IH]; intros w; simpl.
  - done.
  - destruct (kubernetes.Pods_Delete client namespace
                (metav1.Name (v1.ObjectMeta pod)) None w) as [[e|] w1]; simpl.
    + split; [apply prefix_cons, prefix_nil | done].
    + destruct (IH w1) as (Hpre & Hall).
      destruct (cleanUp client namespace pods w1) as [[asked err] w2].
      simpl in Hpre, Hall. simpl. split; [by apply prefix_cons|].
      intros Hnone. by rewrite (Hall Hnone).
Qed.

End CleanUp.

Lemma Wrap_same (err : option error) : trace.Wrap err = err.
Proof. by destruct err. Qed.

Section DeleteCleanUp.

Context `{Package} {W : Type} `{Timing W}.
Variables (c : JobControl W) (ctx : context.Ctx W) (cascade : bool).
Variables (cJob : batchv1.Job) (client : kubernetes.Clientset W).
Hypothesis Hjob : Job (Config c) = Some cJob.
Hypothesis Hclient : Clientset (Config c) = Some client.

Let namespace := metav1.Namespace (batchv1.ObjectMeta cJob).
Let name := metav1.Name (batchv1.ObjectMeta cJob).

Variables (w w1 w2 w3 : W) (currentJob : batchv1.Job) (podList : v1.PodList).
Hypothesis Hget :
  kubernetes.Jobs_Get client namespace name w = ((currentJob, None), w1).
Hypothesis Hlist :
  kubernetes.Pods_List client (metav1.Namespace (batchv1.ObjectMeta currentJob))
    (labels.AsSelector (selectorLabels currentJob)) w1 = (Got podList, w2).

Let pods := collected (ownedBy currentJob) (v1.Items podList) ∅.

Lemma Part000_Delete_cleanUp :
  kubernetes.Jobs_Delete client namespace name None w2 = (None, w3) ->
  let r := Part000.Delete c ctx cascade w in
  let cleaned := cleanUp client namespace (rangeOrder pods) w3 in
  remoteCalls (events r)
  = [JobsGet namespace name; listOwned currentJob; JobsDelete namespace name None]
    ++ podDeletions namespace cleaned.1.1
  /\ result r = Returned (ConvertError cleaned.1.2)
  /\ world r = cleaned.2.
Proof.
  intros Hdelete.
  unfold Part000.Delete. rewrite Hjob, Hclient. autorewrite with run.
  fold namespace name. rewrite Hget. simpl.
  rewrite bind_unfold, (collectPods_run c client currentJob w1 Hclient).
  fold (selectorLabels currentJob). rewrite Hlist. autorewrite with run.
  fold pods. rewrite Hdelete. simpl.
  set (announce := fun pod : v1.Pod =>
         logf (W := W) None log.InfoLevel "deleting pod %v"
           [metav1.Name (v1.ObjectMeta pod)]).
  destruct (deleteEach_cleanUp client namespace announce
              (logf_logs None log.InfoLevel "deleting pod %v"
                 (fun pod => [metav1.Name (v1.ObjectMeta pod)]))
              (rangeOrder pods) w3) as (Hc & Hr & Hw).
  destruct cascade; simpl; autorewrite with run;
    rewrite !remoteCalls_app, remoteCalls_collectLines; simpl;
    by rewrite Hc, Hr, Hw.
Qed.

Lemma JobGo_Delete_cleanUp (w4 : W) (t : list Event) :
  kubernetes.Jobs_Delete client namespace name foreground w2 = (None, w3) ->
  JobGo.waitForObjectDeletion
    (let* (_, err) := jobsGet client namespace name in ret (ConvertError err)) w3
  = (Returned None, w4, t) ->
  let r := JobGo.Delete c ctx cascade w in
  let cleaned := cleanUp client namespace (rangeOrder pods) w4 in
  remoteCalls (events r)
  = [JobsGet namespace name; listOwned currentJob;
     JobsDelete namespace name foreground]
    ++ remoteCalls t ++ podDeletions namespace cleaned.1.1
  /\ result r = Returned (ConvertError cleaned.1.2)
  /\ world r = cleaned.2.
Proof.
  intros Hdelete Hwait.
  unfold JobGo.Delete. rewrite Hjob, Hclient. autorewrite with run.
  fold namespace name. rewrite Hget. simpl.
  rewrite bind_unfold, (collectPods_run c client currentJob w1 Hclient).
  fold (selectorLabels currentJob). rewrite Hlist. autorewrite with run.
  fold pods. unfold foreground in Hdelete. rewrite Hdelete. simpl.
  rewrite (bind_run _ _ _ _ _ _ Hwait).
  set (announce := fun pod : v1.Pod =>
         logf (W := W) (Some (Entry c)) log.InfoLevel "deleting pod %v"
           [formatMeta (v1.ObjectMeta pod)]).
  destruct (deleteEach_cleanUp client namespace announce
              (logf_logs (Some (Entry c)) log.InfoLevel "deleting pod %v"
                 (fun pod => [formatMeta (v1.ObjectMeta pod)]))
              (rangeOrder pods) w4) as (Hc & Hr & Hw).
  unfold JobGo.deletePods. fold announce.
  destruct cascade; simpl; autorewrite with run;
    rewrite (bind_unfold (deleteEach _ _ _ _));
    destruct (deleteEach client namespace announce (rangeOrder pods) w4)
      as [[o w5] t5];
    unfold result, world, events in Hc, Hr, Hw; simpl in Hc, Hr, Hw;
    subst o; autorewrite with run; unfold result, world, events; simpl;
    calls_norm; by rewrite Hc, Hw, Wrap_same.
Qed.

End DeleteCleanUp.

(** C5: the cascade flag of Delete changes the log and nothing else: in
    both revisions the runs with the flag set and unset hand back the same
    result, leave the cluster in the same state and issue the same remote
    calls.  For either value of the flag, a Delete whose fetch, pod listing
    and job deletion succeeded (and, in the revision that waits, whose wait
    succeeded) goes on to delete the collected pods one by one in the order
    of the range: its pod deletion calls are those of the clean-up run on
    the client from the state reached, which stops at the first deletion
    that fails, and it hands back the translated error of that deletion and
    leaves the state that deletion left.  When no deletion fails, every
    collected pod has its deletion call and the result is success; and a
    Delete that succeeds has issued a deletion call for every collected
    pod. *)
Theorem Delete_cascade_irrelevant `{Package} {W : Type} `{Timing W}
    (c : JobControl W) (ctx : context.Ctx W) (w : W) :
  (sameButLog (Part000.Delete c ctx false w) (Part000.Delete c ctx true w)
   /\ remoteCalls (events (Part000.Delete c ctx false w))
      = remoteCalls (events (Part000.Delete c ctx true w)))
  /\ (sameButLog (JobGo.Delete c ctx false w) (JobGo.Delete c ctx true w)
      /\ remoteCalls (events (JobGo.Delete c ctx false w))
         = remoteCalls (events (JobGo.Delete c ctx true w)))
  /\ (forall (cascade : bool) (cJob : batchv1.Job) (client : kubernetes.Clientset W)
             (currentJob : batchv1.Job) (podList : v1.PodList) (w1 w2 : W),
        Job (Config c) = Some cJob ->
        Clientset (Config c) = Some client ->
        let namespace := metav1.Namespace (batchv1.ObjectMeta cJob) in
        kubernetes.Jobs_Get client namespace (metav1.Name (batchv1.ObjectMeta cJob)) w
        = ((currentJob, None), w1) ->
        kubernetes.Pods_List client (metav1.Namespace (batchv1.ObjectMeta currentJob))
          (labels.AsSelector (selectorLabels currentJob)) w1 = (Got podList, w2) ->
        forall (node : string) (pod : v1.Pod),
          collected (ownedBy currentJob) (v1.Items podList) ∅ !! node = Some pod ->
          (result (Part000.Delete c ctx cascade w) = Returned None ->
             PodsDelete namespace (metav1.Name (v1.ObjectMeta pod)) None
               ∈ remoteCalls (events (Part000.Delete c ctx cascade w)))
          /\ (result (JobGo.Delete c ctx cascade w) = Returned None ->
                PodsDelete namespace (metav1.Name (v1.ObjectMeta pod)) None
                  ∈ remoteCalls (events (JobGo.Delete c ctx cascade w))))
  /\ (forall (cascade : bool) (cJob : batchv1.Job) (client : kubernetes.Clientset W)
             (currentJob : batchv1.Job) (podList : v1.PodList) (w1 w2 w3 : W),
        Job (Config c) = Some cJob ->
        Clientset (Config c) = Some client ->
        let namespace := metav1.Namespace (batchv1.ObjectMeta cJob) in
        let name := metav1.Name (batchv1.ObjectMeta cJob) in
        kubernetes.Jobs_Get client namespace name w = ((currentJob, None), w1) ->
        kubernetes.Pods_List client (metav1.Namespace (batchv1.ObjectMeta currentJob))
          (labels.AsSelector (selectorLabels currentJob)) w1 = (Got podList, w2) ->
        let pods := collected (ownedBy currentJob) (v1.Items podList) ∅ in
        (kubernetes.Jobs_Delete client namespace name None w2 = (None, w3) ->
           let r := Part000.Delete c ctx cascade w in
           let cleaned := cleanUp client namespace (rangeOrder pods) w3 in
           remoteCalls (events r)
           = [JobsGet namespace name; listOwned currentJob;
              JobsDelete namespace name None]
             ++ podDeletions namespace cleaned.1.1
           /\ result r = Returned (ConvertError cleaned.1.2)
           /\ world r = cleaned.2
           /\ cleaned.1.1 `prefix_of` rangeOrder pods
           /\ (cleaned.1.2 = None ->
                 result r = Returned None
                 /\ forall node pod,
                      pods !! node = Some pod ->
                      PodsDelete namespace (metav1.Name (v1.ObjectMeta pod)) None
                        ∈ remoteCalls (events r)))
        /\ (forall (w4 : W) (t : list Event),
              kubernetes.Jobs_Delete client namespace name foreground w2
              = (None, w3) ->
              JobGo.waitForObjectDeletion
                (let* (_, err) := jobsGet client namespace name in
                 ret (ConvertError err)) w3
              = (Returned None, w4, t) ->
              let r := JobGo.Delete c ctx cascade w in
              let cleaned := cleanUp client namespace (rangeOrder pods) w4 in
              remoteCalls (events r)
              = [JobsGet namespace name; listOwned currentJob;
                 JobsDelete namespace name foreground]
                ++ remoteCalls t ++ podDeletions namespace cleaned.1.1
              /\ result r = Returned (ConvertError cleaned.1.2)
              /\ world r = cleaned.2
              /\ cleaned.1.1 `prefix_of` rangeOrder pods
              /\ (cleaned.1.2 = None ->
                    result r = Returned None
                    /\ forall node pod,
                         pods !! node = Some pod ->
                         PodsDelete namespace (metav1.Name (v1.ObjectMeta pod)) None
                           ∈ remoteCalls (events r)))).
Proof.
  split; [|split; [|split]].
  - split; [apply Part000_Delete_cascade|].
    apply sameButLog_calls, Part000_Delete_cascade.
  - split; [apply JobGo_Delete_cascade|].
    apply sameButLog_calls, JobGo_Delete_cascade.
  - intros cascade cJob client currentJob podList w1 w2 Hjob Hclient namespace
      Hget Hlist node pod Hpod.
    split; intros Hres.
    + destruct (Part000_Delete_calls c ctx cascade cJob client Hjob Hclient
                  w w1 w2 currentJob podList Hget Hlist) as (_ & Hfull & _).
      rewrite (Hfull Hres). apply elem_of_app. right.
      by eapply podDeletion_ranged.
    + destruct (JobGo_Delete_calls c ctx cascade cJob client Hjob Hclient
                  w w1 w2 currentJob podList Hget Hlist)
        as (k & _ & _ & Hfull & _).
      rewrite (proj1 (Hfull Hres)). apply elem_of_app. right.
      apply elem_of_app. right. by eapply podDeletion_ranged.
  - intros cascade cJob client currentJob podList w1 w2 w3 Hjob Hclient
      namespace name Hget Hlist pods.
    split.
    + intros Hdelete r cleaned.
      destruct (Part000_Delete_cleanUp c ctx cascade cJob client Hjob Hclient
                  w w1 w2 w3 currentJob podList Hget Hlist Hdelete)
        as (Hcalls & Hres & Hworld).
      destruct (cleanUp_asked client namespace (rangeOrder pods) w3)
        as (Hpre & Hall).
      split; [exact Hcalls|]. split; [exact Hres|]. split; [exact Hworld|].
      split; [exact Hpre|].
      intros Hnone.
      split.
      { etransitivity; [exact Hres|].
        exact (f_equal (fun e => Returned (ConvertError e)) Hnone). }
      intros node pod Hpod.
      assert (Heq : remoteCalls (events r)
                    = [JobsGet namespace name; listOwned currentJob;
                       JobsDelete namespace name None]
                      ++ podDeletions namespace (rangeOrder pods)).
      { etransitivity; [exact Hcalls|].
        exact (f_equal (fun l => [JobsGet namespace name; listOwned currentJob;
                                  JobsDelete namespace name None]
                                 ++ podDeletions namespace l) (Hall Hnone)). }
      rewrite Heq. apply elem_of_app. right. by eapply podDeletion_ranged.
    + intros w4 t Hdelete Hwait r cleaned.
      destruct (JobGo_Delete_cleanUp c ctx cascade cJob client Hjob Hclient
                  w w1 w2 w3 currentJob podList Hget Hlist w4 t Hdelete Hwait)
        as (Hcalls & Hres & Hworld).
      destruct (cleanUp_asked client namespace (rangeOrder pods) w4)
        as (Hpre & Hall).
      split; [exact Hcalls|]. split; [exact Hres|]. split; [exact Hworld|].
      split; [exact Hpre|].
      intros Hnone.
      split.
      { etransitivity; [exact Hres|].
        exact (f_equal (fun e => Returned (ConvertError e)) Hnone). }
      intros node pod Hpod.
      assert (Heq : remoteCalls (events r)
                    = [JobsGet namespace name; listOwned currentJob;
                       JobsDelete namespace name foreground]
                      ++ remoteCalls t ++ podDeletions namespace (rangeOrder pods)).
      { etransitivity; [exact Hcalls|].
        exact (f_equal (fun l => [JobsGet namespace name; listOwned currentJob;
                                  JobsDelete namespace name foreground]
                                 ++ remoteCalls t ++ podDeletions namespace l)
                 (Hall Hnone)). }
      rewrite Heq. apply elem_of_app. right. apply elem_of_app. right.
      by eapply podDeletion_ranged.
Qed.

Lemma Delete_cascade_irrelevant_witness :
  let old := Cluster.job "j" "uid-1" "Job" None None 0 0 in
  let p1 := Cluster.pod "p1" "n1" ∅ (Cluster.createdBy "Job/uid-1") in
  let p2 := Cluster.pod "p2" "n2" ∅ (Cluster.createdBy "Job/uid-1") in
  let p3 := Cluster.pod "p3" "n3" ∅ (Cluster.createdBy "Job/uid-2") in
  let s := Cluster.mkState [old] [p1; p2; p3] in
  (let r := Part000.Delete (Cluster.controller old) Cluster.background false s in
   remoteCalls (events r)
   = [JobsGet "default" "j"; listOwned old; JobsDelete "default" "j" None;
      PodsDelete "default" "p1" None; PodsDelete "default" "p2" None]
   /\ result r = Returned None
   /\ world r = Cluster.mkState [] [p3])
  /\ (let r := JobGo.Delete (Cluster.controller old) Cluster.background true s in
      remoteCalls (events r)
      = [JobsGet "default" "j"; listOwned old; JobsDelete "default" "j" foreground;
         JobsGet "default" "j";
         PodsDelete "default" "p1" None; PodsDelete "default" "p2" None]
      /\ result r = Returned None
      /\ world r = Cluster.mkState [] [p3]).
Proof.
  intros old p1 p2 p3 s.
  assert (Hget : kubernetes.Jobs_Get Cluster.client "default" "j" s = ((old, None), s))
    by (vm_compute; reflexivity).
  assert (Hlist : kubernetes.Pods_List Cluster.client "default"
                    (labels.AsSelector (selectorLabels old)) s
                  = (Got (v1.mkPodList [p1; p2; p3]), s))
    by (vm_compute; reflexivity).
  assert (Hdelete : kubernetes.Jobs_Delete Cluster.client "default" "j" None s
                    = (None, Cluster.mkState [] [p1; p2; p3]))
    by (vm_compute; reflexivity).
  assert (Hforeground : kubernetes.Jobs_Delete Cluster.client "default" "j"
                          foreground s
                        = (None, Cluster.mkState [] [p1; p2; p3]))
    by (vm_compute; reflexivity).
  assert (Hwait : JobGo.waitForObjectDeletion
                    (let* (_, err) := jobsGet Cluster.client "default" "j" in
                     ret (ConvertError err)) (Cluster.mkState [] [p1; p2; p3])
                  = (Returned None, Cluster.mkState [] [p1; p2; p3],
                     [Remote (JobsGet "default" "j") (Some Cluster.notFound)]))
    by (vm_compute; reflexivity).
  split.
  - destruct (proj1 (proj2 (proj2 (proj2 (Delete_cascade_irrelevant
                (Cluster.controller old) Cluster.background s)))
              false old Cluster.client old (v1.mkPodList [p1; p2; p3]) s s
              (Cluster.mkState [] [p1; p2; p3]) eq_refl eq_refl Hget Hlist) Hdelete)
      as (Hcalls & Hres & Hworld & _).
    split; [exact Hcalls|]. split; [exact Hres | exact Hworld].
  - destruct (proj2 (proj2 (proj2 (proj2 (Delete_cascade_irrelevant
                (Cluster.controller old) Cluster.background s)))
              true old Cluster.client old (v1.mkPodList [p1; p2; p3]) s s
              (Cluster.mkState [] [p1; p2; p3]) eq_refl eq_refl Hget Hlist)
              (Cluster.mkState [] [p1; p2; p3])
              [Remote (JobsGet "default" "j") (Some Cluster.notFound)]
              Hforeground Hwait)
      as (Hcalls & Hres & Hworld & _).
    split; [exact Hcalls|]. split; [exact Hres | exact Hworld].
Defined.

(** C5, as stated, fails when a pod deletion is refused: the job has two
    pods, on two nodes, both are collected, the job itself is deleted, and
    the first pod deletion comes back with an error.  For either value of
    the flag Delete then hands back the error, and no deletion call is
    issued for the second pod. *)
Lemma Delete_stops_at_refused_pod :
  let old := Cluster.job "j" "uid-1" "Job" None None 0 0 in
  let p1 := Cluster.pod "p1" "n1" ∅ (Cluster.createdBy "Job/uid-1") in
  let p2 := Cluster.pod "p2" "n2" ∅ (Cluster.createdBy "Job/uid-1") in
  let s := Cluster.mkState [old] [p1; p2] in
  let c := Faulty.controllerOn Faulty.denyPodDelete old in
  result (collectPods c old s) = Returned (Got {[ "n1" := p1; "n2" := p2 ]})
  /\ forall cascade : bool,
       let r := Part000.Delete c Cluster.background cascade s in
       Remote (JobsDelete "default" "j" None) None ∈ events r
       /\ remoteCalls (events r)
          = [JobsGet "default" "j"; listOwned old; JobsDelete "default" "j" None;
             PodsDelete "default" "p1" None]
       /\ (PodsDelete "default" "p2" None ∉ remoteCalls (events r))
       /\ result r = Returned (Some (TraceError AccessDeniedError "forbidden"))
       /\ ~ (forall node pod,
               ({[ "n1" := p1; "n2" := p2 ]} : gmap string v1.Pod) !! node = Some pod ->
               PodsDelete "default" (metav1.Name (v1.ObjectMeta pod)) None
                 ∈ remoteCalls (events r)).
Proof.
  intros old p1 p2 s c. split; [by vm_compute|].
  assert (Hcalls : forall cascade,
            remoteCalls (events (Part000.Delete c Cluster.background cascade s))
            = [JobsGet "default" "j"; listOwned old; JobsDelete "default" "j" None;
               PodsDelete "default" "p1" None]).
  { by intros [|]; vm_compute. }
  assert (Hnot : PodsDelete "default" "p2" None
                 ∉ [JobsGet "default" "j"; listOwned old;
                    JobsDelete "default" "j" None; PodsDelete "default" "p1" None]).
  { intros Hin. repeat (apply elem_of_cons in Hin as [Hin|Hin]; [discriminate Hin|]).
    by apply elem_of_nil in Hin. }
  intros cascade r. subst r. rewrite Hcalls.
  split.
  { destruct cascade; vm_compute;
      repeat first [apply list_elem_of_here | apply list_elem_of_further]. }
  split; [done|]. split; [exact Hnot|].
  split; [by destruct cascade; vm_compute|].
  intros Hall. apply Hnot. apply (Hall "n2" p2). by vm_compute.
Qed.

(** ** The calls of Upsert *)

Lemma ConvertError_nil `{Package} : ConvertError None = None.
Proof. reflexivity. Qed.

Lemma prefix_plan_deletions_after_create (calls : list Call) (a b c d : Call)
    (namespace : string) (pods : list (string * v1.Pod)) :
  (forall ns name options, a <> PodsDelete ns name options) ->
  (forall ns name options, b <> PodsDelete ns name options) ->
  (forall ns name options, c <> PodsDelete ns name options) ->
  (exists ns job, d = JobsCreate ns job) ->
  calls `prefix_of` [a; b; c; d] ++ podDeletions namespace pods ->
  podsDeletedAfterCreate calls.
Proof.
  intros Ha Hb Hc (ns & job & ->) [rest Hplan].
  intros before later ns' name' options' ->.
  exists ns, job.
  destruct before as [|b1 [|b2 [|b3 [|b4 before]]]]; simplify_eq/=.
  - by destruct (Ha ns' name' options').
  - by destruct (Hb ns' name' options').
  - by destruct (Hc ns' name' options').
  - do 3 apply list_elem_of_further. apply list_elem_of_here.
Qed.

Section UpsertCalls.

Context `{Package} {W : Type} `{Timing W}.
Variables (c : JobControl W) (ctx : context.Ctx W).
Variables (cJob : batchv1.Job) (client : kubernetes.Clientset W).
Hypothesis Hjob : Job (Config c) = Some cJob.
Hypothesis Hclient : Clientset (Config c) = Some client.

Let namespace := metav1.Namespace (batchv1.ObjectMeta cJob).
Let name := metav1.Name (batchv1.ObjectMeta cJob).
Let desired := stripForCreate cJob.

Section CurrentExists.

Variables (w w1 w2 : W) (currentJob : batchv1.Job) (podList : v1.PodList).
Hypothesis Hget :
  kubernetes.Jobs_Get client namespace name w = ((currentJob, None), w1).
Hypothesis Hlist :
  kubernetes.Pods_List client (metav1.Namespace (batchv1.ObjectMeta currentJob))
    (labels.AsSelector (selectorLabels currentJob)) w1 = (Got podList, w2).

Let pods := collected (ownedBy currentJob) (v1.Items podList) ∅.

Lemma Part000_Upsert_calls :
  let r := Part000.Upsert c ctx w in
  let plan := [JobsGet namespace name; listOwned currentJob;
               JobsDelete namespace name None; JobsCreate namespace desired]
              ++ podDeletions namespace (rangeOrder pods) in
  remoteCalls (events r) `prefix_of` plan
  /\ (result r = Returned None -> remoteCalls (events r) = plan)
  /\ stopsAtError (remoteErrors (events r)) = true.
Proof.
  unfold Part000.Upsert. rewrite Hjob, Hclient. autorewrite with run.
  fold namespace name. rewrite Hget. simpl.
  unfold Part000.upsertCurrent. autorewrite with run.
  rewrite bind_unfold, (collectPods_run c client currentJob w1 Hclient).
  fold (selectorLabels currentJob). rewrite Hlist. autorewrite with run.
  fold pods namespace name desired.
  destruct (kubernetes.Jobs_Delete client namespace name None w2) as [[e|] w3]; simpl.
  { autorewrite with run. unfold result, events. simpl. calls_norm.
    split; [|split; [|done]].
    - do 3 apply prefix_cons. apply prefix_nil.
    - intros Hres. destruct (ConvertError_some e) as [e' He'].
      rewrite He' in Hres. done. }
  autorewrite with run.
  destruct (kubernetes.Jobs_Create client namespace desired w3) as [[e|] w4]; simpl.
  { autorewrite with run. unfold result, events. simpl. calls_norm.
    split; [|split; [|done]].
    - do 4 apply prefix_cons. apply prefix_nil.
    - intros Hres. destruct (ConvertError_some e) as [e' He'].
      rewrite He' in Hres. done. }
  set (announce := fun pod : v1.Pod =>
         logf (W := W) (Some (Entry c)) log.InfoLevel "deleting pod %v"
           [formatMeta (v1.ObjectMeta pod)]).
  destruct (deleteEach_calls client namespace announce
              (logf_logs (Some (Entry c)) log.InfoLevel "deleting pod %v"
                 (fun pod => [formatMeta (v1.ObjectMeta pod)]))
              (rangeOrder pods) w4) as (_ & Hpre & Hfull & Hstop).
  autorewrite with run. calls_norm.
  split; [by do 4 apply prefix_cons|].
  split; [intros Hres; by rewrite (proj1 (Hfull Hres))|].
  by rewrite !stopsAtError_cons_None.
Qed.

Lemma JobGo_Upsert_calls :
  let d := JobGo.Delete (controlFor client currentJob) ctx true w1 in
  let r := JobGo.Upsert c ctx w in
  exists m : nat,
    remoteCalls (events r)
    = JobsGet namespace name :: remoteCalls (events d)
        ++ replicate m (JobsCreate namespace desired)
    /\ (m <= S createRetries)%nat
    /\ (result d = Returned None -> (1 <= m)%nat)
    /\ (result d <> Returned None -> m = 0%nat)
    /\ (result r = Returned None -> result d = Returned None).
Proof.
  unfold JobGo.Upsert. rewrite Hjob, Hclient. autorewrite with run.
  fold namespace name. rewrite Hget. simpl.
  unfold JobGo.upsertCurrent. rewrite Hclient.
  change (NewJobControl (mkJobConfig (Some currentJob) (Some client)))
    with (Returned (Got (controlFor client currentJob))).
  cbv iota. rewrite bind_unfold.
  destruct (JobGo.Delete (controlFor client currentJob) ctx true w1)
    as [[[[e|]|] w3] t3]; unfold result, events; simpl.
  - exists 0%nat. autorewrite with run. unfold result, events. simpl.
    rewrite !app_nil_r. repeat split; try done; try lia.
    intros Hres. destruct (ConvertError_some e) as [e' He'].
    rewrite He' in Hres. done.
  - fold namespace desired.
    destruct (withExponentialBackoff_calls client namespace desired w3)
      as (m & Hcalls & Hm & err & Hres).
    exists m. autorewrite with run.
    rewrite bind_unfold.
    destruct (JobGo.withExponentialBackoff
                (let* err := jobsCreate client namespace desired in
                 ret (ConvertError err)) w3) as [[o w4] t4].
    unfold result, events in Hcalls, Hres. simpl in Hcalls, Hres. subst o.
    autorewrite with run. unfold result, events. simpl.
    calls_norm. rewrite Hcalls. repeat split; try done; lia.
  - exists 0%nat. rewrite !app_nil_r. repeat split; try done; lia.
Qed.

End CurrentExists.

Section FetchFailed.

Variables (w w1 : W) (fetched : batchv1.Job) (err : option error) (e : error).
Hypothesis Hget :
  kubernetes.Jobs_Get client namespace name w = ((fetched, err), w1).
Hypothesis Hconv : ConvertError err = Some e.

Lemma Upsert_fetch_error :
  trace.IsNotFound e = false ->
  (result (Part000.Upsert c ctx w) = Returned (Some e)
   /\ remoteCalls (events (Part000.Upsert c ctx w)) = [JobsGet namespace name])
  /\ (result (JobGo.Upsert c ctx w) = Returned (Some e)
      /\ remoteCalls (events (JobGo.Upsert c ctx w)) = [JobsGet namespace name]).
Proof.
  intros Hnf. unfold Part000.Upsert, JobGo.Upsert.
  rewrite Hjob, Hclient. autorewrite with run.
  fold namespace name. rewrite Hget. simpl. rewrite Hconv, Hnf. simpl.
  autorewrite with run. done.
Qed.

Lemma Part000_Upsert_absent :
  trace.IsNotFound e = true ->
  let r := Part000.Upsert c ctx w in
  remoteCalls (events r) = [JobsGet namespace name; JobsCreate namespace desired]
  /\ result r
     = Returned (ConvertError (kubernetes.Jobs_Create client namespace desired w1).1).
Proof.
  intros Hnf. unfold Part000.Upsert.
  rewrite Hjob, Hclient. autorewrite with run.
  fold namespace name. rewrite Hget. simpl. rewrite Hconv, Hnf. simpl.
  unfold Part000.upsertCurrent. autorewrite with run.
  fold namespace desired.
  destruct (kubernetes.Jobs_Create client namespace desired w1) as [[e'|] w2];
    simpl; autorewrite with run; done.
Qed.

Lemma JobGo_Upsert_absent :
  trace.IsNotFound e = true ->
  let r := JobGo.Upsert c ctx w in
  exists m : nat,
    (1 <= m <= S createRetries)%nat
    /\ remoteCalls (events r)
       = JobsGet namespace name :: replicate m (JobsCreate namespace desired).
Proof.
  intros Hnf. unfold JobGo.Upsert.
  rewrite Hjob, Hclient. autorewrite with run.
  fold namespace name. rewrite Hget. simpl. rewrite Hconv, Hnf. simpl.
  unfold JobGo.upsertCurrent. autorewrite with run.
  fold namespace desired.
  destruct (withExponentialBackoff_calls client namespace desired w1)
    as (m & Hcalls & Hm & err' & Hres).
  exists m. split; [done|].
  rewrite bind_unfold.
  destruct (JobGo.withExponentialBackoff
              (let* err := jobsCreate client namespace desired in
               ret (ConvertError err)) w1) as [[o w2] t2].
  unfold result, events in Hcalls, Hres. simpl in Hcalls, Hres. subst o.
  autorewrite with run. unfold events. simpl. calls_norm. by rewrite Hcalls.
Qed.

End FetchFailed.

End UpsertCalls.

Lemma withDefaults_meta `{Package} (job : batchv1.Job) :
  batchv1.ObjectMeta (withDefaults job) = batchv1.ObjectMeta job.
Proof.
  unfold withDefaults. simpl.
  by destruct (String.eqb (metav1.APIVersion (batchv1.TypeMeta job)) "").
Qed.

Section UpsertThroughDelete.

Context `{Package} {W : Type} `{Timing W}.
Variables (c : JobControl W) (ctx : context.Ctx W).
Variables (cJob : batchv1.Job) (client : kubernetes.Clientset W).
Hypothesis Hjob : Job (Config c) = Some cJob.
Hypothesis Hclient : Clientset (Config c) = Some client.

Let namespace := metav1.Namespace (batchv1.ObjectMeta cJob).
Let name := metav1.Name (batchv1.ObjectMeta cJob).
Let desired := stripForCreate cJob.

Variables (w w1 w2 w3 : W) (currentJob refetched : batchv1.Job) (podList : v1.PodList).

Let namespace' := metav1.Namespace (batchv1.ObjectMeta currentJob).
Let name' := metav1.Name (batchv1.ObjectMeta currentJob).

Hypothesis Hget :
  kubernetes.Jobs_Get client namespace name w = ((currentJob, None), w1).
Hypothesis Hrefetch :
  kubernetes.Jobs_Get client namespace' name' w1 = ((refetched, None), w2).
Hypothesis Hlist :
  kubernetes.Pods_List client (metav1.Namespace (batchv1.ObjectMeta refetched))
    (labels.AsSelector (selectorLabels refetched)) w2 = (Got podList, w3).

Lemma JobGo_Upsert_plan :
  let r := JobGo.Upsert c ctx w in
  result r = Returned None ->
  exists k m : nat,
    (1 <= k <= S deletionRetries)%nat
    /\ (1 <= m <= S createRetries)%nat
    /\ remoteCalls (events r)
       = JobsGet namespace name
           :: ([JobsGet namespace' name'; listOwned refetched;
                JobsDelete namespace' name' foreground]
               ++ replicate k (JobsGet namespace' name')
               ++ podDeletions namespace'
                    (rangeOrder (collected (ownedBy refetched) (v1.Items podList) ∅)))
           ++ replicate m (JobsCreate namespace desired).
Proof.
  intros r Hres.
  destruct (JobGo_Upsert_calls c ctx cJob client Hjob Hclient w w1 currentJob Hget)
    as (m & Hcalls & Hm & Hone & _ & Hd).
  fold r in Hcalls, Hd. specialize (Hd Hres). specialize (Hone Hd).
  assert (Hget' :
    kubernetes.Jobs_Get client
      (metav1.Namespace (batchv1.ObjectMeta (withDefaults currentJob)))
      (metav1.Name (batchv1.ObjectMeta (withDefaults currentJob))) w1
    = ((refetched, None), w2)).
  { by rewrite withDefaults_meta. }
  destruct (JobGo_Delete_calls (controlFor client currentJob) ctx true
              (withDefaults currentJob) client eq_refl eq_refl
              w1 w2 w3 refetched podList Hget' Hlist)
    as (k & Hk & _ & Hfull & _).
  destruct (Hfull Hd) as [Hplan Hk1].
  rewrite withDefaults_meta in Hplan. fold namespace' name' in Hplan.
  exists k, m. split; [lia|]. split; [lia|].
  by rewrite Hcalls, Hplan.
Qed.

End UpsertThroughDelete.

Lemma stripForCreate_identity `{Package} (job : batchv1.Job) :
  let desired := stripForCreate job in
  metav1.UID (batchv1.ObjectMeta desired) = ""
  /\ metav1.SelfLink (batchv1.ObjectMeta desired) = ""
  /\ metav1.ResourceVersion (batchv1.ObjectMeta desired) = ""
  /\ metav1.Name (batchv1.ObjectMeta desired) = metav1.Name (batchv1.ObjectMeta job)
  /\ metav1.Namespace (batchv1.ObjectMeta desired)
     = metav1.Namespace (batchv1.ObjectMeta job).
Proof.
  unfold stripForCreate. simpl.
  by destruct (batchv1.Selector (batchv1.Spec job)).
Qed.

Lemma stripForCreate_labels `{Package} (job : batchv1.Job) (selector : metav1.LabelSelector) :
  batchv1.Selector (batchv1.Spec job) = Some selector ->
  let desired := stripForCreate job in
  batchv1.Selector (batchv1.Spec desired)
  = Some (metav1.mkLabelSelector (delete ControllerUIDLabel (metav1.MatchLabels selector)))
  /\ metav1.Labels (v1.TemplateMeta (batchv1.Template (batchv1.Spec desired)))
     = delete ControllerUIDLabel
         (metav1.Labels (v1.TemplateMeta (batchv1.Template (batchv1.Spec job)))).
Proof. intros Hsel. unfold stripForCreate. simpl. by rewrite Hsel. Qed.

(** C6: when the fetch reports that there is no current object, Upsert, in
    both revisions, issues no delete call and no list call: after the fetch
    it only creates the desired object, whose UID, self-link and resource
    version it has cleared (the revision with a backoff may repeat the
    create call).  Any other error of the fetch ends Upsert after the fetch
    and is handed back, translated. *)
Theorem Upsert_absent_creates `{Package} {W : Type} `{Timing W}
    (c : JobControl W) (ctx : context.Ctx W) (cJob : batchv1.Job)
    (client : kubernetes.Clientset W) (w w1 : W) (fetched : batchv1.Job)
    (err : option error) (e : error) :
  Job (Config c) = Some cJob ->
  Clientset (Config c) = Some client ->
  let namespace := metav1.Namespace (batchv1.ObjectMeta cJob) in
  let name := metav1.Name (batchv1.ObjectMeta cJob) in
  let desired := stripForCreate cJob in
  kubernetes.Jobs_Get client namespace name w = ((fetched, err), w1) ->
  ConvertError err = Some e ->
  (trace.IsNotFound e = true ->
     remoteCalls (events (Part000.Upsert c ctx w))
     = [JobsGet namespace name; JobsCreate namespace desired]
     /\ result (Part000.Upsert c ctx w)
        = Returned (ConvertError (kubernetes.Jobs_Create client namespace desired w1).1)
     /\ (exists m : nat,
           (1 <= m <= S createRetries)%nat
           /\ remoteCalls (events (JobGo.Upsert c ctx w))
              = JobsGet namespace name :: replicate m (JobsCreate namespace desired))
     /\ metav1.UID (batchv1.ObjectMeta desired) = ""
     /\ metav1.SelfLink (batchv1.ObjectMeta desired) = ""
     /\ metav1.ResourceVersion (batchv1.ObjectMeta desired) = "")
  /\ (trace.IsNotFound e = false ->
        (result (Part000.Upsert c ctx w) = Returned (Some e)
         /\ remoteCalls (events (Part000.Upsert c ctx w)) = [JobsGet namespace name])
        /\ (result (JobGo.Upsert c ctx w) = Returned (Some e)
            /\ remoteCalls (events (JobGo.Upsert c ctx w)) = [JobsGet namespace name])).
Proof.
  intros Hjob Hclient namespace name desired Hget Hconv. split.
  - intros Hnf.
    destruct (Part000_Upsert_absent c ctx cJob client Hjob Hclient
                w w1 fetched err e Hget Hconv Hnf) as [Hcalls Hres].
    destruct (stripForCreate_identity cJob) as (Huid & Hlink & Hversion & _).
    repeat split; try done.
    by apply (JobGo_Upsert_absent c ctx cJob client Hjob Hclient w w1 fetched err e).
  - intros Hnf.
    by apply (Upsert_fetch_error c ctx cJob client Hjob Hclient w w1 fetched err e).
Qed.

Lemma Upsert_absent_creates_witness :
  let desired := Cluster.job "j" "stale-uid" "Job" None None 0 0 in
  let s := Cluster.mkState [] [] in
  remoteCalls (events (Part000.Upsert (Cluster.controller desired) Cluster.background s))
  = [JobsGet "default" "j"; JobsCreate "default" (stripForCreate desired)].
Proof.
  intros desired s.
  assert (Hget : kubernetes.Jobs_Get Cluster.client "default" "j" s
                 = ((Cluster.emptyJob, Some Cluster.notFound), s))
    by (vm_compute; reflexivity).
  assert (Hconv : ConvertError (Some Cluster.notFound)
                  = Some (TraceError NotFoundError "not found"))
    by (vm_compute; reflexivity).
  exact (proj1 (proj1 (Upsert_absent_creates (Cluster.controller desired)
                         Cluster.background desired Cluster.client s s
                         Cluster.emptyJob (Some Cluster.notFound)
                         (TraceError NotFoundError "not found")
                         eq_refl eq_refl Hget Hconv) eq_refl)).
Defined.




(** ** The tests the specification lists, run on the small cluster *)

Example Delete_of_absent_job :
  let j := Cluster.job "j" "" "Job" None None 0 0 in
  let s := Cluster.mkState [] [] in
  result (Part000.Delete (Cluster.controller j) Cluster.background true s)
  = Returned (Some (TraceError NotFoundError "not found"))
  /\ remoteCalls (events (Part000.Delete (Cluster.controller j) Cluster.background true s))
     = [JobsGet "default" "j"]
  /\ result (JobGo.Delete (Cluster.controller j) Cluster.background true s)
     = Returned (Some (TraceError NotFoundError "not found"))
  /\ remoteCalls (events (JobGo.Delete (Cluster.controller j) Cluster.background true s))
     = [JobsGet "default" "j"].
Proof. vm_compute. done. Qed.

Example Status_without_completions :
  let done_ := Cluster.job "j" "u" "Job" None None 0 1 in
  let busy := Cluster.job "j" "u" "Job" None None 1 0 in
  result (Status (Cluster.controller done_) (Cluster.mkState [done_] []))
  = Returned None
  /\ result (Status (Cluster.controller busy) (Cluster.mkState [busy] []))
     = Returned (Some (TraceError CompareFailedError
                         "job default/j not yet complete (succeeded: 0, active: 1)")).
Proof. vm_compute. done. Qed.

Example Status_with_completions :
  let three := Cluster.job "j" "u" "Job" None (Some 3) 0 3 in
  let two := Cluster.job "j" "u" "Job" None (Some 3) 1 2 in
  result (Status (Cluster.controller three) (Cluster.mkState [three] []))
  = Returned None
  /\ result (Status (Cluster.controller two) (Cluster.mkState [two] []))
     = Returned (Some (TraceError CompareFailedError
                         "job default/j not yet complete (succeeded: 2, active: 1)")).
Proof. vm_compute. done. Qed.

Example ConvertError_already_exists :
  ConvertError (Some (Cluster.statusError 409 "AlreadyExists" "jobs j already exists"))
  = Some (TraceError AlreadyExistsError "jobs j already exists").
Proof. vm_compute. done. Qed.

Example Upsert_strips_generated_labels :
  let selector := metav1.mkLabelSelector {[ "controller-uid" := "u1"; "app" := "a" ]} in
  let j := Cluster.job "j" "u1" "Job" (Some selector) None 0 0 in
  batchv1.Selector (batchv1.Spec (stripForCreate j))
  = Some (metav1.mkLabelSelector {[ "app" := "a" ]})
  /\ metav1.UID (batchv1.ObjectMeta (stripForCreate j)) = "".
Proof. vm_compute. done. Qed.

(** * Further properties of the embedded code *)

(** ** Pod conditions *)

Lemma findCondition_spec (conditionType : string)
    (conditions : list corev1.PodCondition) :
  forall i : Z,
    match findCondition conditions conditionType i with
    | (index, None) => index = -1 /\ noCondition conditionType conditions
    | (index, Some condition) =>
        exists before later,
          conditions = before ++ condition :: later
          /\ noCondition conditionType before
          /\ corev1.ConditionType condition = conditionType
          /\ index = i + Z.of_nat (length before)
    end.
Proof.
  induction conditions as [|c conditions IH]; intros i; simpl.
  - split; [done | constructor].
  - destruct (String.eqb_spec (corev1.ConditionType c) conditionType) as [Heq|Hne].
    + exists [], conditions. split; [done|]. split; [constructor|].
      split; [done | simpl; lia].
    + specialize (IH (i + 1)).
      destruct (findCondition conditions conditionType (i + 1)) as [index [found|]].
      * destruct IH as (before & later & -> & Hnone & Htype & ->).
        exists (c :: before), later. split; [done|]. split; [by constructor|].
        split; [done | simpl; lia].
      * destruct IH as [-> Hnone]. split; [done | by constructor].
Qed.

(** X1: getPodCondition finds the first condition of the asked type: it
    hands back that condition with its index in the list, no earlier
    condition having the type; it hands back -1 and nil exactly when no
    condition has the type, and for a nil status. *)
Theorem getPodCondition_first (status : corev1.PodStatus) (conditionType : string) :
  getPodCondition None conditionType = (-1, None)
  /\ match getPodCondition (Some status) conditionType with
     | (index, None) =>
         index = -1 /\ noCondition conditionType (corev1.Conditions status)
     | (index, Some condition) =>
         0 <= index
         /\ corev1.Conditions status !! Z.to_nat index = Some condition
         /\ corev1.ConditionType condition = conditionType
         /\ noCondition conditionType (take (Z.to_nat index) (corev1.Conditions status))
     end.
Proof.
  split; [reflexivity|]. unfold getPodCondition.
  pose proof (findCondition_spec conditionType (corev1.Conditions status) 0) as Hspec.
  destruct (findCondition (corev1.Conditions status) conditionType 0)
    as [index [condition|]]; [|done].
  destruct Hspec as (before & later & Heq & Hnone & Htype & ->).
  rewrite Z.add_0_l, Nat2Z.id, Heq. repeat split.
  - lia.
  - by rewrite lookup_app_r, Nat.sub_diag.
  - done.
  - by rewrite take_app_length.
Qed.

(** X2: a pod status is ready exactly when its first condition of type
    Ready has the status True; a later Ready condition does not count. *)
Theorem isPodReadyConditionTrue_first (status : corev1.PodStatus) :
  isPodReadyConditionTrue status = true <->
  exists before condition later,
    corev1.Conditions status = before ++ condition :: later
    /\ noCondition corev1.PodReady before
    /\ corev1.ConditionType condition = corev1.PodReady
    /\ corev1.ConditionStatus condition = corev1.ConditionTrue.
Proof.
  unfold isPodReadyConditionTrue, getPodCondition.
  pose proof (findCondition_spec corev1.PodReady (corev1.Conditions status) 0) as Hspec.
  destruct (findCondition (corev1.Conditions status) corev1.PodReady 0)
    as [index [condition|]].
  - destruct Hspec as (before & later & Heq & Hnone & Htype & _). split.
    + intros Htrue%String.eqb_eq. by exists before, condition, later.
    + intros (before' & condition' & later' & Heq' & Hnone' & Htype' & Hstatus').
      apply String.eqb_eq.
      assert (before = before' /\ condition = condition') as [_ ->]; [|done].
      rewrite Heq in Heq'. clear Heq.
      revert before' Hnone' Heq'.
      induction Hnone as [|b before Hb _ IH]; intros before' Hnone' Heq'.
      * destruct Hnone' as [|b' before' Hb' _]; simpl in Heq'.
        -- by injection Heq' as -> _.
        -- injection Heq' as -> _. by destruct Hb'.
      * destruct Hnone' as [|b' before' Hb' Hnone']; simpl in Heq'.
        -- injection Heq' as <- _. by destruct Hb.
        -- injection Heq' as -> Heq'.
           by destruct (IH before' Hnone' Heq') as [-> ->].
  - destruct Hspec as [_ Hnone]. split; [done|].
    intros (before & condition & later & Heq & _ & Htype & _).
    rewrite Heq in Hnone. apply Forall_app in Hnone as [_ Hnone].
    apply Forall_cons in Hnone as [Hne _]. by destruct Hne.
Qed.

(** ** The readiness checks *)

Section ReadinessFacts.

Context `{Package} `{Rendering} `{Defaults} {W : Type}.

Lemma checkRunningAndReady_cases (pods : gmap string corev1.Pod)
    (nodes : list corev1.Node) (entry : log.Entry) (w : W) :
  exists (verdict : bool * option error) (t : list Event),
    checkRunningAndReady pods nodes entry w = (Returned verdict, w, t)
    /\ unlogged t = []
    /\ match nodes with
       | [] => exists m, verdict = (false, Some (TraceError NotFoundError m))
       | node :: _ =>
           match pods !! metav1.Name (corev1.NodeMeta node) with
           | None => exists m, verdict = (false, Some (TraceError NotFoundError m))
           | Some pod =>
               let phase := corev1.Phase (corev1.Status pod) in
               if String.eqb phase corev1.PodFailed
                  || String.eqb phase corev1.PodSucceeded
               then verdict = (false, Some errPodCompleted)
               else if String.eqb phase corev1.PodRunning
               then verdict = (isPodReadyConditionTrue (corev1.Status pod), None)
               else exists m, verdict = (false, Some (TraceError CompareFailedError m))
           end
       end.
Proof.
  unfold checkRunningAndReady. destruct nodes as [|node rest].
  - eexists _, _. split; [reflexivity|]. split; [done|]. by eexists.
  - destruct (pods !! metav1.Name (corev1.NodeMeta node)) as [pod|].
    + cbv zeta.
      destruct (String.eqb (corev1.Phase (corev1.Status pod)) corev1.PodFailed
                || String.eqb (corev1.Phase (corev1.Status pod)) corev1.PodSucceeded).
      * autorewrite with run. eexists _, _. split; [reflexivity|]. done.
      * destruct (String.eqb (corev1.Phase (corev1.Status pod)) corev1.PodRunning).
        -- destruct (isPodReadyConditionTrue (corev1.Status pod));
             autorewrite with run; eexists _, _; (split; [reflexivity|]); done.
        -- eexists _, _. split; [reflexivity|]. split; [done|]. by eexists.
    + autorewrite with run. eexists _, _. split; [reflexivity|].
      split; [done|]. by eexists.
Qed.

End ReadinessFacts.

(** X3: checkRunningAndReady only looks: it returns, leaves the state as it
    is and produces nothing but log lines.  It reports ready exactly when
    there is a first node, that node has a pod, the pod's phase is Running
    and its Ready condition is true; it then reports no error. *)
Theorem checkRunningAndReady_ready `{Package} `{Rendering} `{Defaults} {W : Type}
    (pods : gmap string corev1.Pod) (nodes : list corev1.Node)
    (entry : log.Entry) (w : W) :
  let r := checkRunningAndReady pods nodes entry w in
  world r = w
  /\ unlogged (events r) = []
  /\ exists (ready : bool) (err : option error),
       result r = Returned (ready, err)
       /\ (ready = true <->
           exists node rest pod,
             nodes = node :: rest
             /\ pods !! metav1.Name (corev1.NodeMeta node) = Some pod
             /\ corev1.Phase (corev1.Status pod) = corev1.PodRunning
             /\ isPodReadyConditionTrue (corev1.Status pod) = true)
       /\ (ready = true -> err = None).
Proof.
  intros r. subst r.
  destruct (checkRunningAndReady_cases pods nodes entry w)
    as ([ready err] & t & -> & Hlog & Hcases).
  split; [done|]. split; [done|]. exists ready, err. split; [done|].
  destruct nodes as [|node rest].
  { destruct Hcases as [m [= -> ->]]. split; [|done].
    split; [done|]. by intros (? & ? & ? & ? & _). }
  destruct (pods !! metav1.Name (corev1.NodeMeta node)) as [pod|] eqn:Hpod.
  2:{ destruct Hcases as [m [= -> ->]]. split; [|done].
      split; [done|]. by intros (? & ? & ? & [= <- <-] & ? & _); simplify_eq. }
  cbv zeta in Hcases.
  destruct (String.eqb_spec (corev1.Phase (corev1.Status pod)) corev1.PodFailed)
    as [Hf|Hf].
  { simpl in Hcases. injection Hcases as -> ->. split; [|done].
    split; [done|]. intros (? & ? & ? & [= <- <-] & ? & Hrun & _). simplify_eq.
    rewrite Hf in Hrun. done. }
  destruct (String.eqb_spec (corev1.Phase (corev1.Status pod)) corev1.PodSucceeded)
    as [Hs|Hs].
  { simpl in Hcases. injection Hcases as -> ->. split; [|done].
    split; [done|]. intros (? & ? & ? & [= <- <-] & ? & Hrun & _). simplify_eq.
    rewrite Hs in Hrun. done. }
  simpl in Hcases.
  destruct (String.eqb_spec (corev1.Phase (corev1.Status pod)) corev1.PodRunning)
    as [Hr|Hr].
  - injection Hcases as -> ->. split; [|done]. split.
    + intros Hready. by exists node, rest, pod.
    + intros (? & ? & ? & [= <- <-] & ? & _ & Hready). by simplify_eq.
  - destruct Hcases as [m [= -> ->]]. split; [|done].
    split; [done|]. intros (? & ? & ? & [= <- <-] & ? & Hrun & _). by simplify_eq.
Qed.

(** X4: checkRunning hands back nil exactly when there is a first node,
    that node has a pod and the pod's phase is Running, Failed or Succeeded.
    Whether a running pod is ready makes no difference, and nodes after the
    first are not looked at. *)
Theorem checkRunning_started `{Package} `{Rendering} `{Defaults} {W : Type}
    (pods : gmap string corev1.Pod) (nodes : list corev1.Node)
    (entry : log.Entry) (w : W) :
  result (checkRunning pods nodes entry w) = Returned None <->
  exists node rest pod,
    nodes = node :: rest
    /\ pods !! metav1.Name (corev1.NodeMeta node) = Some pod
    /\ startedPhase (corev1.Phase (corev1.Status pod)) = true.
Proof.
  unfold checkRunning. rewrite bind_unfold.
  destruct (checkRunningAndReady_cases pods nodes entry w)
    as ([ready err] & t & -> & Hlog & Hcases).
  unfold startedPhase.
  destruct nodes as [|node rest].
  { destruct Hcases as [m [= -> ->]]. simpl. autorewrite with run. unfold result. simpl.
    split; [done|]. by intros (? & ? & ? & ? & _). }
  destruct (pods !! metav1.Name (corev1.NodeMeta node)) as [pod|] eqn:Hpod.
  2:{ destruct Hcases as [m [= -> ->]]. simpl. autorewrite with run.
      unfold result. simpl. split; [done|].
      intros (? & ? & ? & [= <- <-] & ? & _). by simplify_eq. }
  cbv zeta in Hcases.
  destruct (String.eqb (corev1.Phase (corev1.Status pod)) corev1.PodFailed
            || String.eqb (corev1.Phase (corev1.Status pod)) corev1.PodSucceeded)
    eqn:Hdone.
  { injection Hcases as -> ->. simpl. rewrite ?bool_decide_eq_true_2 by done.
    autorewrite with run. unfold result. simpl. split; [|done].
    intros _. exists node, rest, pod. split; [done|]. split; [done|].
    apply orb_true_iff in Hdone as [->| ->]; by rewrite ?orb_true_r. }
  apply orb_false_iff in Hdone as [Hf Hs].
  destruct (String.eqb (corev1.Phase (corev1.Status pod)) corev1.PodRunning) eqn:Hr.
  - injection Hcases as -> ->.
    destruct (isPodReadyConditionTrue (corev1.Status pod)); simpl;
      rewrite ?bool_decide_eq_false_2 by done; autorewrite with run;
      unfold result; simpl; (split; [|done]); intros _;
      exists node, rest, pod; by rewrite Hr.
  - destruct Hcases as [m [= -> ->]]. simpl.
    rewrite ?bool_decide_eq_false_2 by done. autorewrite with run.
    unfold result. simpl. split; [done|].
    intros (? & ? & ? & [= <- <-] & ? & Hstarted). simplify_eq.
    by rewrite Hr, Hf, Hs in Hstarted.
Qed.

(** X5: the errors of checkRunning: without a node, or without a pod on the
    first node, it is a NotFound error; with a pod there whose phase is none
    of Running, Failed and Succeeded it is a CompareFailed error. *)
Theorem checkRunning_errors `{Package} `{Rendering} `{Defaults} {W : Type}
    (pods : gmap string corev1.Pod) (entry : log.Entry) (w : W) :
  (exists m, result (checkRunning pods [] entry w)
             = Returned (Some (TraceError NotFoundError m)))
  /\ (forall node rest,
        pods !! metav1.Name (corev1.NodeMeta node) = None ->
        exists m, result (checkRunning pods (node :: rest) entry w)
                  = Returned (Some (TraceError NotFoundError m)))
  /\ (forall node rest pod,
        pods !! metav1.Name (corev1.NodeMeta node) = Some pod ->
        startedPhase (corev1.Phase (corev1.Status pod)) = false ->
        exists m, result (checkRunning pods (node :: rest) entry w)
                  = Returned (Some (TraceError CompareFailedError m))).
Proof.
  split; [|split].
  - unfold checkRunning. rewrite bind_unfold.
    destruct (checkRunningAndReady_cases pods [] entry w)
      as ([ready err] & t & -> & _ & [m [= -> ->]]).
    simpl. autorewrite with run. by eexists.
  - intros node rest Hpod. unfold checkRunning. rewrite bind_unfold.
    destruct (checkRunningAndReady_cases pods (node :: rest) entry w)
      as ([ready err] & t & -> & _ & Hcases).
    rewrite Hpod in Hcases. destruct Hcases as [m [= -> ->]].
    simpl. autorewrite with run. by eexists.
  - intros node rest pod Hpod Hphase. unfold checkRunning. rewrite bind_unfold.
    destruct (checkRunningAndReady_cases pods (node :: rest) entry w)
      as ([ready err] & t & -> & _ & Hcases).
    rewrite Hpod in Hcases. cbv zeta in Hcases. unfold startedPhase in Hphase.
    apply orb_false_iff in Hphase as [Hphase Hs].
    apply orb_false_iff in Hphase as [Hr Hf].
    rewrite Hf, Hs, Hr in Hcases. simpl in Hcases.
    destruct Hcases as [m [= -> ->]].
    simpl. rewrite ?bool_decide_eq_false_2 by done. autorewrite with run. by eexists.
Qed.

Lemma checkRunning_errors_witness :
  exists m,
    result (checkRunning {[ "n1" := Fleet.pod "p1" "n1" "Pending" [] ]}
              [Fleet.node "n1"] Fleet.entry (Cluster.mkState [] []))
    = Returned (Some (TraceError CompareFailedError m)).
Proof.
  apply (proj2 (proj2 (checkRunning_errors {[ "n1" := Fleet.pod "p1" "n1" "Pending" [] ]}
                         Fleet.entry (Cluster.mkState [] [])))
           (Fleet.node "n1") [] (Fleet.pod "p1" "n1" "Pending" []));
    vm_compute; reflexivity.
Defined.

(** Running but not ready, and a second node without a pod: checkRunning is
    content. *)
Example checkRunning_unready_first_node :
  let pods : gmap string corev1.Pod :=
    {[ "n1" := Fleet.pod "p1" "n1" "Running" [Fleet.scheduled; Fleet.unready] ]} in
  result (checkRunning pods [Fleet.node "n1"; Fleet.node "n2"] Fleet.entry
            (Cluster.mkState [] []))
  = Returned None
  /\ result (checkRunningAndReady pods [Fleet.node "n1"; Fleet.node "n2"] Fleet.entry
               (Cluster.mkState [] []))
     = Returned (false, None).
Proof. vm_compute. done. Qed.

(** ** Status and the status poll *)

Section StatusRun.

Context `{Package} {W : Type}.

Lemma Status_run (c : JobControl W) (cJob : batchv1.Job)
    (client : kubernetes.Clientset W) (w : W) :
  Job (Config c) = Some cJob ->
  Clientset (Config c) = Some client ->
  let namespace := metav1.Namespace (batchv1.ObjectMeta cJob) in
  let name := metav1.Name (batchv1.ObjectMeta cJob) in
  let fetched := kubernetes.Jobs_Get client namespace name w in
  exists err : option error,
    Status c w = (Returned err, fetched.2, [Remote (JobsGet namespace name) fetched.1.2])
    /\ (forall e, fetched.1.2 = Some e -> err = ConvertError (Some e)).
Proof.
  intros Hjob Hclient namespace name fetched. subst fetched.
  unfold Status. rewrite Hjob, Hclient. autorewrite with run. fold namespace name.
  destruct (kubernetes.Jobs_Get client namespace name w) as [[job [e|]] w1]; simpl.
  - autorewrite with run. eexists. split; [reflexivity|]. by intros ? [= <-].
  - match goal with
    | |- context [if ?b then _ else _] => destruct b
    end; autorewrite with run; eexists; (split; [reflexivity|]); done.
Qed.

Lemma retryLoop_calls (ctx : context.Ctx W) (period : Z) (fn : M W (option error))
    (call : Call) (remaining : nat) :
  (forall w, exists err w' t, fn w = (Returned err, w', t) /\ remoteCalls t = [call]) ->
  forall (i : Z) (err : option error) (w : W),
    let r := retryLoop ctx period fn remaining i err w in
    exists k : nat,
      remoteCalls (events r) = replicate k call
      /\ (k <= remaining)%nat
      /\ exists err', result r = Returned err'.
Proof.
  intros Hfn. induction remaining as [|n IH]; intros i err w; simpl.
  - exists 0%nat. repeat split; eauto.
  - destruct err as [e|].
    + autorewrite with run.
      destruct (context.DoneOrAfter ctx period w) as [cancelled w1].
      destruct cancelled; simpl.
      * autorewrite with run. exists 0%nat. repeat split; eauto. lia.
      * destruct (Hfn w1) as (err' & w2 & t & Hrun & Hcalls).
        rewrite (bind_run _ _ _ _ _ _ Hrun). autorewrite with run.
        destruct (IH (i + 1) err' w2) as (k & Hk & Hle & err'' & Hres).
        exists (S k). simpl. rewrite remoteCalls_app, Hcalls, Hk.
        split; [done|]. split; [lia|]. eauto.
    + exists 0%nat. repeat split; eauto. lia.
Qed.

Lemma retry_calls (ctx : context.Ctx W) (times period : Z) (fn : M W (option error))
    (call : Call) (w : W) :
  (forall w, exists err w' t, fn w = (Returned err, w', t) /\ remoteCalls t = [call]) ->
  let r := retry ctx times period fn w in
  exists k : nat,
    remoteCalls (events r) = replicate k call
    /\ Z.of_nat k <= Z.max times 0
    /\ (1 <= times -> (1 <= k)%nat)
    /\ exists err, result r = Returned err.
Proof.
  intros Hfn. unfold retry. destruct (Z.ltb_spec times 1).
  - exists 0%nat. repeat split; eauto; lia.
  - destruct (Hfn w) as (err & w1 & t & Hrun & Hcalls).
    rewrite (bind_run _ _ _ _ _ _ Hrun). autorewrite with run.
    destruct (retryLoop_calls ctx period fn call (Z.to_nat (times - 1)) Hfn 1 err w1)
      as (k & Hk & Hle & err' & Hres).
    exists (S k). rewrite remoteCalls_app, Hcalls, Hk.
    split; [done|]. split; [lia|]. split; [lia|]. eauto.
Qed.

End StatusRun.

(** X6: Status only reads: on a controller with a job and a client it
    issues one fetch of the job and nothing else, not even a log line, and
    leaves the cluster as the fetch left it; an error of the fetch comes
    back translated. *)
Theorem Status_reads_once `{Package} {W : Type} (c : JobControl W)
    (cJob : batchv1.Job) (client : kubernetes.Clientset W) (w : W) :
  Job (Config c) = Some cJob ->
  Clientset (Config c) = Some client ->
  let namespace := metav1.Namespace (batchv1.ObjectMeta cJob) in
  let name := metav1.Name (batchv1.ObjectMeta cJob) in
  let fetched := kubernetes.Jobs_Get client namespace name w in
  events (Status c w) = [Remote (JobsGet namespace name) fetched.1.2]
  /\ world (Status c w) = fetched.2
  /\ (forall e, fetched.1.2 = Some e ->
        result (Status c w) = Returned (ConvertError (Some e))).
Proof.
  intros Hjob Hclient namespace name fetched.
  destruct (Status_run c cJob client w Hjob Hclient) as (err & Hrun & Herr).
  rewrite Hrun. repeat split. intros e He. unfold result. simpl. by rewrite (Herr e He).
Qed.

Lemma Status_reads_once_witness :
  let j := Cluster.job "j" "u" "Job" None None 0 0 in
  events (Status (Cluster.controller j) (Cluster.mkState [] []))
  = [Remote (JobsGet "default" "j") (Some Cluster.notFound)].
Proof.
  intros j.
  exact (proj1 (Status_reads_once (Cluster.controller j) j Cluster.client
                  (Cluster.mkState [] []) eq_refl eq_refl)).
Defined.

(** X7: PollStatus with a negative number of attempts announces the poll
    and hands back success without asking the reporter for its status. *)
Theorem PollStatus_negative_attempts `{Package} `{Rendering} `{Defaults} {W : Type}
    (ctx : context.Ctx W) (retryAttempts retryPeriod : Z)
    (reporter : StatusReporter W) (w w' : W) (t : list Event) :
  retryAttempts < 0 ->
  reporterInfof reporter "Checking status retryAttempts=%v, retryPeriod=%v"
    [showZ retryAttempts;
     formatDuration (if retryPeriod =? 0 then DefaultRetryPeriod else retryPeriod)] w
  = (Returned tt, w', t) ->
  PollStatus ctx retryAttempts retryPeriod reporter w = (Returned None, w', t).
Proof.
  intros Hneg Hinfo. unfold PollStatus.
  destruct (Z.eqb_spec retryAttempts 0) as [->|_]; [lia|].
  rewrite (bind_run _ _ _ _ _ _ Hinfo). unfold retry.
  destruct (Z.ltb_spec retryAttempts 1); [|lia].
  by autorewrite with run.
Qed.

Lemma PollStatus_negative_attempts_witness :
  let j := Cluster.job "j" "u" "Job" None None 1 0 in
  let s := Cluster.mkState [j] [] in
  PollStatus Cluster.background (-1) 5 (jobReporter (Cluster.controller j)) s
  = (Returned None, s,
     [Logged (Some (log.WithFields "default/j")) log.InfoLevel
        "Checking status retryAttempts=-1, retryPeriod=5"]).
Proof.
  intros j s.
  apply (PollStatus_negative_attempts Cluster.background (-1) 5
           (jobReporter (Cluster.controller j)) s s); [lia|].
  vm_compute. reflexivity.
Defined.

(** X8: PollStatus on a job controller only fetches the job: with n the
    number of attempts in effect (the default when zero is asked), it issues
    at most n fetches and no other call, and at least one fetch when n is
    at least one. *)
Theorem PollStatus_fetches `{Package} `{Rendering} `{Defaults} {W : Type}
    (ctx : context.Ctx W) (retryAttempts retryPeriod : Z) (c : JobControl W)
    (cJob : batchv1.Job) (client : kubernetes.Clientset W) (w : W) :
  Job (Config c) = Some cJob ->
  Clientset (Config c) = Some client ->
  let n := if retryAttempts =? 0 then DefaultRetryAttempts else retryAttempts in
  let r := PollStatus ctx retryAttempts retryPeriod (jobReporter c) w in
  exists k : nat,
    remoteCalls (events r)
    = replicate k (JobsGet (metav1.Namespace (batchv1.ObjectMeta cJob))
                     (metav1.Name (batchv1.ObjectMeta cJob)))
    /\ Z.of_nat k <= Z.max n 0
    /\ (1 <= n -> (1 <= k)%nat)
    /\ exists err, result r = Returned err.
Proof.
  intros Hjob Hclient n r. subst r. unfold PollStatus. fold n.
  unfold jobReporter at 1. cbn [reporterInfof reporterStatus jobReporter].
  autorewrite with run.
  destruct (retry_calls ctx n
              (if retryPeriod =? 0 then DefaultRetryPeriod else retryPeriod)
              (Status c)
              (JobsGet (metav1.Namespace (batchv1.ObjectMeta cJob))
                 (metav1.Name (batchv1.ObjectMeta cJob))) w)
    as (k & Hk & Hle & Hone & err & Hres).
  { intros w0. destruct (Status_run c cJob client w0 Hjob Hclient) as (err & Hrun & _).
    by eexists _, _, _. }
  exists k. simpl. rewrite Hk. split; [done|]. split; [done|]. split; [done|]. eauto.
Qed.

Lemma PollStatus_fetches_witness :
  let j := Cluster.job "j" "u" "Job" None None 1 0 in
  let s := Cluster.mkState [j] [] in
  exists k : nat,
    remoteCalls (events (PollStatus Cluster.background 3 5
                           (jobReporter (Cluster.controller j)) s))
    = replicate k (JobsGet "default" "j")
    /\ Z.of_nat k <= 3.
Proof.
  intros j s.
  destruct (PollStatus_fetches Cluster.background 3 5 (Cluster.controller j) j
              Cluster.client s eq_refl eq_refl) as (k & Hk & Hle & _).
  exists k. split; [exact Hk | exact Hle].
Defined.

(** A job that never completes is asked for its status on every attempt. *)
Example PollStatus_exhausts_attempts :
  let j := Cluster.job "j" "u" "Job" None None 1 0 in
  let r := PollStatus Cluster.background 3 5 (jobReporter (Cluster.controller j))
             (Cluster.mkState [j] []) in
  remoteCalls (events r)
  = [JobsGet "default" "j"; JobsGet "default" "j"; JobsGet "default" "j"]
  /\ result r
     = Returned (Some (TraceError CompareFailedError
                         "job default/j not yet complete (succeeded: 0, active: 1)")).
Proof. vm_compute. done. Qed.

(** ** More on the error translation *)

Lemma Sprintf_percentFree (s : string) (args : list string) :
  percentFree s = true -> Sprintf s args = s.
Proof.
  induction s as [|c rest IH]; [done|].
  intros [Hc Hrest]%andb_true_iff.
  change (match rest with
          | String d rest' =>
              if (Ascii.eqb c "%" && Ascii.eqb d "v")%char
              then match args with
                   | a :: args' => a +:+ Sprintf rest' args'
                   | [] => "%!v(MISSING)" +:+ Sprintf rest' []
                   end
              else String c (Sprintf rest args)
          | EmptyString => String c EmptyString
          end = String c rest).
  destruct rest as [|d rest']; [done|].
  apply negb_true_iff in Hc. rewrite Hc. simpl andb. cbv iota.
  by rewrite IH.
Qed.

Lemma append_empty_r (s : string) : s +:+ "" = s.
Proof.
  induction s as [|c s IH]; [done|].
  change (String c (s +:+ "") = String c s). by rewrite IH.
Qed.

(** X9: translating twice is translating once: what ConvertErrorWithContext
    hands back is handed back unchanged by a second translation, under any
    context. *)
Theorem ConvertErrorWithContext_idempotent `{Package}
    (err : option error) (format format' : string) (args args' : list string) :
  ConvertErrorWithContext (ConvertErrorWithContext err format args) format' args'
  = ConvertErrorWithContext err format args.
Proof.
  destruct err as [e|]; [|done].
  destruct e as [st| |]; try done.
  assert (Hcases :
    (exists k m, ConvertErrorWithContext (Some (StatusError st)) format args
                 = Some (TraceError k m))
    \/ (ConvertErrorWithContext (Some (StatusError st)) format args
        = Some (StatusError st)
        /\ forall f a, ConvertErrorWithContext (Some (StatusError st)) f a
                       = Some (StatusError st))).
  { unfold ConvertErrorWithContext.
    destruct ((unversioned.Code st =? http.StatusConflict)
              && String.eqb (unversioned.Reason st)
                   unversioned.StatusReasonAlreadyExists);
      [left; by eexists _, _|].
    destruct (unversioned.Code st =? http.StatusNotFound); [left; by eexists _, _|].
    destruct (unversioned.Code st =? http.StatusForbidden); [left; by eexists _, _|].
    right. done. }
  destruct Hcases as [(k & m & ->) | [-> Hsame]]; [done | apply Hsame].
Qed.

(** X10: the translation never swallows an error and never invents one: it
    hands back nil exactly for nil. *)
Theorem ConvertErrorWithContext_nil_iff `{Package}
    (err : option error) (format : string) (args : list string) :
  ConvertErrorWithContext err format args = None <-> err = None.
Proof.
  split; [|by intros ->].
  destruct err as [e|]; [|done].
  destruct e as [st| |]; try done.
  unfold ConvertErrorWithContext.
  repeat match goal with |- context [if ?b then _ else _] => destruct b end; done.
Qed.

(** X11: for a status error without details whose text has no percent sign,
    ConvertError hands back, for the codes it maps, an error of the mapped
    kind whose message is the text of the status error. *)
Theorem ConvertError_keeps_text `{Package} (st : unversioned.Status) :
  percentFree (unversioned.Message st) = true ->
  isEmptyDetails (unversioned.Details st) = true ->
  (unversioned.Code st = 409 -> unversioned.Reason st = "AlreadyExists" ->
     ConvertError (Some (StatusError st))
     = Some (TraceError AlreadyExistsError (unversioned.Message st)))
  /\ (unversioned.Code st = 404 ->
        ConvertError (Some (StatusError st))
        = Some (TraceError NotFoundError (unversioned.Message st)))
  /\ (unversioned.Code st = 403 ->
        ConvertError (Some (StatusError st))
        = Some (TraceError AccessDeniedError (unversioned.Message st))).
Proof.
  intros Hfree Hempty.
  assert (Hmessage : Sprintf (Sprintf "%v" [unversioned.Message st]) []
                     = unversioned.Message st).
  { change (Sprintf "%v" [unversioned.Message st])
      with (unversioned.Message st +:+ "").
    by rewrite append_empty_r, Sprintf_percentFree. }
  unfold ConvertError, ConvertErrorWithContext, http.StatusConflict,
    http.StatusNotFound, http.StatusForbidden, unversioned.StatusReasonAlreadyExists,
    trace.AlreadyExists, trace.NotFound, trace.AccessDenied.
  rewrite Hempty. cbn [negb Error String.eqb]. cbv zeta.
  repeat split.
  - intros -> ->. cbn [Z.eqb Pos.eqb andb]. rewrite String.eqb_refl.
    by rewrite Hmessage.
  - intros ->. cbn [Z.eqb Pos.eqb andb]. by rewrite Hmessage.
  - intros ->. cbn [Z.eqb Pos.eqb andb]. by rewrite Hmessage.
Qed.

Lemma ConvertError_keeps_text_witness :
  ConvertError (Some Cluster.notFound) = Some (TraceError NotFoundError "not found").
Proof.
  exact (proj1 (proj2 (ConvertError_keeps_text
                         (unversioned.mkStatus "not found" "NotFound" 404 None)
                         eq_refl eq_refl)) eq_refl).
Defined.

(** ** Failed steps of Delete and Upsert *)

Lemma ConvertError_again `{Package} (err : option error) :
  ConvertError (ConvertError err) = ConvertError err.
Proof.
  destruct err as [e|]; [|done].
  destruct e as [st| |]; try done.
  unfold ConvertError, ConvertErrorWithContext.
  destruct ((unversioned.Code st =? http.StatusConflict)
            && String.eqb (unversioned.Reason st)
                 unversioned.StatusReasonAlreadyExists) eqn:Hc; [done|].
  destruct (unversioned.Code st =? http.StatusNotFound) eqn:Hn; [done|].
  destruct (unversioned.Code st =? http.StatusForbidden) eqn:Hf; [done|].
  by rewrite Hc, Hn, Hf.
Qed.

Section FailedSteps.

Context `{Package} {W : Type} `{Timing W}.
Variables (c : JobControl W) (ctx : context.Ctx W) (cascade : bool).
Variables (cJob : batchv1.Job) (client : kubernetes.Clientset W).
Hypothesis Hjob : Job (Config c) = Some cJob.
Hypothesis Hclient : Clientset (Config c) = Some client.

Let namespace := metav1.Namespace (batchv1.ObjectMeta cJob).
Let name := metav1.Name (batchv1.ObjectMeta cJob).
Let desired := stripForCreate cJob.

Lemma Delete_fetch_failed_run (w w1 : W) (fetched : batchv1.Job) (e : error) :
  kubernetes.Jobs_Get client namespace name w = ((fetched, Some e), w1) ->
  (result (Part000.Delete c ctx cascade w) = Returned (ConvertError (Some e))
   /\ world (Part000.Delete c ctx cascade w) = w1
   /\ remoteCalls (events (Part000.Delete c ctx cascade w)) = [JobsGet namespace name])
  /\ (result (JobGo.Delete c ctx cascade w) = Returned (ConvertError (Some e))
      /\ world (JobGo.Delete c ctx cascade w) = w1
      /\ remoteCalls (events (JobGo.Delete c ctx cascade w)) = [JobsGet namespace name]).
Proof.
  intros Hget. unfold Part000.Delete, JobGo.Delete.
  rewrite Hjob, Hclient. autorewrite with run. fold namespace name.
  rewrite Hget. simpl. autorewrite with run. done.
Qed.

Lemma collectPods_failed_run (job : batchv1.Job) (w w' : W) (e : error) :
  kubernetes.Pods_List client (metav1.Namespace (batchv1.ObjectMeta job))
    (labels.AsSelector (selectorLabels job)) w = (Err e, w') ->
  exists e',
    ConvertError (Some e) = Some e'
    /\ collectPods c job w = (Returned (Err e'), w', [Remote (listOwned job) (Some e)]).
Proof.
  intros Hlist. rewrite (collectPods_run c client job w Hclient).
  fold (selectorLabels job). rewrite Hlist.
  destruct (ConvertError_some e) as [e' He']. exists e'. split; [done|].
  rewrite He'.
  pose proof (ConvertError_again (Some e)) as Hagain. rewrite He' in Hagain.
  by rewrite Hagain.
Qed.

Lemma Delete_list_failed_run (w w1 w2 : W) (currentJob : batchv1.Job) (e : error) :
  kubernetes.Jobs_Get client namespace name w = ((currentJob, None), w1) ->
  kubernetes.Pods_List client (metav1.Namespace (batchv1.ObjectMeta currentJob))
    (labels.AsSelector (selectorLabels currentJob)) w1 = (Err e, w2) ->
  (result (Part000.Delete c ctx cascade w) = Returned (ConvertError (Some e))
   /\ world (Part000.Delete c ctx cascade w) = w2
   /\ remoteCalls (events (Part000.Delete c ctx cascade w))
      = [JobsGet namespace name; listOwned currentJob])
  /\ (result (JobGo.Delete c ctx cascade w) = Returned (ConvertError (Some e))
      /\ world (JobGo.Delete c ctx cascade w) = w2
      /\ remoteCalls (events (JobGo.Delete c ctx cascade w))
         = [JobsGet namespace name; listOwned currentJob]).
Proof.
  intros Hget Hlist.
  destruct (collectPods_failed_run currentJob w1 w2 e Hlist) as (e' & He' & Hrun).
  unfold Part000.Delete, JobGo.Delete.
  rewrite Hjob, Hclient. autorewrite with run. fold namespace name.
  rewrite Hget. simpl. rewrite !(bind_run _ _ _ _ _ _ Hrun).
  autorewrite with run. rewrite He'. done.
Qed.

Lemma Part000_Upsert_delete_failed_run (w w1 w2 w3 : W) (currentJob : batchv1.Job)
    (podList : v1.PodList) (e : error) :
  kubernetes.Jobs_Get client namespace name w = ((currentJob, None), w1) ->
  kubernetes.Pods_List client (metav1.Namespace (batchv1.ObjectMeta currentJob))
    (labels.AsSelector (selectorLabels currentJob)) w1 = (Got podList, w2) ->
  kubernetes.Jobs_Delete client namespace name None w2 = (Some e, w3) ->
  let r := Part000.Upsert c ctx w in
  result r = Returned (ConvertError (Some e))
  /\ world r = w3
  /\ remoteCalls (events r)
     = [JobsGet namespace name; listOwned currentJob; JobsDelete namespace name None].
Proof.
  intros Hget Hlist Hdelete.
  unfold Part000.Upsert. rewrite Hjob, Hclient. autorewrite with run.
  fold namespace name. rewrite Hget. simpl.
  unfold Part000.upsertCurrent. autorewrite with run.
  rewrite bind_unfold, (collectPods_run c client currentJob w1 Hclient).
  fold (selectorLabels currentJob). rewrite Hlist. autorewrite with run.
  fold namespace name. rewrite Hdelete. simpl. autorewrite with run.
  unfold result, world, events. simpl. calls_norm. done.
Qed.

Lemma Part000_Upsert_create_failed_run (w w1 w2 w3 w4 : W) (currentJob : batchv1.Job)
    (podList : v1.PodList) (e : error) :
  kubernetes.Jobs_Get client namespace name w = ((currentJob, None), w1) ->
  kubernetes.Pods_List client (metav1.Namespace (batchv1.ObjectMeta currentJob))
    (labels.AsSelector (selectorLabels currentJob)) w1 = (Got podList, w2) ->
  kubernetes.Jobs_Delete client namespace name None w2 = (None, w3) ->
  kubernetes.Jobs_Create client namespace desired w3 = (Some e, w4) ->
  let r := Part000.Upsert c ctx w in
  result r = Returned (ConvertError (Some e))
  /\ world r = w4
  /\ remoteCalls (events r)
     = [JobsGet namespace name; listOwned currentJob; JobsDelete namespace name None;
        JobsCreate namespace desired].
Proof.
  intros Hget Hlist Hdelete Hcreate.
  unfold Part000.Upsert. rewrite Hjob, Hclient. autorewrite with run.
  fold namespace name. rewrite Hget. simpl.
  unfold Part000.upsertCurrent. autorewrite with run.
  rewrite bind_unfold, (collectPods_run c client currentJob w1 Hclient).
  fold (selectorLabels currentJob). rewrite Hlist. autorewrite with run.
  fold namespace name desired. rewrite Hdelete. simpl. autorewrite with run.
  rewrite Hcreate. simpl. autorewrite with run.
  unfold result, world, events. simpl. calls_norm. done.
Qed.

End FailedSteps.

(** X12: when the fetch fails, Delete, in both revisions and for either
    value of the flag, hands back the translated error of the fetch and has
    issued no call but the fetch: nothing is listed and nothing is
    deleted. *)
Theorem Delete_fetch_failed `{Package} {W : Type} `{Timing W}
    (c : JobControl W) (ctx : context.Ctx W) (cascade : bool) (cJob : batchv1.Job)
    (client : kubernetes.Clientset W) (w w1 : W) (fetched : batchv1.Job) (e : error) :
  Job (Config c) = Some cJob ->
  Clientset (Config c) = Some client ->
  let namespace := metav1.Namespace (batchv1.ObjectMeta cJob) in
  let name := metav1.Name (batchv1.ObjectMeta cJob) in
  kubernetes.Jobs_Get client namespace name w = ((fetched, Some e), w1) ->
  (result (Part000.Delete c ctx cascade w) = Returned (ConvertError (Some e))
   /\ world (Part000.Delete c ctx cascade w) = w1
   /\ remoteCalls (events (Part000.Delete c ctx cascade w)) = [JobsGet namespace name])
  /\ (result (JobGo.Delete c ctx cascade w) = Returned (ConvertError (Some e))
      /\ world (JobGo.Delete c ctx cascade w) = w1
      /\ remoteCalls (events (JobGo.Delete c ctx cascade w)) = [JobsGet namespace name]).
Proof.
  intros Hjob Hclient namespace name Hget.
  exact (Delete_fetch_failed_run c ctx cascade cJob client Hjob Hclient
           w w1 fetched e Hget).
Qed.

Lemma Delete_fetch_failed_witness :
  let j := Cluster.job "j" "" "Job" None None 0 0 in
  let s := Cluster.mkState [] [] in
  remoteCalls (events (JobGo.Delete (Cluster.controller j) Cluster.background true s))
  = [JobsGet "default" "j"].
Proof.
  intros j s.
  assert (Hget : kubernetes.Jobs_Get Cluster.client "default" "j" s
                 = ((Cluster.emptyJob, Some Cluster.notFound), s))
    by (vm_compute; reflexivity).
  exact (proj2 (proj2 (proj2 (Delete_fetch_failed (Cluster.controller j)
                                Cluster.background true j Cluster.client s s
                                Cluster.emptyJob Cluster.notFound
                                eq_refl eq_refl Hget)))).
Defined.

(** X13: when the pods of the fetched job cannot be listed, Delete, in both
    revisions, hands back the translated error of the list call and has
    issued only the fetch and the list call: the job is not deleted. *)
Theorem Delete_list_failed `{Package} {W : Type} `{Timing W}
    (c : JobControl W) (ctx : context.Ctx W) (cascade : bool) (cJob : batchv1.Job)
    (client : kubernetes.Clientset W) (w w1 w2 : W) (currentJob : batchv1.Job)
    (e : error) :
  Job (Config c) = Some cJob ->
  Clientset (Config c) = Some client ->
  let namespace := metav1.Namespace (batchv1.ObjectMeta cJob) in
  let name := metav1.Name (batchv1.ObjectMeta cJob) in
  kubernetes.Jobs_Get client namespace name w = ((currentJob, None), w1) ->
  kubernetes.Pods_List client (metav1.Namespace (batchv1.ObjectMeta currentJob))
    (labels.AsSelector (selectorLabels currentJob)) w1 = (Err e, w2) ->
  (result (Part000.Delete c ctx cascade w) = Returned (ConvertError (Some e))
   /\ world (Part000.Delete c ctx cascade w) = w2
   /\ remoteCalls (events (Part000.Delete c ctx cascade w))
      = [JobsGet namespace name; listOwned currentJob])
  /\ (result (JobGo.Delete c ctx cascade w) = Returned (ConvertError (Some e))
      /\ world (JobGo.Delete c ctx cascade w) = w2
      /\ remoteCalls (events (JobGo.Delete c ctx cascade w))
         = [JobsGet namespace name; listOwned currentJob]).
Proof.
  intros Hjob Hclient namespace name Hget Hlist.
  exact (Delete_list_failed_run c ctx cascade cJob client Hjob Hclient
           w w1 w2 currentJob e Hget Hlist).
Qed.

Lemma Delete_list_failed_witness :
  let j := Cluster.job "j" "uid-1" "Job" None None 0 0 in
  let s := Cluster.mkState [j] [] in
  let r := Part000.Delete (Faulty.controllerOn Faulty.denyList j)
             Cluster.background true s in
  result r = Returned (ConvertError (Some Faulty.forbidden)) /\ world r = s.
Proof.
  intros j s r.
  assert (Hget : kubernetes.Jobs_Get Faulty.denyList "default" "j" s = ((j, None), s))
    by (vm_compute; reflexivity).
  destruct (proj1 (Delete_list_failed (Faulty.controllerOn Faulty.denyList j)
                     Cluster.background true j Faulty.denyList s s s j
                     Faulty.forbidden eq_refl eq_refl Hget eq_refl))
    as (Hres & Hworld & _).
  split; [exact Hres | exact Hworld].
Defined.

(** X14: in the earlier revision, when the deletion of the old job fails,
    Upsert hands back the translated error and stops: it does not create the
    desired job. *)
Theorem Part000_Upsert_delete_failed `{Package} {W : Type}
    (c : JobControl W) (ctx : context.Ctx W) (cJob : batchv1.Job)
    (client : kubernetes.Clientset W) (w w1 w2 w3 : W) (currentJob : batchv1.Job)
    (podList : v1.PodList) (e : error) :
  Job (Config c) = Some cJob ->
  Clientset (Config c) = Some client ->
  let namespace := metav1.Namespace (batchv1.ObjectMeta cJob) in
  let name := metav1.Name (batchv1.ObjectMeta cJob) in
  kubernetes.Jobs_Get client namespace name w = ((currentJob, None), w1) ->
  kubernetes.Pods_List client (metav1.Namespace (batchv1.ObjectMeta currentJob))
    (labels.AsSelector (selectorLabels currentJob)) w1 = (Got podList, w2) ->
  kubernetes.Jobs_Delete client namespace name None w2 = (Some e, w3) ->
  let r := Part000.Upsert c ctx w in
  result r = Returned (ConvertError (Some e))
  /\ world r = w3
  /\ remoteCalls (events r)
     = [JobsGet namespace name; listOwned currentJob; JobsDelete namespace name None].
Proof.
  intros Hjob Hclient namespace name Hget Hlist Hdelete.
  exact (Part000_Upsert_delete_failed_run c ctx cJob client Hjob Hclient
           w w1 w2 w3 currentJob podList e Hget Hlist Hdelete).
Qed.

Lemma Part000_Upsert_delete_failed_witness :
  let old := Cluster.job "j" "uid-1" "Job" None None 0 0 in
  let desired := Cluster.job "j" "" "Job" None None 0 0 in
  let s := Cluster.mkState [old] [] in
  let r := Part000.Upsert (Faulty.controllerOn Faulty.denyDelete desired)
             Cluster.background s in
  result r = Returned (ConvertError (Some Faulty.forbidden)) /\ world r = s.
Proof.
  intros old desired s r.
  assert (Hget : kubernetes.Jobs_Get Faulty.denyDelete "default" "j" s
                 = ((old, None), s)) by (vm_compute; reflexivity).
  assert (Hlist : kubernetes.Pods_List Faulty.denyDelete "default"
                    (labels.AsSelector (selectorLabels old)) s
                  = (Got (v1.mkPodList []), s)) by (vm_compute; reflexivity).
  destruct (Part000_Upsert_delete_failed (Faulty.controllerOn Faulty.denyDelete desired)
              Cluster.background desired Faulty.denyDelete s s s s old
              (v1.mkPodList []) Faulty.forbidden eq_refl eq_refl Hget Hlist eq_refl)
    as (Hres & Hworld & _).
  split; [exact Hres | exact Hworld].
Defined.

(** X15: in the earlier revision, when the old job is deleted and the
    creation of the desired job fails, Upsert hands back the translated
    error of the create call and deletes no pod; the old job stays
    deleted. *)
Theorem Part000_Upsert_create_failed `{Package} {W : Type}
    (c : JobControl W) (ctx : context.Ctx W) (cJob : batchv1.Job)
    (client : kubernetes.Clientset W) (w w1 w2 w3 w4 : W) (currentJob : batchv1.Job)
    (podList : v1.PodList) (e : error) :
  Job (Config c) = Some cJob ->
  Clientset (Config c) = Some client ->
  let namespace := metav1.Namespace (batchv1.ObjectMeta cJob) in
  let name := metav1.Name (batchv1.ObjectMeta cJob) in
  kubernetes.Jobs_Get client namespace name w = ((currentJob, None), w1) ->
  kubernetes.Pods_List client (metav1.Namespace (batchv1.ObjectMeta currentJob))
    (labels.AsSelector (selectorLabels currentJob)) w1 = (Got podList, w2) ->
  kubernetes.Jobs_Delete client namespace name None w2 = (None, w3) ->
  kubernetes.Jobs_Create client namespace (stripForCreate cJob) w3 = (Some e, w4) ->
  let r := Part000.Upsert c ctx w in
  result r = Returned (ConvertError (Some e))
  /\ world r = w4
  /\ remoteCalls (events r)
     = [JobsGet namespace name; listOwned currentJob; JobsDelete namespace name None;
        JobsCreate namespace (stripForCreate cJob)].
Proof.
  intros Hjob Hclient namespace name Hget Hlist Hdelete Hcreate.
  exact (Part000_Upsert_create_failed_run c ctx cJob client Hjob Hclient
           w w1 w2 w3 w4 currentJob podList e Hget Hlist Hdelete Hcreate).
Qed.

Lemma Part000_Upsert_create_failed_witness :
  let old := Cluster.job "j" "uid-1" "Job" None None 0 0 in
  let desired := Cluster.job "j" "" "Job" None None 0 0 in
  let p1 := Cluster.pod "p1" "n1" ∅ (Cluster.createdBy "Job/uid-1") in
  let s := Cluster.mkState [old] [p1] in
  let r := Part000.Upsert (Faulty.controllerOn Faulty.denyCreate desired)
             Cluster.background s in
  result r = Returned (ConvertError (Some Faulty.forbidden))
  /\ world r = Cluster.mkState [] [p1].
Proof.
  intros old desired p1 s r.
  assert (Hget : kubernetes.Jobs_Get Faulty.denyCreate "default" "j" s
                 = ((old, None), s)) by (vm_compute; reflexivity).
  assert (Hlist : kubernetes.Pods_List Faulty.denyCreate "default"
                    (labels.AsSelector (selectorLabels old)) s
                  = (Got (v1.mkPodList [p1]), s)) by (vm_compute; reflexivity).
  assert (Hdelete : kubernetes.Jobs_Delete Faulty.denyCreate "default" "j" None s
                    = (None, Cluster.mkState [] [p1])) by (vm_compute; reflexivity).
  destruct (Part000_Upsert_create_failed (Faulty.controllerOn Faulty.denyCreate desired)
              Cluster.background desired Faulty.denyCreate s s s
              (Cluster.mkState [] [p1]) (Cluster.mkState [] [p1]) old
              (v1.mkPodList [p1]) Faulty.forbidden eq_refl eq_refl Hget Hlist Hdelete
              eq_refl)
    as (Hres & Hworld & _).
  split; [exact Hres | exact Hworld].
Defined.

(** ** Nil fields, stripping, construction *)

(** X16: the operations of a controller whose Job or Clientset field is nil
    panic before they reach the cluster: no remote call is issued and the
    state is left as it is, in both revisions. *)
Theorem nil_field_panics `{Package} {W : Type} `{Timing W}
    (c : JobControl W) (ctx : context.Ctx W) (cascade : bool) (w : W) :
  Job (Config c) = None \/ Clientset (Config c) = None ->
  let untouched (r : outcome (option error) * W * list Event) :=
    result r = Panicked /\ world r = w /\ remoteCalls (events r) = [] in
  untouched (Status c w)
  /\ untouched (Part000.Delete c ctx cascade w)
  /\ untouched (Part000.Upsert c ctx w)
  /\ untouched (JobGo.Delete c ctx cascade w)
  /\ untouched (JobGo.Upsert c ctx w).
Proof.
  intros Hnil untouched. subst untouched. cbv beta.
  unfold Status, Part000.Delete, Part000.Upsert, JobGo.Delete, JobGo.Upsert.
  destruct (Job (Config c)) as [cJob|], (Clientset (Config c)) as [client|];
    try (by destruct Hnil);
    repeat split;
    repeat (first [ rewrite bind_deref | rewrite bind_logf
                  | rewrite (bind_panicked (deref None) _ w w []) by done ]);
    try done.
Qed.

Lemma nil_field_panics_witness :
  result (Part000.Upsert
            (mkJobControl (mkJobConfig (W := Cluster.State) (Some Cluster.emptyJob) None)
               (log.WithFields "default/j"))
            Cluster.background (Cluster.mkState [] []))
  = Panicked.
Proof.
  exact (proj1 (proj1 (proj2 (proj2
           (nil_field_panics
              (mkJobControl (mkJobConfig (W := Cluster.State) (Some Cluster.emptyJob) None)
                 (log.WithFields "default/j"))
              Cluster.background true (Cluster.mkState [] []) (or_intror eq_refl)))))).
Defined.

(** X17: stripping is idempotent, and what it removes is the generated
    label alone: under the selector and under the template the label is
    gone and every other label is kept; kind, apiVersion, name, namespace,
    labels, annotations, completions and status of the job are kept. *)
Theorem stripForCreate_frame `{Package} (job : batchv1.Job) :
  let desired := stripForCreate job in
  stripForCreate desired = desired
  /\ (forall selector, batchv1.Selector (batchv1.Spec job) = Some selector ->
        exists selector',
          batchv1.Selector (batchv1.Spec desired) = Some selector'
          /\ metav1.MatchLabels selector' !! ControllerUIDLabel = None
          /\ (forall label, label <> ControllerUIDLabel ->
                metav1.MatchLabels selector' !! label
                = metav1.MatchLabels selector !! label)
          /\ metav1.Labels (v1.TemplateMeta (batchv1.Template (batchv1.Spec desired)))
               !! ControllerUIDLabel = None
          /\ (forall label, label <> ControllerUIDLabel ->
                metav1.Labels (v1.TemplateMeta (batchv1.Template (batchv1.Spec desired)))
                  !! label
                = metav1.Labels (v1.TemplateMeta (batchv1.Template (batchv1.Spec job)))
                    !! label))
  /\ (batchv1.Selector (batchv1.Spec job) = None ->
        batchv1.Spec desired = batchv1.Spec job)
  /\ batchv1.TypeMeta desired = batchv1.TypeMeta job
  /\ metav1.Name (batchv1.ObjectMeta desired) = metav1.Name (batchv1.ObjectMeta job)
  /\ metav1.Namespace (batchv1.ObjectMeta desired)
     = metav1.Namespace (batchv1.ObjectMeta job)
  /\ metav1.Labels (batchv1.ObjectMeta desired) = metav1.Labels (batchv1.ObjectMeta job)
  /\ metav1.Annotations (batchv1.ObjectMeta desired)
     = metav1.Annotations (batchv1.ObjectMeta job)
  /\ batchv1.Completions (batchv1.Spec desired) = batchv1.Completions (batchv1.Spec job)
  /\ batchv1.Status desired = batchv1.Status job.
Proof.
  intros desired. subst desired. unfold stripForCreate. simpl.
  destruct (batchv1.Selector (batchv1.Spec job)) as [selector|] eqn:Hsel; simpl.
  - split.
    { unfold deleteLabel, clearIdentity. simpl. by rewrite !delete_delete_eq. }
    split.
    { intros ? [= <-]. eexists. split; [reflexivity|]. simpl.
      split; [apply lookup_delete_eq|].
      split; [intros label Hne; by apply lookup_delete_ne|].
      split; [apply lookup_delete_eq|].
      intros label Hne. by apply lookup_delete_ne. }
    split; [done|]. repeat split.
  - rewrite Hsel. split; [done|]. split; [done|]. repeat split.
Qed.

Lemma stripForCreate_frame_witness :
  let selector := metav1.mkLabelSelector {[ "controller-uid" := "u1"; "app" := "a" ]} in
  let j := Cluster.job "j" "u1" "Job" (Some selector) None 0 0 in
  exists selector',
    batchv1.Selector (batchv1.Spec (stripForCreate j)) = Some selector'
    /\ metav1.MatchLabels selector' !! "controller-uid" = None.
Proof.
  intros selector j.
  destruct (proj1 (proj2 (stripForCreate_frame j)) selector eq_refl)
    as (selector' & Hsel & Hgone & _).
  exists selector'. split; [exact Hsel | exact Hgone].
Defined.

(** X18: construction is idempotent: the configuration of a controller that
    NewJobControl built is accepted again and yields the same controller. *)
Theorem NewJobControl_idempotent `{Package} {W : Type}
    (config : JobConfig W) (c : JobControl W) :
  NewJobControl config = Returned (Got c) ->
  NewJobControl (Config c) = Returned (Got c).
Proof.
  unfold NewJobControl, checkAndSetDefaults.
  destruct (Clientset config) as [client|]; [|done].
  destruct (Job config) as [job|]; [|done].
  simpl. intros [= <-]. simpl.
  destruct (String.eqb_spec (metav1.APIVersion (batchv1.TypeMeta job)) "") as [He|Hne];
    simpl.
  - destruct (String.eqb_spec BatchAPIVersion "") as [Hb|Hb]; simpl; [|done].
    unfold setAPIVersion, setKind. simpl. by rewrite Hb.
  - apply String.eqb_neq in Hne. rewrite Hne. simpl.
    unfold setKind. simpl. by destruct job as [[kind version] meta spec status].
Qed.

Lemma NewJobControl_idempotent_witness :
  NewJobControl (Config (controlFor Cluster.client Cluster.emptyJob))
  = Returned (Got (controlFor Cluster.client Cluster.emptyJob)).
Proof.
  apply (NewJobControl_idempotent
           (mkJobConfig (Some Cluster.emptyJob) (Some Cluster.client))).
  reflexivity.
Defined.

(** ** What is collected, and what Delete never does *)

(** X19: collectPods never hands back a pod of another owner: every pod in
    the mapping was listed, is keyed by the node it is bound to, and carries
    a creation annotation that parses to a reference of the Job kind with
    the UID of the job asked for. *)
Theorem collectPods_owner `{Package} {W : Type}
    (c : JobControl W) (client : kubernetes.Clientset W) (job : batchv1.Job)
    (w w' : W) (podList : v1.PodList) :
  Clientset (Config c) = Some client ->
  kubernetes.Pods_List client (metav1.Namespace (batchv1.ObjectMeta job))
    (labels.AsSelector (selectorLabels job)) w = (Got podList, w') ->
  exists pods : gmap string v1.Pod,
    result (collectPods c job w) = Returned (Got pods)
    /\ forall node pod,
         pods !! node = Some pod ->
         pod ∈ v1.Items podList
         /\ v1.NodeName (v1.Spec pod) = node
         /\ exists createdBy ref,
              metav1.Annotations (v1.ObjectMeta pod) !! AnnotationCreatedBy
              = Some createdBy
              /\ ParseSerializedReference createdBy = Got ref
              /\ api.Kind (api.Reference ref) = KindJob
              /\ api.UID (api.Reference ref) = metav1.UID (batchv1.ObjectMeta job).
Proof.
  intros Hclient Hlist.
  rewrite (collectPods_run c client job w Hclient).
  fold (selectorLabels job). rewrite Hlist.
  eexists. split; [reflexivity|].
  intros node pod Hl.
  apply collected_empty_lookup in Hl as (before & later & Heq & Hq & Hn & _).
  split; [rewrite Heq; apply elem_of_app; right; apply list_elem_of_here|].
  split; [done|].
  unfold qualifies in Hq.
  destruct (metav1.Annotations (v1.ObjectMeta pod) !! AnnotationCreatedBy)
    as [createdBy|]; [|done].
  destruct (ParseSerializedReference createdBy) as [ref|] eqn:Hparse; [|done].
  exists createdBy, ref. split; [done|]. split; [done|].
  unfold ownedBy in Hq. apply andb_true_iff in Hq as [Hkind Huid].
  by apply String.eqb_eq in Hkind, Huid.
Qed.

Lemma collectPods_owner_witness :
  let old := Cluster.job "j" "uid-1" "Job" None None 0 0 in
  let p1 := Cluster.pod "p1" "n1" ∅ (Cluster.createdBy "Job/uid-1") in
  let p2 := Cluster.pod "p2" "n2" ∅ (Cluster.createdBy "Job/uid-2") in
  let s := Cluster.mkState [old] [p1; p2] in
  exists pods : gmap string v1.Pod,
    result (collectPods (Cluster.controller old) old s) = Returned (Got pods)
    /\ forall node pod, pods !! node = Some pod -> pod ∈ [p1; p2].
Proof.
  intros old p1 p2 s.
  assert (Hlist : kubernetes.Pods_List Cluster.client "default"
                    (labels.AsSelector (selectorLabels old)) s
                  = (Got (v1.mkPodList [p1; p2]), s))
    by (vm_compute; reflexivity).
  destruct (collectPods_owner (Cluster.controller old) Cluster.client old s s
              (v1.mkPodList [p1; p2]) eq_refl Hlist) as (pods & Hres & Hall).
  exists pods. split; [exact Hres|].
  intros node pod Hl. exact (proj1 (Hall node pod Hl)).
Defined.

(** X20: when the list call fails, CollectPods hands back the translated
    error and no mapping; the list call is its only event, nothing is
    logged. *)
Theorem CollectPods_list_failed `{Package} {W : Type}
    (namespace : string) (matchLabels : gmap string string) (entry : log.Entry)
    (client : kubernetes.Clientset W) (fn : api.ObjectReference -> bool)
    (w w' : W) (e : error) :
  kubernetes.Pods_List client namespace (labels.AsSelector matchLabels) w
  = (Err e, w') ->
  exists e' : error,
    ConvertError (Some e) = Some e'
    /\ CollectPods namespace matchLabels entry client fn w
       = (Returned (Err e'), w',
          [Remote (PodsList namespace (labels.AsSelector matchLabels)) (Some e)]).
Proof.
  intros Hlist. rewrite CollectPods_run, Hlist.
  destruct (ConvertError_some e) as [e' He']. exists e'. by rewrite He'.
Qed.

Lemma CollectPods_list_failed_witness :
  exists e' : error,
    ConvertError (Some Faulty.forbidden) = Some e'
    /\ CollectPods "default" ∅ (log.WithFields "default/j") Faulty.denyList
         (fun _ => true) (Cluster.mkState [] [])
       = (Returned (Err e'), Cluster.mkState [] [],
          [Remote (PodsList "default" (labels.AsSelector ∅)) (Some Faulty.forbidden)]).
Proof.
  exact (CollectPods_list_failed "default" ∅ (log.WithFields "default/j")
           Faulty.denyList (fun _ => true) (Cluster.mkState [] [])
           (Cluster.mkState [] []) Faulty.forbidden eq_refl).
Defined.

Lemma Forall_prefix_of {A : Type} (P : A -> Prop) (l1 l2 : list A) :
  l1 `prefix_of` l2 -> Forall P l2 -> Forall P l1.
Proof. intros [k ->] Hall. by apply Forall_app in Hall as [Hall _]. Qed.

Lemma podDeletions_no_create (namespace : string) (pods : list (string * v1.Pod)) :
  Forall (fun call => isCreate call = false) (podDeletions namespace pods).
Proof. unfold podDeletions. apply Forall_fmap, Forall_true. done. Qed.

(** X21: Delete never creates a job: on every path, in both revisions, no
    create call is among its remote calls. *)
Theorem Delete_never_creates `{Package} {W : Type} `{Timing W}
    (c : JobControl W) (ctx : context.Ctx W) (cascade : bool) (w : W) :
  Forall (fun call => isCreate call = false)
    (remoteCalls (events (Part000.Delete c ctx cascade w)))
  /\ Forall (fun call => isCreate call = false)
       (remoteCalls (events (JobGo.Delete c ctx cascade w))).
Proof.
  destruct (Job (Config c)) as [cJob|] eqn:Hjob.
  2:{ unfold Part000.Delete, JobGo.Delete. rewrite Hjob.
      rewrite !(bind_panicked (deref None) _ w w []) by done. split; constructor. }
  destruct (Clientset (Config c)) as [client|] eqn:Hclient.
  2:{ unfold Part000.Delete, JobGo.Delete. rewrite Hjob, Hclient.
      autorewrite with run.
      rewrite !(bind_panicked (deref None) _ w w []) by done. split; constructor. }
  destruct (kubernetes.Jobs_Get client (metav1.Namespace (batchv1.ObjectMeta cJob))
              (metav1.Name (batchv1.ObjectMeta cJob)) w) as [[currentJob [e|]] w1]
    eqn:Hget.
  { destruct (Delete_fetch_failed_run c ctx cascade cJob client Hjob Hclient
                w w1 currentJob e Hget) as [(_ & _ & ->) (_ & _ & ->)].
    split; by repeat constructor. }
  destruct (kubernetes.Pods_List client
              (metav1.Namespace (batchv1.ObjectMeta currentJob))
              (labels.AsSelector (selectorLabels currentJob)) w1)
    as [[podList|e] w2] eqn:Hlist.
  - split.
    + destruct (Part000_Delete_calls c ctx cascade cJob client Hjob Hclient
                  w w1 w2 currentJob podList Hget Hlist) as (Hpre & _).
      eapply Forall_prefix_of; [exact Hpre|].
      repeat (apply Forall_cons; split; [done|]). apply podDeletions_no_create.
    + destruct (JobGo_Delete_calls c ctx cascade cJob client Hjob Hclient
                  w w1 w2 currentJob podList Hget Hlist) as (k & _ & Hpre & _).
      eapply Forall_prefix_of; [exact Hpre|].
      repeat (apply Forall_cons; split; [done|]).
      apply Forall_app. split; [by apply Forall_replicate|].
      apply podDeletions_no_create.
  - destruct (Delete_list_failed_run c ctx cascade cJob client Hjob Hclient
                w w1 w2 currentJob e Hget Hlist) as [(_ & _ & ->) (_ & _ & ->)].
    split; by repeat constructor.
Qed.
